(** * Chaos-engineering plan generator: index reader, model invoker,
      prompt assembler and plan orchestrator

    A shallow embedding of
      - [src/chaos_code.py]  (OpenSearchClient, LLMClient, ChaosPlanGenerator)
      - [src/backend/clients/opensearch_client.py]  (OpenSearchClient)
      - [src/backend/main.py]  (plan_generator_stream)
    followed by the properties of the plan-generation pipeline.

    Python values are an inductive type, dictionaries are association lists in
    insertion order, exceptions are values of a result type, and the outside
    world (HTTP session, Bedrock runtime, clock, stdout) is a deterministic
    environment whose answers may depend on the whole history of effects. *)

From Stdlib Require Import String Ascii List ZArith QArith Lia Bool DecimalString.
Import ListNotations.
Open Scope string_scope.
Set Warnings "-register-all".

(* ===================================================================== *)
(** * Python values and the builtins the sources use                       *)
(* ===================================================================== *)

Module Py.

(** JSON-shaped Python values.  A [str] is a sequence of code points below 256;
    a [float] is carried by its [repr] (shortest round-trip) text, which is all
    the sources ever need of it: its truth value and its rendering. *)
Inductive value : Type :=
| VNone
| VBool (b : bool)
| VInt (z : Z)
| VFloat (r : string)
| VStr (s : string)
| VList (l : list value)
| VDict (d : list (string * value)).

(** Exceptions below [Exception].  [ClientError] is botocore's, with the name
    of the operation, [e.response['Error']['Code']] and
    [e.response['Error']['Message']]; every other class is kept by name
    together with [str(e)]. *)
Inductive exn : Type :=
| ClientError (operation code message : string)
| PyError (cls : string) (msg : string).

Inductive result (A : Type) : Type :=
| Ok (a : A)
| Raise (e : exn).
Arguments Ok {A} a.
Arguments Raise {A} e.

Definition dq : string := String "034" EmptyString.
Definition nl : string := String "010" EmptyString.

Definition str_of_Z (z : Z) : string := NilZero.string_of_int (Z.to_int z).

(** [str(e)] *)
Definition exn_str (e : exn) : string :=
  match e with
  | ClientError operation code message =>
      "An error occurred (" ++ code ++ ") when calling the " ++ operation
        ++ " operation: " ++ message
  | PyError _ msg => msg
  end.

Definition type_name (v : value) : string :=
  match v with
  | VNone => "NoneType"
  | VBool _ => "bool"
  | VInt _ => "int"
  | VFloat _ => "float"
  | VStr _ => "str"
  | VList _ => "list"
  | VDict _ => "dict"
  end.

(** [bool(v)] *)
Definition truthy (v : value) : bool :=
  match v with
  | VNone => false
  | VBool b => b
  | VInt z => negb (z =? 0)%Z
  | VFloat r => negb ((r =? "0.0") || (r =? "-0.0"))
  | VStr s => negb (s =? EmptyString)
  | VList l => match l with [] => false | _ => true end
  | VDict d => match d with [] => false | _ => true end
  end.

(** Key lookup in a dict. *)
Fixpoint lookup {V : Type} (d : list (string * V)) (k : string) : option V :=
  match d with
  | [] => None
  | (k', v) :: d' => if k' =? k then Some v else lookup d' k
  end.

(** [d[k] = v]: overwrite in place, or append at the end. *)
Fixpoint store {V : Type} (d : list (string * V)) (k : string) (v : V)
  : list (string * V) :=
  match d with
  | [] => [(k, v)]
  | (k', v') :: d' => if k' =? k then (k, v) :: d' else (k', v') :: store d' k v
  end.

(** [d.update(other)] *)
Definition update {V : Type} (d other : list (string * V)) : list (string * V) :=
  fold_left (fun acc kv => store acc (fst kv) (snd kv)) other d.

Definition no_attribute (v : value) (attr : string) : exn :=
  PyError "AttributeError"
    ("'" ++ type_name v ++ "' object has no attribute '" ++ attr ++ "'").

(** [v.get(k, default)] *)
Definition get (v : value) (k : string) (default : value) : result value :=
  match v with
  | VDict d => Ok (match lookup d k with Some x => x | None => default end)
  | _ => Raise (no_attribute v "get")
  end.

(** [v.get(k)] *)
Definition get1 (v : value) (k : string) : result value := get v k VNone.

Definition not_subscriptable (v : value) : exn :=
  PyError "TypeError" ("'" ++ type_name v ++ "' object is not subscriptable").

(** [v[k]] for a string key [k] *)
Definition subscript (v : value) (k : string) : result value :=
  match v with
  | VDict d =>
      match lookup d k with
      | Some x => Ok x
      | None => Raise (PyError "KeyError" ("'" ++ k ++ "'"))
      end
  | VList _ =>
      Raise (PyError "TypeError" "list indices must be integers or slices, not str")
  | VStr _ =>
      Raise (PyError "TypeError" "string indices must be integers, not 'str'")
  | _ => Raise (not_subscriptable v)
  end.

(** [v[0]] *)
Definition subscript0 (v : value) : result value :=
  match v with
  | VList l =>
      match l with
      | x :: _ => Ok x
      | [] => Raise (PyError "IndexError" "list index out of range")
      end
  | VStr s =>
      match s with
      | String c _ => Ok (VStr (String c EmptyString))
      | EmptyString => Raise (PyError "IndexError" "string index out of range")
      end
  | VDict _ => Raise (PyError "KeyError" "0")
  | _ => Raise (not_subscriptable v)
  end.

Fixpoint chars (s : string) : list value :=
  match s with
  | EmptyString => []
  | String c s' => VStr (String c EmptyString) :: chars s'
  end.

(** The items that [for x in v[:n]] visits. *)
Definition slice_items (v : value) (n : nat) : result (list value) :=
  match v with
  | VList l => Ok (firstn n l)
  | VStr s => Ok (firstn n (chars s))
  | VDict _ => Raise (PyError "TypeError" "unhashable type: 'slice'")
  | _ => Raise (not_subscriptable v)
  end.

(** [len(v)] *)
Definition len (v : value) : result Z :=
  match v with
  | VStr s => Ok (Z.of_nat (String.length s))
  | VList l => Ok (Z.of_nat (List.length l))
  | VDict d => Ok (Z.of_nat (List.length d))
  | _ => Raise (PyError "TypeError"
                  ("object of type '" ++ type_name v ++ "' has no len()"))
  end.

(** [v == s] for a string literal [s] *)
Definition eq_str (v : value) (s : string) : bool :=
  match v with
  | VStr s' => s' =? s
  | _ => false
  end.

(** ** [repr] and [str] *)

Fixpoint has_char (c : ascii) (s : string) : bool :=
  match s with
  | EmptyString => false
  | String c' s' => (c' =? c)%char || has_char c s'
  end.

Definition hex_digit (n : nat) : ascii :=
  nth n ["0"; "1"; "2"; "3"; "4"; "5"; "6"; "7"; "8"; "9";
         "a"; "b"; "c"; "d"; "e"; "f"]%char "0"%char.

Definition repr_char (quote c : ascii) : string :=
  let n := nat_of_ascii c in
  if (c =? quote)%char || (c =? "\")%char then String "\" (String c EmptyString)
  else if (n =? 9)%nat then "\t"
  else if (n =? 10)%nat then "\n"
  else if (n =? 13)%nat then "\r"
  else if (n <? 32)%nat || ((127 <=? n)%nat && (n <=? 160)%nat) || (n =? 173)%nat
       then String "\" (String "x" (String (hex_digit (n / 16))
                                      (String (hex_digit (n mod 16)) EmptyString)))
  else String c EmptyString.

Fixpoint repr_chars (quote : ascii) (s : string) : string :=
  match s with
  | EmptyString => EmptyString
  | String c s' => repr_char quote c ++ repr_chars quote s'
  end.

Definition repr_str (s : string) : string :=
  let quote := if has_char "'" s && negb (has_char "034" s) then "034"%char else "'"%char in
  String quote (repr_chars quote s ++ String quote EmptyString).

Fixpoint py_repr (v : value) : string :=
  match v with
  | VNone => "None"
  | VBool b => if b then "True" else "False"
  | VInt z => str_of_Z z
  | VFloat r => r
  | VStr s => repr_str s
  | VList l => "[" ++ String.concat ", " (map py_repr l) ++ "]"
  | VDict d =>
      "{" ++ String.concat ", "
               (map (fun kv => match kv with
                               | (k, x) => repr_str k ++ ": " ++ py_repr x
                               end) d) ++ "}"
  end.

(** [str(v)] *)
Definition py_str (v : value) : string :=
  match v with
  | VStr s => s
  | _ => py_repr v
  end.

(** ** [format(v, ',')] *)

(** Split a text at its first character that is not a decimal digit. *)
Fixpoint span_digits (s : string) : string * string :=
  match s with
  | EmptyString => (EmptyString, EmptyString)
  | String c s' =>
      if (48 <=? nat_of_ascii c)%nat && (nat_of_ascii c <=? 57)%nat
      then let (ds, rest) := span_digits s' in (String c ds, rest)
      else (EmptyString, s)
  end.

(** Insert a comma before every group of three digits counted from the right. *)
Fixpoint group3 (ds : string) : string :=
  match ds with
  | EmptyString => EmptyString
  | String c ds' =>
      String c (if ((String.length ds' mod 3 =? 0) && negb (String.length ds' =? 0))%nat
                then "," ++ group3 ds' else group3 ds')
  end.

Definition group_number (s : string) : string :=
  match s with
  | String "-" s' =>
      let (ds, rest) := span_digits s' in String "-" (group3 ds ++ rest)
  | _ => let (ds, rest) := span_digits s in group3 ds ++ rest
  end.

Definition format_comma (v : value) : result string :=
  match v with
  | VInt z => Ok (group_number (str_of_Z z))
  | VBool b => Ok (if b then "1" else "0")
  | VFloat r => Ok (group_number r)
  | VStr _ => Raise (PyError "ValueError" "Cannot specify ',' with 's'.")
  | _ => Raise (PyError "TypeError"
                  ("unsupported format string passed to " ++ type_name v ++ ".__format__"))
  end.

End Py.

(* ===================================================================== *)
(** * The outside world                                                    *)
(* ===================================================================== *)

Module World.
Import Py.

(** The prompt of [ChaosPlanGenerator._create_prompt] is one f-string: a fixed
    text with eight holes.  The fixed text (heading, instructions, failure-mode
    table) is the same for every call; a prompt is kept as the contents of its
    holes, [sample_docs] being the argument of [json.dumps(_, indent=2)]. *)
Record Prompt : Type := {
  p_index_name : string;
  p_total_documents : string;
  p_query_time : string;
  p_fetched : string;
  p_sample_docs : list value;
  p_focus : string;
  p_security : string;
  p_include_external : string
}.

(** [requests.Response]: status line, URL, and what [.json()] gives. *)
Record Response : Type := {
  status_code : Z;
  reason : string;
  url : string;
  json : result value
}.

(** Effects, in the order they happen. *)
Inductive event : Type :=
| EGet (target : string)
| EPost (target : string) (body : value)
| ETime
| ECreateClient (region : string)
| EInvokeModel (model : string) (prompt : Prompt)
| EInvokeModelStream (model : string) (prompt : Prompt)
| EPrint (msg : string)
| ESleep (seconds : Z)
| EStError (msg : string)
| ELoggerError (msg : string).

(** What the collaborators answer, given everything that happened before.
    [invoke_model] stands for [client.invoke_model(...)] followed by
    [json.loads(response["body"].read())]; a stream is the sequence of its
    decoded events, one of which may fail. *)
Record Env : Type := {
  session_get : list event -> string -> result Response;
  session_post : list event -> string -> value -> result Response;
  time_time : list event -> Q;
  boto3_client : list event -> string -> result unit;
  invoke_model : list event -> string -> Prompt -> result value;
  invoke_model_with_response_stream :
    list event -> string -> Prompt -> result (list (result value))
}.

(** Program state: the history of effects and the [client] attribute of the
    request's [LLMClient] ([true] once [self.client] is set). *)
Record State : Type := {
  history : list event;
  client : bool
}.

Definition initial : State := {| history := []; client := false |}.

Definition record (ev : event) (st : State) : State :=
  {| history := history st ++ [ev]; client := client st |}.

(** State and exception monad. *)
Definition M (A : Type) : Type := State -> result A * State.

Definition ret {A} (a : A) : M A := fun st => (Ok a, st).

Definition bind {A B} (m : M A) (k : A -> M B) : M B :=
  fun st =>
    match m st with
    | (Ok a, st') => k a st'
    | (Raise e, st') => (Raise e, st')
    end.

Definition raise {A} (e : exn) : M A := fun st => (Raise e, st).

Definition lift {A} (r : result A) : M A := fun st => (r, st).

(** [try: m  except Exception as e: handler e] *)
Definition try_except {A} (m : M A) (handler : exn -> M A) : M A :=
  fun st =>
    match m st with
    | (Ok a, st') => (Ok a, st')
    | (Raise e, st') => handler e st'
    end.

Definition effect (ev : event) : M unit := fun st => (Ok tt, record ev st).

Definition rbind {A B} (r : result A) (k : A -> result B) : result B :=
  match r with
  | Ok a => k a
  | Raise e => Raise e
  end.

Declare Scope monad_scope.
Delimit Scope monad_scope with monad.
Notation "x <- m ;; k" := (bind m (fun x => k))
  (at level 100, m at next level, right associativity) : monad_scope.
Notation "m ;; k" := (bind m (fun _ => k))
  (at level 100, right associativity) : monad_scope.

Declare Scope result_scope.
Delimit Scope result_scope with result.
Notation "x <- r ;; k" := (rbind r (fun x => k))
  (at level 100, r at next level, right associativity) : result_scope.

(** A generator run to its end: the values it yielded, how it stopped
    ([None]: exhausted, [Some e]: raised [e] to its consumer) and the state. *)
Definition Gen (A : Type) : Type := State -> list A * option exn * State.

Section Collaborators.
Variable env : Env.

Definition get_ (target : string) : M Response :=
  fun st => (session_get env (history st) target, record (EGet target) st).

Definition post_ (target : string) (body : value) : M Response :=
  fun st => (session_post env (history st) target body, record (EPost target body) st).

Definition time_ : M Q :=
  fun st => (Ok (time_time env (history st)), record ETime st).

Definition print (msg : string) : M unit := effect (EPrint msg).
Definition sleep (seconds : Z) : M unit := effect (ESleep seconds).
Definition st_error (msg : string) : M unit := effect (EStError msg).
Definition logger_error (msg : string) : M unit := effect (ELoggerError msg).

End Collaborators.

(** [response.raise_for_status()] of requests: an [HTTPError] for the status
    codes 400..599 and for no other. *)
Definition http_error_msg (r : Response) : string :=
  if (400 <=? status_code r)%Z && (status_code r <? 500)%Z
  then str_of_Z (status_code r) ++ " Client Error: " ++ reason r ++ " for url: " ++ url r
  else if (500 <=? status_code r)%Z && (status_code r <? 600)%Z
  then str_of_Z (status_code r) ++ " Server Error: " ++ reason r ++ " for url: " ++ url r
  else EmptyString.

Definition raise_for_status (r : Response) : result unit :=
  if http_error_msg r =? EmptyString then Ok tt
  else Raise (PyError "HTTPError" (http_error_msg r)).

(** [response.ok] *)
Definition ok (r : Response) : bool :=
  match raise_for_status r with
  | Ok _ => true
  | Raise _ => false
  end.

End World.

(* ===================================================================== *)
(** * Index reader: [OpenSearchClient]                                     *)
(* ===================================================================== *)

Module OpenSearch.
Import Py World.
Local Open Scope monad_scope.

Record OpenSearchClient : Type := {
  endpoint : string;
  auth : string * string;
  timeout : Z
}.

(** [s.rstrip('/')] *)
Fixpoint rstrip_slash (s : string) : string :=
  match s with
  | EmptyString => EmptyString
  | String c s' =>
      let r := rstrip_slash s' in
      if (c =? "/")%char && (r =? EmptyString) then EmptyString else String c r
  end.

(** [OpenSearchClient.__init__] *)
Definition init (endpoint username password : string) : OpenSearchClient :=
  {| endpoint := rstrip_slash endpoint;
     auth := (username, password);
     timeout := 30 |}.

Definition search_body : value :=
  VDict [("size", VInt 10000); ("query", VDict [("match_all", VDict [])])].

Section WithEnv.
Variable env : Env.

(** The [try] block of [get_index_data], the same text in both sources. *)
Definition get_index_data_try (self : OpenSearchClient) (index_name : string)
  : M value :=
  mapping_response <- get_ env (endpoint self ++ "/" ++ index_name ++ "/_mapping") ;;
  search_response <- post_ env (endpoint self ++ "/" ++ index_name ++ "/_search")
                               search_body ;;
  lift (raise_for_status search_response) ;;
  data <- lift (json search_response) ;;
  hits <- lift (h <- get data "hits" (VDict []) ;; get h "hits" (VList []))%result ;;
  mapping <- lift (if ok mapping_response then json mapping_response
                   else Ok (VDict [])) ;;
  sample_size <- lift (len hits) ;;
  total_hits <- lift (h <- get data "hits" (VDict []) ;;
                      t <- get h "total" (VDict []) ;;
                      get t "value" (VInt 0))%result ;;
  took_ms <- lift (get data "took" (VInt 0)) ;;
  ret (VDict [("mapping", mapping);
              ("documents", data);
              ("sample_size", VInt sample_size);
              ("total_hits", total_hits);
              ("took_ms", took_ms);
              ("success", VBool true)]).

Definition failure (e : exn) : value :=
  VDict [("success", VBool false); ("error", VStr (exn_str e))].

(** [backend/clients/opensearch_client.py], [OpenSearchClient.get_index_data] *)
Definition get_index_data (self : OpenSearchClient) (index_name : string)
  : M value :=
  try_except (get_index_data_try self index_name)
             (fun e => ret (failure e)).

(** [chaos_code.py], [OpenSearchClient.get_index_data]: the dashboard's
    variant also reports the failure on the page. *)
Definition get_index_data_dashboard (self : OpenSearchClient) (index_name : string)
  : M value :=
  try_except (get_index_data_try self index_name)
             (fun e => st_error ("Failed to get index data: " ++ exn_str e) ;;
                       ret (failure e)).

End WithEnv.
End OpenSearch.

(* ===================================================================== *)
(** * Model invoker: [LLMClient]                                           *)
(* ===================================================================== *)

Module LLM.
Import Py World.
Local Open Scope monad_scope.

Record LLMClient : Type := {
  model : string;
  region : string;
  max_retries : Z
}.

(** [LLMClient.__init__]; [self.client = None] is [client := false] of the
    state. *)
Definition init (model region : string) : LLMClient :=
  {| model := model; region := region; max_retries := 3 |}.

(** [range(n)] *)
Definition range (n : Z) : list Z := map Z.of_nat (seq 0 (Z.to_nat n)).

(** [model_response["content"][0]["text"]] *)
Definition response_text (model_response : value) : result value :=
  (content <- subscript model_response "content" ;;
   block <- subscript0 content ;;
   subscript block "text")%result.

Section WithEnv.
Variable env : Env.

(** [if not self.client: self.client = boto3.client("bedrock-runtime", ...)] *)
Definition ensure_client (self : LLMClient) : M unit :=
  fun st =>
    if client st then (Ok tt, st)
    else
      let st' := record (ECreateClient (region self)) st in
      match boto3_client env (history st) (region self) with
      | Ok _ => (Ok tt, {| history := history st'; client := true |})
      | Raise e => (Raise e, st')
      end.

Definition invoke_model_ (self : LLMClient) (prompt : Prompt) : M value :=
  fun st => (invoke_model env (history st) (model self) prompt,
             record (EInvokeModel (model self) prompt) st).

(** One pass through the body of the [for attempt in range(...)] loop:
    [Some text] when the body returns, [None] when it falls through to the
    next iteration. *)
Definition attempt_body (self : LLMClient) (prompt : Prompt) (attempt : Z)
  : M (option value) :=
  try_except
    (model_response <- invoke_model_ self prompt ;;
     text <- lift (response_text model_response) ;;
     ret (Some text))
    (fun e =>
       match e with
       | ClientError _ code message =>
           print ("Bedrock error (attempt " ++ str_of_Z (attempt + 1) ++ "): "
                    ++ code ++ " - " ++ message) ;;
           (if (attempt <? max_retries self - 1)%Z
            then sleep (1 * (attempt + 1)) else ret tt) ;;
           ret None
       | _ =>
           print ("Bedrock connection failed (attempt " ++ str_of_Z (attempt + 1)
                    ++ "): " ++ exn_str e) ;;
           (if (attempt <? max_retries self - 1)%Z
            then sleep (1 * (attempt + 1)) else ret tt) ;;
           ret None
       end).

Fixpoint attempts (self : LLMClient) (prompt : Prompt) (todo : list Z) : M value :=
  match todo with
  | [] =>
      raise (PyError "Exception"
               ("All " ++ str_of_Z (max_retries self) ++ " attempts failed"))
  | attempt :: rest =>
      r <- attempt_body self prompt attempt ;;
      match r with
      | Some response_text => ret response_text
      | None => attempts self prompt rest
      end
  end.

(** [LLMClient.analyze_with_bedrock] *)
Definition analyze_with_bedrock (self : LLMClient) (prompt : Prompt) : M value :=
  ensure_client self ;;
  attempts self prompt (range (max_retries self)).

(** What one event of the stream makes the generator yield. *)
Definition chunk_text (chunk : value) : result (list value) :=
  (ty <- subscript chunk "type" ;;
   if eq_str ty "content_block_delta"
   then delta <- subscript chunk "delta" ;;
        text <- get delta "text" (VStr EmptyString) ;;
        Ok (if truthy text then [text] else [])
   else Ok [])%result.

(** [for event in streaming_response["body"]: ...] *)
Fixpoint stream_loop (events : list (result value)) : list value * option exn :=
  match events with
  | [] => ([], None)
  | Raise e :: _ => ([], Some e)
  | Ok chunk :: rest =>
      match chunk_text chunk with
      | Raise e => ([], Some e)
      | Ok ys => let (ys', stop) := stream_loop rest in ((ys ++ ys')%list, stop)
      end
  end.

Definition invoke_stream_ (self : LLMClient) (prompt : Prompt)
  : M (list (result value)) :=
  fun st => (invoke_model_with_response_stream env (history st) (model self) prompt,
             record (EInvokeModelStream (model self) prompt) st).

(** [LLMClient.analyze_with_bedrock_streaming] *)
Definition analyze_with_bedrock_streaming (self : LLMClient) (prompt : Prompt)
  : Gen value :=
  fun st =>
    match (ensure_client self ;; invoke_stream_ self prompt) st with
    | (Raise e, st') => ([], Some e, st')
    | (Ok events, st') =>
        let (ys, stop) := stream_loop events in (ys, stop, st')
    end.

End WithEnv.
End LLM.

(* ===================================================================== *)
(** * Prompt assembler and plan orchestrator: [ChaosPlanGenerator]         *)
(* ===================================================================== *)

Module Generator.
Import Py World.

(** Values of the metrics dictionary.  A time is a rational number of
    seconds: the float subtraction of the source rounds the exact difference,
    which keeps its sign. *)
Inductive mval : Type :=
| MNone
| MBool (b : bool)
| MInt (z : Z)
| MTime (t : Q)
| MStr (s : string).

Definition metrics : Type := list (string * mval).

Record ChaosPlanGenerator : Type := {
  os_client : OpenSearch.OpenSearchClient;
  llm_client : LLM.LLMClient
}.

Section Prompt.
Local Open Scope result_scope.

(** [source.get("message") or source.get("log") or str(source)] *)
Definition message_of (source : value) : result value :=
  m <- get1 source "message" ;;
  if truthy m then Ok m
  else l <- get1 source "log" ;;
       if truthy l then Ok l
       else Ok (VStr (py_str source)).

(** [source.get(first, source.get(second, "N/A"))]; the inner call is the
    argument of the outer one and runs first. *)
Definition field_of (source : value) (first second : string) : result value :=
  fallback <- get source second (VStr "N/A") ;;
  get source first fallback.

(** The body of the loop over [enumerate(hits[:1000])]: the entry appended to
    [sample_docs] for the hit at position [i]. *)
Definition entry (i : Z) (hit : value) : result value :=
  source <- get hit "_source" (VDict []) ;;
  message <- message_of source ;;
  timestamp <- field_of source "@timestamp" "timestamp" ;;
  level <- field_of source "level" "severity" ;;
  service <- field_of source "service" "app" ;;
  Ok (VDict [("doc", VInt (i + 1));
             ("timestamp", timestamp);
             ("message", message);
             ("level", level);
             ("service", service)]).

Fixpoint sample_loop (i : Z) (items : list value) : result (list value) :=
  match items with
  | [] => Ok []
  | hit :: rest =>
      e <- entry i hit ;;
      es <- sample_loop (i + 1) rest ;;
      Ok (e :: es)
  end.

(** [index_data.get("documents", {}).get("hits", {}).get("hits", [])] *)
Definition hits_of (index_data : value) : result value :=
  documents <- get index_data "documents" (VDict []) ;;
  outer <- get documents "hits" (VDict []) ;;
  get outer "hits" (VList []).

(** [ChaosPlanGenerator._create_prompt] *)
Definition _create_prompt (index_name : string) (index_data analysis_options : value)
  : result Prompt :=
  hits <- hits_of index_data ;;
  items <- slice_items hits 1000 ;;
  docs <- sample_loop 0 items ;;
  total_hits <- get index_data "total_hits" (VInt 0) ;;
  total_documents <- format_comma total_hits ;;
  took_ms <- get index_data "took_ms" (VInt 0) ;;
  fetched <- len hits ;;
  focus <- get analysis_options "focus" (VStr "All") ;;
  security <- get analysis_options "security" (VBool true) ;;
  include_external <- get analysis_options "include_external" (VBool true) ;;
  Ok {| p_index_name := index_name;
        p_total_documents := total_documents;
        p_query_time := py_str took_ms;
        p_fetched := str_of_Z fetched;
        p_sample_docs := docs;
        p_focus := py_str focus;
        p_security := py_str security;
        p_include_external := py_str include_external |}.

End Prompt.

Section WithEnv.
Variable env : Env.
Local Open Scope monad_scope.

(** [time.time() - metrics["start_time"]] *)
Definition since_start (m : metrics) (now : Q) : result mval :=
  match lookup m "start_time" with
  | Some (MTime t0) => Ok (MTime (now - t0))
  | Some _ => Raise (PyError "TypeError" "unsupported operand type(s) for -")
  | None => Raise (PyError "KeyError" "'start_time'")
  end.

(** [ChaosPlanGenerator.generate_plan] *)
Definition generate_plan (self : ChaosPlanGenerator) (index_name : string)
  (index_data analysis_options : value) : M (value * metrics) :=
  start_time <- time_ env ;;
  let metrics0 : metrics :=
    [("start_time", MTime start_time); ("success", MBool false); ("error", MNone)] in
  try_except
    (prompt <- lift (_create_prompt index_name index_data analysis_options) ;;
     plan <- LLM.analyze_with_bedrock env (llm_client self) prompt ;;
     if truthy plan
     then
       end_time <- time_ env ;;
       now <- time_ env ;;
       duration_seconds <- lift (since_start metrics0 now) ;;
       plan_length <- lift (len plan) ;;
       ret (plan, update metrics0 [("success", MBool true);
                                   ("end_time", MTime end_time);
                                   ("duration_seconds", duration_seconds);
                                   ("plan_length", MInt plan_length)])
     else
       ret (VStr EmptyString, store metrics0 "error" (MStr "Empty response from LLM")))
    (fun e => ret (VStr EmptyString, store metrics0 "error" (MStr (exn_str e)))).

(** [ChaosPlanGenerator.generate_plan_streaming] *)
Definition generate_plan_streaming (self : ChaosPlanGenerator) (index_name : string)
  (index_data analysis_options : value) : Gen value :=
  fun st =>
    match _create_prompt index_name index_data analysis_options with
    | Raise e => ([], Some e, st)
    | Ok prompt => LLM.analyze_with_bedrock_streaming env (llm_client self) prompt st
    end.

End WithEnv.
End Generator.

(* ===================================================================== *)
(** * The streaming route of [backend/main.py]                             *)
(* ===================================================================== *)

Module Api.
Import Py World.

Record OpenSearchConfig : Type := {
  cfg_endpoint : string;
  cfg_username : string;
  cfg_password : string
}.

Record AWSBedrockConfig : Type := {
  cfg_model : string;
  cfg_region : string
}.

Record AnalysisOptions : Type := {
  focus : string;
  security : bool;
  include_external : bool
}.

Record GeneratePlanRequest : Type := {
  index_name : string;
  opensearch_config : OpenSearchConfig;
  aws_config : AWSBedrockConfig;
  analysis_options : option AnalysisOptions
}.

(** [request.analysis_options.model_dump()] *)
Definition model_dump (o : option AnalysisOptions) : result value :=
  match o with
  | Some a => Ok (VDict [("focus", VStr (focus a));
                         ("security", VBool (security a));
                         ("include_external", VBool (include_external a))])
  | None => Raise (no_attribute VNone "model_dump")
  end.

(** The two shapes of server-sent event the route produces. *)
Definition sse_data (chunk : value) : string :=
  "data: " ++ py_str chunk ++ nl ++ nl.

Definition sse_error (msg : string) : string :=
  "data: {" ++ dq ++ "error" ++ dq ++ ": " ++ dq ++ msg ++ dq ++ "}" ++ nl ++ nl.

Section WithEnv.
Variable env : Env.

(** [except Exception as e:] of the route: log, then one error event. *)
Definition on_exception (e : exn) (st : State) : list string * option exn * State :=
  ([sse_error (exn_str e)], None,
   record (ELoggerError ("Error in streaming chaos plan: " ++ exn_str e)) st).

(** [plan_generator_stream].  The classes [LLMClient] and
    [ChaosPlanGenerator] it imports are the ones of [chaos_code.py]. *)
Definition plan_generator_stream (request : GeneratePlanRequest) : Gen string :=
  fun st =>
    let os_client :=
      OpenSearch.init (cfg_endpoint (opensearch_config request))
                      (cfg_username (opensearch_config request))
                      (cfg_password (opensearch_config request)) in
    let llm_client :=
      LLM.init (cfg_model (aws_config request)) (cfg_region (aws_config request)) in
    let st0 := {| history := history st; client := false |} in
    match OpenSearch.get_index_data env os_client (index_name request) st0 with
    | (Raise e, st1) => on_exception e st1
    | (Ok index_data, st1) =>
        match get1 index_data "success" with
        | Raise e => on_exception e st1
        | Ok success =>
            if negb (truthy success)
            then
              match get1 index_data "error" with
              | Raise e => on_exception e st1
              | Ok err =>
                  ([sse_error ("Failed to fetch index data: " ++ py_str err)],
                   None, st1)
              end
            else
              let generator :=
                {| Generator.os_client := os_client;
                   Generator.llm_client := llm_client |} in
              match model_dump (analysis_options request) with
              | Raise e => on_exception e st1
              | Ok options =>
                  match Generator.generate_plan_streaming env generator
                          (index_name request) index_data options st1 with
                  | (chunks, None, st2) => (map sse_data chunks, None, st2)
                  | (chunks, Some e, st2) =>
                      match on_exception e st2 with
                      | (last, stop, st3) =>
                          ((map sse_data chunks ++ last)%list, stop, st3)
                      end
                  end
              end
        end
    end.

End WithEnv.
End Api.

(* ===================================================================== *)
(** * Observations on histories, used to state the properties             *)
(* ===================================================================== *)

Module Observe.
Import Py World.

(** The retry schedule of a history: its model calls and its sleeps. *)
Inductive step : Type :=
| Attempt
| Wait (seconds : Z).

Definition step_of (ev : event) : list step :=
  match ev with
  | EInvokeModel _ _ => [Attempt]
  | ESleep seconds => [Wait seconds]
  | _ => []
  end.

Definition schedule (evs : list event) : list step := flat_map step_of evs.

Definition is_attempt (s : step) : bool :=
  match s with
  | Attempt => true
  | Wait _ => false
  end.

(** Number of blocking model calls in a history. *)
Definition attempted (evs : list event) : nat :=
  List.length (filter is_attempt (schedule evs)).

(** The events that reach the model provider in any way. *)
Definition touches_model (ev : event) : bool :=
  match ev with
  | ECreateClient _ | EInvokeModel _ _ | EInvokeModelStream _ _ => true
  | _ => false
  end.

(** What one blocking attempt gets from the provider at history [h]: the
    text of the reply, or the exception of the call or of reading the reply. *)
Definition outcome (env : Env) (self : LLM.LLMClient) (prompt : Prompt)
  (h : list event) : result value :=
  rbind (invoke_model env h (LLM.model self) prompt) LLM.response_text.

(** What the two handlers of the retry loop print for attempt [attempt]. *)
Definition report (attempt : Z) (e : exn) : string :=
  match e with
  | ClientError _ code message =>
      "Bedrock error (attempt " ++ str_of_Z (attempt + 1) ++ "): "
        ++ code ++ " - " ++ message
  | _ =>
      "Bedrock connection failed (attempt " ++ str_of_Z (attempt + 1)
        ++ "): " ++ exn_str e
  end.

(** ** The normalized entry, in the words of the specification *)

Definition is_dict (v : value) : bool :=
  match v with
  | VDict _ => true
  | _ => false
  end.

(** A document of the sample: a mapping whose [_source], when it has one, is
    a mapping (the raw record). *)
Definition is_document (hit : value) : bool :=
  match hit with
  | VDict d =>
      match lookup d "_source" with
      | Some source => is_dict source
      | None => true
      end
  | _ => false
  end.

(** The raw record of a document. *)
Definition raw_record (hit : value) : list (string * value) :=
  match hit with
  | VDict d =>
      match lookup d "_source" with
      | Some (VDict source) => source
      | _ => []
      end
  | _ => []
  end.

(** A candidate is usable for the message when it is present and truthy. *)
Definition usable (candidate : option value) : option value :=
  match candidate with
  | Some v => if truthy v then Some v else None
  | None => None
  end.

(** message: [message], else [log], else the rendering of the whole record. *)
Definition spec_message (record : list (string * value)) : value :=
  match usable (lookup record "message") with
  | Some v => v
  | None =>
      match usable (lookup record "log") with
      | Some v => v
      | None => VStr (py_str (VDict record))
      end
  end.

(** timestamp, level, service: the first candidate key the record has, else
    the literal ["N/A"]. *)
Definition spec_field (record : list (string * value)) (first second : string)
  : value :=
  match lookup record first with
  | Some v => v
  | None =>
      match lookup record second with
      | Some v => v
      | None => VStr "N/A"
      end
  end.

Definition spec_entry (position : nat) (hit : value) : value :=
  let record := raw_record hit in
  VDict [("doc", VInt (Z.of_nat position + 1));
         ("timestamp", spec_field record "@timestamp" "timestamp");
         ("message", spec_message record);
         ("level", spec_field record "level" "severity");
         ("service", spec_field record "service" "app")].

(** A field of an entry has a value when it is there and is not [None]. *)
Definition has_value (e : value) (field : string) : bool :=
  match e with
  | VDict d =>
      match lookup d field with
      | Some VNone | None => false
      | Some _ => true
      end
  | _ => false
  end.

Definition is_number (v : value) : bool :=
  match v with
  | VInt _ | VFloat _ | VBool _ => true
  | _ => false
  end.

(** The total of an index-data value can be rendered with thousands
    separators: it is a number, or absent. *)
Definition total_is_number (index_data : value) : bool :=
  match get index_data "total_hits" (VInt 0) with
  | Ok total => is_number total
  | Raise _ => false
  end.

(** The three fields filled by [.get(first, .get(second, "N/A"))] keep
    whatever the first key present holds; the placeholder is for a record
    that has neither key. *)
Definition keeps_present (record : list (string * value)) (e : value)
  (field first second : string) : Prop :=
  (forall v, lookup record first = Some v -> subscript e field = Ok v) /\
  (forall v, lookup record first = None -> lookup record second = Some v ->
             subscript e field = Ok v) /\
  (lookup record first = None -> lookup record second = None ->
   subscript e field = Ok (VStr "N/A")).

(** ** The index reader *)

Definition has_len (v : value) : bool :=
  match v with
  | VStr _ | VList _ | VDict _ => true
  | _ => false
  end.

(** A search reply the reader can summarize: a mapping whose [hits], when
    present, is a mapping whose [hits] has a length and whose [total] is a
    mapping. *)
Definition well_formed_search (data : value) : bool :=
  match data with
  | VDict d =>
      match lookup d "hits" with
      | None => true
      | Some (VDict h) =>
          match lookup h "hits" with
          | None => true
          | Some x => has_len x
          end
          && match lookup h "total" with
             | None => true
             | Some t => is_dict t
             end
      | Some _ => false
      end
  | _ => false
  end.

(** What the [try] block makes of the two responses once both calls have
    returned. *)
Definition summary (mapping_response search_response : Response) : result value :=
  (_ <- raise_for_status search_response ;;
   data <- json search_response ;;
   hits <- (h <- get data "hits" (VDict []) ;; get h "hits" (VList [])) ;;
   mapping <- (if ok mapping_response then json mapping_response
               else Ok (VDict [])) ;;
   sample_size <- len hits ;;
   total_hits <- (h <- get data "hits" (VDict []) ;;
                  t <- get h "total" (VDict []) ;;
                  get t "value" (VInt 0)) ;;
   took_ms <- get data "took" (VInt 0) ;;
   Ok (VDict [("mapping", mapping);
              ("documents", data);
              ("sample_size", VInt sample_size);
              ("total_hits", total_hits);
              ("took_ms", took_ms);
              ("success", VBool true)]))%result.

(** The two shapes of a fetch result. *)
Definition success_shape (d : list (string * value)) : Prop :=
  exists mapping data sample_size total_hits took_ms,
    d = [("mapping", mapping);
         ("documents", data);
         ("sample_size", VInt sample_size);
         ("total_hits", total_hits);
         ("took_ms", took_ms);
         ("success", VBool true)].

Definition failure_shape (d : list (string * value)) : Prop :=
  exists msg, d = [("success", VBool false); ("error", VStr msg)].

Definition mapping_url (self : OpenSearch.OpenSearchClient) (index_name : string)
  : string :=
  OpenSearch.endpoint self ++ "/" ++ index_name ++ "/_mapping".

Definition search_url (self : OpenSearch.OpenSearchClient) (index_name : string)
  : string :=
  OpenSearch.endpoint self ++ "/" ++ index_name ++ "/_search".

(** ** The incremental model invocation *)

(** The text delta of a stream event, in the words of the specification: the
    text of a content-delta event, when it has one and it is not empty. *)
Definition delta_text (chunk : value) : option value :=
  match chunk with
  | VDict c =>
      match lookup c "type" with
      | Some ty =>
          if eq_str ty "content_block_delta"
          then match lookup c "delta" with
               | Some (VDict d) => usable (lookup d "text")
               | _ => None
               end
          else None
      | None => None
      end
  | _ => None
  end.

(** The fragment an event of the stream contributes, if any. *)
Definition fragment_of (ev : result value) : list value :=
  match ev with
  | Ok chunk =>
      match delta_text chunk with
      | Some text => [text]
      | None => []
      end
  | Raise _ => []
  end.

(** ** The orchestrator *)

(** The exception of the retry loop once every attempt has failed. *)
Definition exhausted (self : LLM.LLMClient) : exn :=
  PyError "Exception"
    ("All " ++ str_of_Z (LLM.max_retries self) ++ " attempts failed").

(** The metrics a failed generation returns: the initial dictionary with
    its error filled in. *)
Definition failed_metrics (start_time : Q) (msg : string) : Generator.metrics :=
  [("start_time", Generator.MTime start_time);
   ("success", Generator.MBool false);
   ("error", Generator.MStr msg)].

(** The metrics a successful generation returns. *)
Definition succeeded_metrics (start_time end_time now : Q) (plan_length : Z)
  : Generator.metrics :=
  [("start_time", Generator.MTime start_time);
   ("success", Generator.MBool true);
   ("error", Generator.MNone);
   ("end_time", Generator.MTime end_time);
   ("duration_seconds", Generator.MTime (now - start_time));
   ("plan_length", Generator.MInt plan_length)].

(** The clock never goes back as effects accumulate. *)
Definition monotone_clock (env : Env) : Prop :=
  forall h h', (time_time env h <= time_time env (h ++ h'))%Q.

(** A stream event the generator can read: a mapping with a [type] which,
    when the type is that of a content delta, has a mapping as its [delta].
    Every event of the provider's stream is of that kind; an event that fails
    in transit is not. *)
Definition well_formed_event (ev : result value) : bool :=
  match ev with
  | Ok (VDict c) =>
      match lookup c "type" with
      | Some ty =>
          if eq_str ty "content_block_delta"
          then match lookup c "delta" with
               | Some (VDict _) => true
               | _ => false
               end
          else true
      | None => false
      end
  | _ => false
  end.

(** The events before the first one that cannot be read. *)
Fixpoint good_prefix (events : list (result value)) : list (result value) :=
  match events with
  | [] => []
  | ev :: rest => if well_formed_event ev then ev :: good_prefix rest else []
  end.

End Observe.

(* ===================================================================== *)
(** * Sample inputs and simulated collaborators                            *)
(* ===================================================================== *)

Module Fixture.
Import Py World.

Definition hit_of (record : list (string * value)) : value :=
  VDict [("_index", VStr "app-logs-2024"); ("_source", VDict record)].

Definition full_hit : value :=
  hit_of [("@timestamp", VStr "2024-05-01T10:00:00Z");
          ("message", VStr "connection refused");
          ("level", VStr "ERROR");
          ("service", VStr "checkout")].

(** A record with an empty message, a log line and a null level. *)
Definition null_level_hit : value :=
  hit_of [("message", VStr EmptyString);
          ("log", VStr "retrying upstream");
          ("level", VNone);
          ("timestamp", VStr EmptyString)].

Definition search_reply (hits : list value) : value :=
  VDict [("took", VInt 7);
         ("hits", VDict [("total", VDict [("value", VInt 50000)]);
                         ("hits", VList hits)])].

(** What a successful fetch hands to the generator. *)
Definition index_data_of (hits : list value) : value :=
  VDict [("mapping", VDict []);
         ("documents", search_reply hits);
         ("sample_size", VInt (Z.of_nat (List.length hits)));
         ("total_hits", VInt 50000);
         ("took_ms", VInt 7);
         ("success", VBool true)].

Definition options : value :=
  VDict [("focus", VStr "Network");
         ("security", VBool true);
         ("include_external", VBool true)].

Definition reply (text : value) : value :=
  VDict [("content", VList [VDict [("type", VStr "text"); ("text", text)]])].

Definition throttled : exn :=
  ClientError "InvokeModel" "ThrottlingException" "Too many requests".

Definition unreachable : exn := PyError "ConnectionError" "Connection refused".

Definition response (status : Z) (phrase : string) (body : result value) : Response :=
  {| status_code := status; reason := phrase;
     url := "https://search.example/app-logs-2024/_search"; json := body |}.

(** Number of blocking model calls made so far. *)
Definition calls (h : list event) : nat :=
  List.length (filter (fun ev => match ev with
                                 | EInvokeModel _ _ => true
                                 | _ => false
                                 end) h).

(** A clock that advances by one second with every effect. *)
Definition ticking (h : list event) : Q := inject_Z (Z.of_nat (List.length h)).

(** A world in which nothing answers: the search backend is unreachable and
    the provider throttles every call. *)
Definition down : Env :=
  {| session_get := fun _ _ => Raise unreachable;
     session_post := fun _ _ _ => Raise unreachable;
     time_time := ticking;
     boto3_client := fun _ _ => Ok tt;
     invoke_model := fun _ _ _ => Raise throttled;
     invoke_model_with_response_stream := fun _ _ _ => Raise throttled |}.

(** The provider fails [failures] times and then replies with [text]. *)
Definition flaky (failures : nat) (text : value) : Env :=
  {| session_get := fun _ _ => Raise unreachable;
     session_post := fun _ _ _ => Raise unreachable;
     time_time := ticking;
     boto3_client := fun _ _ => Ok tt;
     invoke_model := fun h _ _ =>
       if (calls h <? failures)%nat then Raise throttled else Ok (reply text);
     invoke_model_with_response_stream := fun _ _ _ => Raise throttled |}.

(** A search backend that answers the mapping call with [mapping_response]
    and the search call with [search_response]. *)
Definition backend (mapping_response search_response : Response) : Env :=
  {| session_get := fun _ _ => Ok mapping_response;
     session_post := fun _ _ _ => Ok search_response;
     time_time := ticking;
     boto3_client := fun _ _ => Ok tt;
     invoke_model := fun _ _ _ => Raise throttled;
     invoke_model_with_response_stream := fun _ _ _ => Raise throttled |}.

(** A provider that streams [events]. *)
Definition streaming (events : list (result value)) : Env :=
  {| session_get := fun _ _ => Raise unreachable;
     session_post := fun _ _ _ => Raise unreachable;
     time_time := ticking;
     boto3_client := fun _ _ => Ok tt;
     invoke_model := fun _ _ _ => Raise throttled;
     invoke_model_with_response_stream := fun _ _ _ => Ok events |}.

Definition delta (text : value) : result value :=
  Ok (VDict [("type", VStr "content_block_delta");
             ("index", VInt 0);
             ("delta", VDict [("type", VStr "text_delta"); ("text", text)])]).

Definition client : OpenSearch.OpenSearchClient :=
  OpenSearch.init "https://search.example/" "admin" "secret".

Definition llm : LLM.LLMClient :=
  LLM.init "anthropic.claude-3-haiku-20240307-v1:0" "us-east-1".

Definition generator : Generator.ChaosPlanGenerator :=
  {| Generator.os_client := client; Generator.llm_client := llm |}.

Definition request : Api.GeneratePlanRequest :=
  {| Api.index_name := "app-logs-2024";
     Api.opensearch_config :=
       {| Api.cfg_endpoint := "https://search.example/";
          Api.cfg_username := "admin";
          Api.cfg_password := "secret" |};
     Api.aws_config :=
       {| Api.cfg_model := "anthropic.claude-3-haiku-20240307-v1:0";
          Api.cfg_region := "us-east-1" |};
     Api.analysis_options :=
       Some {| Api.focus := "Network"; Api.security := true;
               Api.include_external := true |} |}.

(** The prompt built for the index data of one full hit. *)
Definition prompt : Prompt :=
  {| p_index_name := "app-logs-2024";
     p_total_documents := "50,000";
     p_query_time := "7";
     p_fetched := "1";
     p_sample_docs :=
       [VDict [("doc", VInt 1);
               ("timestamp", VStr "2024-05-01T10:00:00Z");
               ("message", VStr "connection refused");
               ("level", VStr "ERROR");
               ("service", VStr "checkout")]];
     p_focus := "Network";
     p_security := "True";
     p_include_external := "True" |}.

End Fixture.

(* ===================================================================== *)
(** * The rest of the index reader: probe and index listing               *)
(* ===================================================================== *)

Module Catalog.
Import Py World.
Local Open Scope monad_scope.

(** The two marks that open the probe's messages lie outside the range of
    code points of [Py.value] strings; they stand here by their UTF-8 bytes. *)
Definition check_mark : string := "✅".
Definition cross_mark : string := "❌".

Definition indices_url (self : OpenSearch.OpenSearchClient) : string :=
  OpenSearch.endpoint self
    ++ "/_cat/indices?format=json&h=index,health,status,docs.count,store.size,pri,rep".

Section WithEnv.
Variable env : Env.

(** [response.text], which [World.Response] does not carry. *)
Variable text : Response -> string.

(** [OpenSearchClient.test_connection], the same text in both sources. *)
Definition test_connection (self : OpenSearch.OpenSearchClient) : M (bool * string) :=
  try_except
    (response <- get_ env (OpenSearch.endpoint self ++ "/") ;;
     if (status_code response =? 200)%Z
     then
       version <- lift (body <- json response ;;
                        v <- get body "version" (VDict []) ;;
                        get v "number" (VStr "unknown"))%result ;;
       ret (true, check_mark ++ " Connected to OpenSearch v" ++ py_str version)
     else
       ret (false, cross_mark ++ " HTTP " ++ str_of_Z (status_code response)
                     ++ ": " ++ text response))
    (fun e => ret (false, cross_mark ++ " Connection failed: " ++ exn_str e)).

(** The [try] block of [get_indices]. *)
Definition get_indices_try (self : OpenSearch.OpenSearchClient) : M value :=
  response <- get_ env (indices_url self) ;;
  lift (raise_for_status response) ;;
  lift (json response).

(** [backend/clients/opensearch_client.py], [OpenSearchClient.get_indices] *)
Definition get_indices (self : OpenSearch.OpenSearchClient) : M value :=
  try_except (get_indices_try self)
             (fun e => raise (PyError "Exception"
                                ("Failed to get indices: " ++ exn_str e))).

(** [chaos_code.py], [OpenSearchClient.get_indices] *)
Definition get_indices_dashboard (self : OpenSearch.OpenSearchClient) : M value :=
  try_except (get_indices_try self)
             (fun e => st_error ("Failed to get indices: " ++ exn_str e) ;;
                       ret (VList [])).

End WithEnv.
End Catalog.

(* ===================================================================== *)
(** * The blocking route of [backend/main.py]                              *)
(* ===================================================================== *)

Module Routes.
Import Py World.
Local Open Scope monad_scope.

(** [GeneratePlanResponse] of [backend/models.py]; [None] is Python's. *)
Record GeneratePlanResponse : Type := {
  r_success : bool;
  r_plan : option string;
  r_metrics : option Generator.metrics;
  r_error : option string
}.

Section WithEnv.
Variable env : Env.

(** The text of pydantic's [ValidationError] for a [plan] that is not a
    string and for an [error] that is not one. *)
Variable plan_rejected : value -> string.
Variable error_rejected : Generator.mval -> string.

(** [GeneratePlanResponse(success=True, plan=plan, metrics=metrics)]:
    [plan] is declared [Optional[str]]. *)
Definition accepted (plan : value) (metrics : Generator.metrics)
  : result GeneratePlanResponse :=
  match plan with
  | VStr s => Ok {| r_success := true; r_plan := Some s;
                    r_metrics := Some metrics; r_error := None |}
  | VNone => Ok {| r_success := true; r_plan := None;
                   r_metrics := Some metrics; r_error := None |}
  | _ => Raise (PyError "ValidationError" (plan_rejected plan))
  end.

(** [GeneratePlanResponse(success=False,
                          error=metrics.get("error", "Unknown error during generation"))] *)
Definition rejected (metrics : Generator.metrics) : result GeneratePlanResponse :=
  match lookup metrics "error" with
  | None => Ok {| r_success := false; r_plan := None; r_metrics := None;
                  r_error := Some "Unknown error during generation" |}
  | Some (Generator.MStr msg) =>
      Ok {| r_success := false; r_plan := None; r_metrics := None;
            r_error := Some msg |}
  | Some Generator.MNone =>
      Ok {| r_success := false; r_plan := None; r_metrics := None;
            r_error := None |}
  | Some other => Raise (PyError "ValidationError" (error_rejected other))
  end.

Definition failed (msg : string) : GeneratePlanResponse :=
  {| r_success := false; r_plan := None; r_metrics := None; r_error := Some msg |}.

(** [metrics.get("success")] as a condition *)
Definition metrics_success (metrics : Generator.metrics) : bool :=
  match lookup metrics "success" with
  | Some (Generator.MBool b) => b
  | Some (Generator.MInt z) => negb (z =? 0)%Z
  | Some (Generator.MTime t) => negb (Qeq_bool t 0)
  | Some (Generator.MStr s) => negb (s =? EmptyString)
  | Some Generator.MNone | None => false
  end.

(** A request builds its own [LLMClient], whose [client] is [None]. *)
Definition new_llm_client : M unit :=
  fun st => (Ok tt, {| history := history st; client := false |}).

(** [generate_chaos_plan].  The classes [LLMClient] and
    [ChaosPlanGenerator] it imports are the ones of [chaos_code.py]. *)
Definition generate_chaos_plan (request : Api.GeneratePlanRequest)
  : M GeneratePlanResponse :=
  let os_client :=
    OpenSearch.init (Api.cfg_endpoint (Api.opensearch_config request))
                    (Api.cfg_username (Api.opensearch_config request))
                    (Api.cfg_password (Api.opensearch_config request)) in
  let llm_client :=
    LLM.init (Api.cfg_model (Api.aws_config request))
             (Api.cfg_region (Api.aws_config request)) in
  try_except
    (new_llm_client ;;
     index_data <- OpenSearch.get_index_data env os_client (Api.index_name request) ;;
     success <- lift (get1 index_data "success") ;;
     if negb (truthy success)
     then
       err <- lift (get1 index_data "error") ;;
       ret (failed ("Failed to fetch index data: " ++ py_str err))
     else
       let generator :=
         {| Generator.os_client := os_client;
            Generator.llm_client := llm_client |} in
       options <- lift (Api.model_dump (Api.analysis_options request)) ;;
       pm <- Generator.generate_plan env generator (Api.index_name request)
               index_data options ;;
       if metrics_success (snd pm)
       then lift (accepted (fst pm) (snd pm))
       else lift (rejected (snd pm)))
    (fun e =>
       logger_error ("Error generating chaos plan: " ++ exn_str e) ;;
       ret (failed (exn_str e))).

End WithEnv.
End Routes.

(* ===================================================================== *)
(** * Further observations                                                 *)
(* ===================================================================== *)

Module Notice.
Import Py World.

(** A run of [k] slashes. *)
Fixpoint slashes (k : nat) : string :=
  match k with
  | O => EmptyString
  | S k' => String "/" (slashes k')
  end.

Fixpoint ends_with_slash (s : string) : bool :=
  match s with
  | EmptyString => false
  | String c EmptyString => (c =? "/")%char
  | String _ s' => ends_with_slash s'
  end.

Definition is_dict_value (v : value) : bool :=
  match v with
  | VDict _ => true
  | _ => false
  end.

(** The value whose missing [get] stops the loop on a hit that is not a
    document: the hit, or its [_source]. *)
Definition culprit (hit : value) : value :=
  match hit with
  | VDict d =>
      match lookup d "_source" with
      | Some source => source
      | None => hit
      end
  | _ => hit
  end.

Definition is_create (ev : event) : bool :=
  match ev with
  | ECreateClient _ => true
  | _ => false
  end.

(** Events of the blocking retry loop and of the page or log. *)
Definition is_retry_event (ev : event) : bool :=
  match ev with
  | EInvokeModel _ _ | ESleep _ | EPrint _ => true
  | _ => false
  end.

Definition is_time (ev : event) : bool :=
  match ev with
  | ETime => true
  | _ => false
  end.

(** The hits, total and latency a search reply shows, with the defaults of
    the reader for what is missing. *)
Definition shown (d : list (string * value)) (key : string) (default : value)
  : value :=
  match lookup d key with
  | Some v => v
  | None => default
  end.

(** The body of a probe reply from which a version can be read: a mapping
    whose [version], when present, is a mapping. *)
Definition version_readable (body : value) : bool :=
  match body with
  | VDict b =>
      match lookup b "version" with
      | Some v => is_dict_value v
      | None => true
      end
  | _ => false
  end.

End Notice.

(* ===================================================================== *)
(** * Properties                                                           *)
(* ===================================================================== *)

Import Py World Observe.

(** ** Model invoker, blocking contract *)

Section Retry.
Variable env : Env.
Variable self : LLM.LLMClient.
Variable prompt : Prompt.

Let call : event := EInvokeModel (LLM.model self) prompt.

(** One pass of the loop body: a model call, and after a failure the printed
    report and, except on the last attempt, the sleep. *)
Lemma attempt_body_run (attempt : Z) (st : State) :
  LLM.attempt_body env self prompt attempt st =
  match outcome env self prompt (history st) with
  | Ok text => (Ok (Some text), record call st)
  | Raise e =>
      (Ok None,
       if (attempt <? LLM.max_retries self - 1)%Z
       then record (ESleep (1 * (attempt + 1)))
              (record (EPrint (report attempt e)) (record call st))
       else record (EPrint (report attempt e)) (record call st))
  end.
Proof.
  unfold LLM.attempt_body, outcome, try_except, bind, LLM.invoke_model_, lift, ret.
  destruct (invoke_model env (history st) (LLM.model self) prompt) as [v | e]; simpl.
  - destruct (LLM.response_text v) as [text | e]; simpl; [reflexivity |].
    destruct e; simpl; unfold bind, print, sleep, effect, ret; simpl;
      destruct (attempt <? LLM.max_retries self - 1)%Z; reflexivity.
  - destruct e; simpl; unfold bind, print, sleep, effect, ret; simpl;
      destruct (attempt <? LLM.max_retries self - 1)%Z; reflexivity.
Qed.

End Retry.

Section RetryPolicy.
Variable env : Env.
Variables model region : string.
Variable prompt : Prompt.

Let self : LLM.LLMClient := LLM.init model region.
Let call : event := EInvokeModel model prompt.

Ltac settle :=
  change (LLM.max_retries self) with 3%Z;
  change (LLM.model self) with model;
  fold call;
  change (0 <? 3 - 1)%Z with true;
  change (1 <? 3 - 1)%Z with true;
  change (2 <? 3 - 1)%Z with false;
  change (1 * (0 + 1))%Z with 1%Z;
  change (1 * (1 + 1))%Z with 2%Z;
  cbv iota.

Ltac norm :=
  cbv zeta; cbv [record ret raise]; cbn [history client];
  rewrite <- ?app_assoc; cbn [app].

(** The loop of a freshly built client, unrolled on the outcomes of its
    attempts. *)
Lemma attempts_unrolled (h0 : list event) :
  LLM.attempts env self prompt (LLM.range 3) {| history := h0; client := true |} =
  match outcome env self prompt h0 with
  | Ok text => (Ok text, {| history := (h0 ++ [call])%list; client := true |})
  | Raise e0 =>
      let h1 := (h0 ++ [call; EPrint (report 0 e0); ESleep 1])%list in
      match outcome env self prompt h1 with
      | Ok text => (Ok text, {| history := (h1 ++ [call])%list; client := true |})
      | Raise e1 =>
          let h2 := (h1 ++ [call; EPrint (report 1 e1); ESleep 2])%list in
          match outcome env self prompt h2 with
          | Ok text =>
              (Ok text, {| history := (h2 ++ [call])%list; client := true |})
          | Raise e2 =>
              (Raise (PyError "Exception" "All 3 attempts failed"),
               {| history := (h2 ++ [call; EPrint (report 2 e2)])%list;
                  client := true |})
          end
      end
  end.
Proof.
  change (LLM.range 3) with [0%Z; 1%Z; 2%Z].
  cbn [LLM.attempts]. unfold bind at 1. rewrite attempt_body_run. norm.
  destruct (outcome env self prompt h0) as [t0 | e0]; [reflexivity |].
  settle. unfold bind at 1. rewrite attempt_body_run. norm.
  destruct (outcome env self prompt (h0 ++ [call; EPrint (report 0 e0); ESleep 1]))
    as [t1 | e1]; [reflexivity |].
  settle. unfold bind at 1. rewrite attempt_body_run. norm.
  destruct (outcome env self prompt
              (h0 ++ [call; EPrint (report 0 e0); ESleep 1;
                      call; EPrint (report 1 e1); ESleep 2]))
    as [t2 | e2]; [reflexivity |].
  settle. norm. reflexivity.
Qed.

End RetryPolicy.

Lemma attempted_app (a b : list event) :
  attempted (a ++ b) = (attempted a + attempted b)%nat.
Proof.
  unfold attempted, schedule.
  rewrite flat_map_app, filter_app, length_app. reflexivity.
Qed.

Lemma schedule_app (a b : list event) :
  schedule (a ++ b) = (schedule a ++ schedule b)%list.
Proof. unfold schedule. apply flat_map_app. Qed.

(** C1.  [LLMClient.analyze_with_bedrock] of a client built by [__init__],
    from any state and against any provider; an attempt succeeds when the
    model call returns a reply from which the text can be read, and fails
    otherwise.  If the runtime client cannot be built the exception is raised
    and no attempt is made.  Otherwise the run is fixed by the outcomes of its
    attempts.  If the first attempt succeeds its text is returned, the call
    being the only effect.  If it fails, the failure is reported, the run
    sleeps 1 second and makes the second attempt; if that succeeds its text is
    returned at once.  If it fails too, the run reports, sleeps 2 seconds and
    makes the third attempt, whose text is returned if it succeeds.  If the
    third fails as well the run reports it and raises
    [Exception("All 3 attempts failed")] without sleeping and without a
    fourth attempt.  In every case at most three model calls are made. *)
Theorem analyze_with_bedrock_retry_policy
  (env : Env) (model region : string) (prompt : Prompt) (st : State) :
  let self := LLM.init model region in
  let call := EInvokeModel model prompt in
  let run := LLM.analyze_with_bedrock env self prompt st in
  match (if client st then Ok tt else boto3_client env (history st) region) with
  | Raise e =>
      run = (Raise e,
             {| history := (history st ++ [ECreateClient region])%list;
                client := false |})
  | Ok _ =>
      let h0 := if client st then history st
                else (history st ++ [ECreateClient region])%list in
      match outcome env self prompt h0 with
      | Ok text =>
          run = (Ok text, {| history := (h0 ++ [call])%list; client := true |})
      | Raise e0 =>
          let h1 := (h0 ++ [call; EPrint (report 0 e0); ESleep 1])%list in
          match outcome env self prompt h1 with
          | Ok text =>
              run = (Ok text, {| history := (h1 ++ [call])%list; client := true |})
          | Raise e1 =>
              let h2 := (h1 ++ [call; EPrint (report 1 e1); ESleep 2])%list in
              match outcome env self prompt h2 with
              | Ok text =>
                  run = (Ok text,
                         {| history := (h2 ++ [call])%list; client := true |})
              | Raise e2 =>
                  run = (Raise (PyError "Exception" "All 3 attempts failed"),
                         {| history := (h2 ++ [call; EPrint (report 2 e2)])%list;
                            client := true |})
              end
          end
      end
  end /\
  exists new,
    history (snd run) = (history st ++ new)%list /\ (attempted new <= 3)%nat.
Proof.
  intros self call run.
  assert (Hloop : forall h0,
             LLM.attempts env self prompt (LLM.range 3)
               {| history := h0; client := true |} =
             match outcome env self prompt h0 with
             | Ok text =>
                 (Ok text, {| history := (h0 ++ [call])%list; client := true |})
             | Raise e0 =>
                 let h1 := (h0 ++ [call; EPrint (report 0 e0); ESleep 1])%list in
                 match outcome env self prompt h1 with
                 | Ok text =>
                     (Ok text, {| history := (h1 ++ [call])%list; client := true |})
                 | Raise e1 =>
                     let h2 := (h1 ++ [call; EPrint (report 1 e1); ESleep 2])%list in
                     match outcome env self prompt h2 with
                     | Ok text =>
                         (Ok text,
                          {| history := (h2 ++ [call])%list; client := true |})
                     | Raise e2 =>
                         (Raise (PyError "Exception" "All 3 attempts failed"),
                          {| history := (h2 ++ [call; EPrint (report 2 e2)])%list;
                             client := true |})
                     end
                 end
             end)
    by (intros h0; apply attempts_unrolled).
  assert (Hbound : forall c h0 r st',
             h0 = (history st ++ c)%list -> attempted c = 0%nat ->
             LLM.attempts env self prompt (LLM.range 3)
               {| history := h0; client := true |} = (r, st') ->
             exists new,
               history st' = (history st ++ new)%list /\ (attempted new <= 3)%nat).
  { intros c h0 r st' -> Ac A. rewrite Hloop in A. cbv zeta in A.
    destruct (outcome env self prompt (history st ++ c)) as [t0 | e0].
    { injection A as <- <-. cbn [history]. rewrite <- app_assoc. eexists.
      split; [reflexivity |]. rewrite attempted_app, Ac. cbn. lia. }
    destruct (outcome env self prompt _) as [t1 | e1].
    { injection A as <- <-. cbn [history]. rewrite <- !app_assoc. eexists.
      split; [reflexivity |]. rewrite attempted_app, Ac. cbn. lia. }
    destruct (outcome env self prompt _) as [t2 | e2].
    { injection A as <- <-. cbn [history]. rewrite <- !app_assoc. eexists.
      split; [reflexivity |]. rewrite attempted_app, Ac. cbn. lia. }
    injection A as <- <-. cbn [history]. rewrite <- !app_assoc. eexists.
    split; [reflexivity |]. rewrite attempted_app, Ac. cbn. lia. }
  subst run. unfold LLM.analyze_with_bedrock, bind, LLM.ensure_client.
  change (LLM.max_retries self) with 3%Z. change (LLM.region self) with region.
  destruct st as [h c]. cbn [client history] in *. destruct c.
  - split.
    + rewrite Hloop. cbv zeta.
      destruct (outcome env self prompt h) as [t0 | e0]; [reflexivity |].
      destruct (outcome env self prompt _) as [t1 | e1]; [reflexivity |].
      destruct (outcome env self prompt _) as [t2 | e2]; reflexivity.
    + destruct (LLM.attempts env self prompt (LLM.range 3)
                  {| history := h; client := true |}) as [r st'] eqn:A.
      cbn [snd]. apply (Hbound [] h r st'); [symmetry; apply app_nil_r | reflexivity | exact A].
  - destruct (boto3_client env h region) as [[] | e].
    + cbn [record history client]. split.
      * rewrite Hloop. cbv zeta.
        destruct (outcome env self prompt (h ++ [ECreateClient region])) as [t0 | e0];
          [reflexivity |].
        destruct (outcome env self prompt _) as [t1 | e1]; [reflexivity |].
        destruct (outcome env self prompt _) as [t2 | e2]; reflexivity.
      * destruct (LLM.attempts env self prompt (LLM.range 3) _) as [r st'] eqn:A.
        cbn [snd].
        apply (Hbound [ECreateClient region] (h ++ [ECreateClient region])%list r st');
          [reflexivity | reflexivity | exact A].
    + cbn [record history client snd]. split; [reflexivity |].
      exists [ECreateClient region]. split; [reflexivity |].
      unfold attempted. cbn. lia.
Qed.

(** The two simulated providers of the specification: one that fails twice
    and then replies, one that always fails. *)
Example third_attempt_succeeds_after_sleeping_1_and_2 :
  match LLM.analyze_with_bedrock (Fixture.flaky 2 (VStr "plan")) Fixture.llm
          Fixture.prompt initial with
  | (r, st') =>
      r = Ok (VStr "plan") /\
      schedule (history st') = [Attempt; Wait 1; Attempt; Wait 2; Attempt]
  end.
Proof. split; reflexivity. Qed.

Example three_failures_exhaust_the_retries :
  match LLM.analyze_with_bedrock Fixture.down Fixture.llm Fixture.prompt initial with
  | (r, st') =>
      r = Raise (PyError "Exception" "All 3 attempts failed") /\
      schedule (history st') = [Attempt; Wait 1; Attempt; Wait 2; Attempt] /\
      attempted (history st') = 3%nat
  end.
Proof. repeat split. Qed.

(** ** Prompt assembler *)

Section Entry.
Import Generator.

Lemma message_of_dict (record : list (string * value)) :
  message_of (VDict record) = Ok (spec_message record).
Proof.
  unfold message_of, spec_message, usable, get1, get, rbind.
  destruct (lookup record "message") as [m |].
  - destruct (truthy m); [reflexivity |].
    destruct (lookup record "log") as [l |]; [destruct (truthy l) |]; reflexivity.
  - cbn [truthy].
    destruct (lookup record "log") as [l |]; [destruct (truthy l) |]; reflexivity.
Qed.

Lemma field_of_dict (record : list (string * value)) (first second : string) :
  field_of (VDict record) first second = Ok (spec_field record first second).
Proof.
  unfold field_of, spec_field, get, rbind.
  destruct (lookup record first), (lookup record second); reflexivity.
Qed.

Lemma get_source (hit : value) :
  is_document hit = true ->
  get hit "_source" (VDict []) = Ok (VDict (raw_record hit)).
Proof.
  destruct hit as [| | | | | | d]; try discriminate.
  unfold is_document, raw_record, get.
  destruct (lookup d "_source") as [source |]; [| reflexivity].
  destruct source; try discriminate. reflexivity.
Qed.

(** The loop body on a document is the entry of the specification. *)
Lemma entry_document (position : nat) (hit : value) :
  is_document hit = true ->
  entry (Z.of_nat position) hit = Ok (spec_entry position hit).
Proof.
  intros D. unfold entry. rewrite (get_source hit D). cbn [rbind].
  rewrite message_of_dict. cbn [rbind].
  rewrite !field_of_dict. reflexivity.
Qed.

(** The loop on documents: one entry per item, in order. *)
Lemma sample_loop_documents (items : list value) (start : nat) :
  forallb is_document items = true ->
  exists docs,
    sample_loop (Z.of_nat start) items = Ok docs /\
    List.length docs = List.length items /\
    forall i hit, nth_error items i = Some hit ->
                  nth_error docs i = Some (spec_entry (start + i) hit).
Proof.
  revert start. induction items as [| hit rest IH]; intros start D.
  - exists []. repeat split. intros [| i] hit H; discriminate.
  - cbn [forallb] in D. apply andb_prop in D as [Dh Dr].
    destruct (IH (S start) Dr) as (docs & L & Len & Nth).
    exists (spec_entry start hit :: docs).
    cbn [sample_loop]. rewrite (entry_document start hit Dh). cbn [rbind].
    replace (Z.of_nat start + 1)%Z with (Z.of_nat (S start)) by lia.
    rewrite L. cbn [rbind]. split; [reflexivity |].
    split; [cbn [List.length]; congruence |].
    intros [| i] h H; cbn [nth_error] in *.
    + injection H as <-. rewrite Nat.add_0_r. reflexivity.
    + rewrite (Nth i h H). f_equal. f_equal. lia.
Qed.

End Entry.

Lemma forallb_firstn {A} (f : A -> bool) (n : nat) (l : list A) :
  forallb f l = true -> forallb f (firstn n l) = true.
Proof.
  revert n. induction l as [| a l IH]; intros [| n] H; try reflexivity.
  cbn [forallb firstn] in *. apply andb_prop in H as [Ha Hl].
  rewrite Ha, (IH n Hl). reflexivity.
Qed.

Lemma format_comma_number (v : value) :
  is_number v = true -> exists text, format_comma v = Ok text.
Proof.
  destruct v; try discriminate; intros _; eexists; reflexivity.
Qed.

Lemma get_dict (v : value) (k : string) (default : value) :
  is_dict v = true -> exists x, get v k default = Ok x.
Proof.
  destruct v; try discriminate. intros _. eexists. reflexivity.
Qed.

Lemma hits_of_dict (index_data hits : value) :
  Generator.hits_of index_data = Ok hits -> is_dict index_data = true.
Proof.
  destruct index_data; try discriminate. reflexivity.
Qed.

(** C2.  [_create_prompt] on an index-data value whose hit list [hits] is a
    list of documents (with a numeric total and an options mapping, so that
    the rest of the template can be filled): it returns a prompt whose sample
    has [min (len hits) 1000] entries, and for every position [i] below that
    bound the [i]-th entry is the normalized entry of the [i]-th hit, with
    [doc = i + 1].  So for at most 1000 hits every document appears once, in
    the order received, numbered 1..N, and for more than 1000 exactly the
    first 1000 appear, numbered 1..1000. *)
Theorem create_prompt_sample_in_order
  (index_name : string) (index_data analysis_options : value) (hits : list value) :
  Generator.hits_of index_data = Ok (VList hits) ->
  forallb is_document hits = true ->
  total_is_number index_data = true ->
  is_dict analysis_options = true ->
  exists p,
    Generator._create_prompt index_name index_data analysis_options = Ok p /\
    List.length (p_sample_docs p) = Nat.min 1000 (List.length hits) /\
    forall i, (i < Nat.min 1000 (List.length hits))%nat ->
      exists hit e,
        nth_error hits i = Some hit /\
        nth_error (p_sample_docs p) i = Some e /\
        e = spec_entry i hit /\
        subscript e "doc" = Ok (VInt (Z.of_nat i + 1)).
Proof.
  intros Hhits Hdocs Htotal Hopts.
  pose proof (hits_of_dict _ _ Hhits) as Hdict.
  destruct (sample_loop_documents (firstn 1000 hits) 0
              (forallb_firstn _ _ _ Hdocs)) as (docs & Hloop & Hlen & Hnth).
  unfold total_is_number in Htotal.
  destruct (get index_data "total_hits" (VInt 0)) as [total |] eqn:Gtotal;
    [| discriminate].
  destruct (format_comma_number total Htotal) as (total_text & Ftotal).
  destruct (get_dict index_data "took_ms" (VInt 0) Hdict) as (took & Gtook).
  destruct (get_dict analysis_options "focus" (VStr "All") Hopts) as (fo & Gfo).
  destruct (get_dict analysis_options "security" (VBool true) Hopts) as (se & Gse).
  destruct (get_dict analysis_options "include_external" (VBool true) Hopts)
    as (ie & Gie).
  eexists. split.
  { unfold Generator._create_prompt. rewrite Hhits. cbn [rbind slice_items].
    change (Z.of_nat 0) with 0%Z in Hloop. rewrite Hloop. cbn [rbind].
    rewrite Gtotal. cbn [rbind]. rewrite Ftotal. cbn [rbind].
    rewrite Gtook. cbn [rbind len]. rewrite Gfo. cbn [rbind].
    rewrite Gse. cbn [rbind]. rewrite Gie. cbn [rbind]. reflexivity. }
  cbn [p_sample_docs]. split.
  { rewrite Hlen. apply length_firstn. }
  intros i Hi.
  destruct (nth_error hits i) as [hit |] eqn:N.
  2:{ apply nth_error_None in N. lia. }
  exists hit, (spec_entry i hit).
  split; [reflexivity |]. split.
  { apply (Hnth i hit). rewrite nth_error_firstn.
    destruct (Nat.ltb_spec i 1000); [exact N | lia]. }
  split; reflexivity.
Qed.

Lemma create_prompt_sample_in_order_witness :
  exists p,
    Generator._create_prompt "app-logs-2024"
      (Fixture.index_data_of [Fixture.full_hit; Fixture.null_level_hit])
      Fixture.options = Ok p /\
    List.length (p_sample_docs p) = Nat.min 1000 2 /\
    forall i, (i < Nat.min 1000 2)%nat ->
      exists hit e,
        nth_error [Fixture.full_hit; Fixture.null_level_hit] i = Some hit /\
        nth_error (p_sample_docs p) i = Some e /\
        e = spec_entry i hit /\
        subscript e "doc" = Ok (VInt (Z.of_nat i + 1)).
Proof.
  apply (create_prompt_sample_in_order "app-logs-2024"
           (Fixture.index_data_of [Fixture.full_hit; Fixture.null_level_hit])
           Fixture.options [Fixture.full_hit; Fixture.null_level_hit]);
    reflexivity.
Defined.

(** A sample of 1001 documents is cut to its first 1000, the last of which
    is numbered 1000. *)
Example sample_of_1001_is_cut_to_1000 :
  match Generator._create_prompt "app-logs-2024"
          (Fixture.index_data_of (repeat Fixture.full_hit 1000
                                    ++ [Fixture.null_level_hit]))
          Fixture.options with
  | Ok p =>
      List.length (p_sample_docs p) = 1000%nat /\
      nth_error (p_sample_docs p) 999 = Some (spec_entry 999 Fixture.full_hit) /\
      p_fetched p = "1001"
  | Raise _ => False
  end.
Proof. vm_compute. repeat split. Qed.

(** The message of an entry is never empty: the last candidate is the
    rendering of a mapping, which starts with a brace. *)
Lemma spec_message_truthy (record : list (string * value)) :
  truthy (spec_message record) = true.
Proof.
  unfold spec_message, usable.
  destruct (lookup record "message") as [m |].
  - destruct (truthy m) eqn:Tm; [exact Tm |].
    destruct (lookup record "log") as [l |]; [| reflexivity].
    destruct (truthy l) eqn:Tl; [exact Tl | reflexivity].
  - destruct (lookup record "log") as [l |]; [| reflexivity].
    destruct (truthy l) eqn:Tl; [exact Tl | reflexivity].
Qed.

Lemma truthy_has_value (v : value) :
  truthy v = true -> v <> VNone.
Proof. intros T ->. discriminate. Qed.

(** C3, as stated, fails: a record whose [level] is null gives an entry whose
    [level] is null, not a value and not the placeholder. *)
Lemma entry_null_level_has_no_value :
  is_document Fixture.null_level_hit = true /\
  Generator.entry 0 Fixture.null_level_hit =
    Ok (VDict [("doc", VInt 1);
               ("timestamp", VStr EmptyString);
               ("message", VStr "retrying upstream");
               ("level", VNone);
               ("service", VStr "N/A")]) /\
  has_value (VDict [("doc", VInt 1);
                    ("timestamp", VStr EmptyString);
                    ("message", VStr "retrying upstream");
                    ("level", VNone);
                    ("service", VStr "N/A")]) "level" = false.
Proof. repeat split. Qed.

(** C3, amended.  For every document and position the loop body returns the
    entry of the specification: [doc] is the position plus one; message is
    [message] if it holds a truthy value, else [log] if it holds a truthy
    value, else the rendering of the whole raw record; timestamp, level and
    service are what the first present key of ([@timestamp], [timestamp]),
    ([level], [severity]), ([service], [app]) holds, else ["N/A"].  Every entry
    has all five fields; [doc] and message always have a value, and message is
    never empty; timestamp, level and service have a value unless the raw
    record holds null under the key that was selected. *)
Theorem entry_fallback_chains (position : nat) (hit : value) :
  is_document hit = true ->
  let record := raw_record hit in
  exists e,
    Generator.entry (Z.of_nat position) hit = Ok e /\
    e = spec_entry position hit /\
    (forall field, In field ["doc"; "timestamp"; "message"; "level"; "service"] ->
                   exists v, subscript e field = Ok v) /\
    has_value e "doc" = true /\
    has_value e "message" = true /\
    truthy (spec_message record) = true /\
    (has_value e "timestamp" = false ->
     spec_field record "@timestamp" "timestamp" = VNone /\
     (lookup record "@timestamp" = Some VNone \/
      lookup record "timestamp" = Some VNone)) /\
    (has_value e "level" = false ->
     spec_field record "level" "severity" = VNone /\
     (lookup record "level" = Some VNone \/
      lookup record "severity" = Some VNone)) /\
    (has_value e "service" = false ->
     spec_field record "service" "app" = VNone /\
     (lookup record "service" = Some VNone \/
      lookup record "app" = Some VNone)).
Proof.
  intros D record.
  exists (spec_entry position hit).
  split; [apply entry_document; exact D |].
  split; [reflexivity |].
  assert (Hfield : forall first second,
             match spec_field record first second with
             | VNone => false
             | _ => true
             end = false ->
             spec_field record first second = VNone /\
             (lookup record first = Some VNone \/
              lookup record second = Some VNone)).
  { intros first second. unfold spec_field.
    destruct (lookup record first) as [v |].
    - destruct v; try discriminate. auto.
    - destruct (lookup record second) as [v |]; [| discriminate].
      destruct v; try discriminate. auto. }
  split.
  { intros field [<- | [<- | [<- | [<- | [<- | []]]]]]; eexists; reflexivity. }
  split; [reflexivity |].
  pose proof (spec_message_truthy record) as T.
  split.
  { unfold has_value, spec_entry. cbn [lookup String.eqb Ascii.eqb Bool.eqb].
    fold record. destruct (spec_message record); try reflexivity. discriminate. }
  split; [exact T |].
  split; [exact (Hfield "@timestamp" "timestamp") |].
  split; [exact (Hfield "level" "severity") | exact (Hfield "service" "app")].
Qed.

Lemma entry_fallback_chains_witness :
  let record := raw_record Fixture.null_level_hit in
  exists e,
    Generator.entry (Z.of_nat 0) Fixture.null_level_hit = Ok e /\
    e = spec_entry 0 Fixture.null_level_hit /\
    (forall field, In field ["doc"; "timestamp"; "message"; "level"; "service"] ->
                   exists v, subscript e field = Ok v) /\
    has_value e "doc" = true /\
    has_value e "message" = true /\
    truthy (spec_message record) = true /\
    (has_value e "timestamp" = false ->
     spec_field record "@timestamp" "timestamp" = VNone /\
     (lookup record "@timestamp" = Some VNone \/
      lookup record "timestamp" = Some VNone)) /\
    (has_value e "level" = false ->
     spec_field record "level" "severity" = VNone /\
     (lookup record "level" = Some VNone \/
      lookup record "severity" = Some VNone)) /\
    (has_value e "service" = false ->
     spec_field record "service" "app" = VNone /\
     (lookup record "service" = Some VNone \/
      lookup record "app" = Some VNone)).
Proof.
  apply (entry_fallback_chains 0 Fixture.null_level_hit). reflexivity.
Defined.

Lemma spec_field_keeps_present (record : list (string * value))
  (field first second : string) (e : value) :
  subscript e field = Ok (spec_field record first second) ->
  keeps_present record e field first second.
Proof.
  intros S. unfold keeps_present. rewrite S. unfold spec_field.
  repeat split.
  - intros v ->. reflexivity.
  - intros v -> ->. reflexivity.
  - intros -> ->. reflexivity.
Qed.

(** C10.  The message falls back on falsiness, the other three fields on
    absence only.  For every document: when the raw record has a [message]
    that is falsy (empty string, null, zero, empty list or mapping), the
    entry's message is the [log] field if that is truthy and otherwise the
    rendering of the whole record; a truthy [message] is taken as it is.  For
    timestamp, level and service the value under the first present key is kept
    verbatim, whatever it is, and ["N/A"] appears only when both keys are
    absent. *)
Theorem message_falls_back_on_falsiness (position : nat) (hit : value) :
  is_document hit = true ->
  let record := raw_record hit in
  exists e,
    Generator.entry (Z.of_nat position) hit = Ok e /\
    (forall m, lookup record "message" = Some m -> truthy m = false ->
               subscript e "message" =
               Ok (match lookup record "log" with
                   | Some l => if truthy l then l
                               else VStr (py_str (VDict record))
                   | None => VStr (py_str (VDict record))
                   end)) /\
    (forall m, lookup record "message" = Some m -> truthy m = true ->
               subscript e "message" = Ok m) /\
    keeps_present record e "timestamp" "@timestamp" "timestamp" /\
    keeps_present record e "level" "level" "severity" /\
    keeps_present record e "service" "service" "app".
Proof.
  intros D record.
  exists (spec_entry position hit).
  split; [apply entry_document; exact D |].
  split.
  { intros m Hm Tm.
    change (subscript (spec_entry position hit) "message")
      with (Ok (A := value) (spec_message record)).
    unfold spec_message, usable. rewrite Hm, Tm.
    destruct (lookup record "log") as [l |]; [destruct (truthy l) |]; reflexivity. }
  split.
  { intros m Hm Tm.
    change (subscript (spec_entry position hit) "message")
      with (Ok (A := value) (spec_message record)).
    unfold spec_message, usable. rewrite Hm, Tm. reflexivity. }
  split; [| split]; apply spec_field_keeps_present; reflexivity.
Qed.

Lemma message_falls_back_on_falsiness_witness :
  let record := raw_record Fixture.null_level_hit in
  exists e,
    Generator.entry (Z.of_nat 0) Fixture.null_level_hit = Ok e /\
    (forall m, lookup record "message" = Some m -> truthy m = false ->
               subscript e "message" =
               Ok (match lookup record "log" with
                   | Some l => if truthy l then l
                               else VStr (py_str (VDict record))
                   | None => VStr (py_str (VDict record))
                   end)) /\
    (forall m, lookup record "message" = Some m -> truthy m = true ->
               subscript e "message" = Ok m) /\
    keeps_present record e "timestamp" "@timestamp" "timestamp" /\
    keeps_present record e "level" "level" "severity" /\
    keeps_present record e "service" "service" "app".
Proof.
  apply (message_falls_back_on_falsiness 0 Fixture.null_level_hit). reflexivity.
Defined.

(** On the sample record the empty message is replaced by the log line while
    the empty timestamp and the null level are kept. *)
Example falsy_message_replaced_empty_timestamp_kept :
  Generator.entry 0 Fixture.null_level_hit =
  Ok (VDict [("doc", VInt 1);
             ("timestamp", VStr EmptyString);
             ("message", VStr "retrying upstream");
             ("level", VNone);
             ("service", VStr "N/A")]).
Proof. reflexivity. Qed.

(** ** Index reader *)

Section IndexReader.
Variable env : Env.
Variable self : OpenSearch.OpenSearchClient.
Variable index_name : string.

(** The [try] block: the mapping call, the search call, then the summary. *)
Lemma get_index_data_try_run (st : State) :
  OpenSearch.get_index_data_try env self index_name st =
  let st1 := record (EGet (mapping_url self index_name)) st in
  let st2 := record (EPost (search_url self index_name) OpenSearch.search_body) st1 in
  match session_get env (history st) (mapping_url self index_name) with
  | Raise e => (Raise e, st1)
  | Ok mapping_response =>
      match session_post env (history st1) (search_url self index_name)
              OpenSearch.search_body with
      | Raise e => (Raise e, st2)
      | Ok search_response => (summary mapping_response search_response, st2)
      end
  end.
Proof.
  unfold OpenSearch.get_index_data_try, bind, get_, post_, lift, ret, summary,
    mapping_url, search_url.
  cbv zeta.
  destruct (session_get env (history st) _) as [mapping_response | e];
    [| reflexivity].
  destruct (session_post env _ _ _) as [search_response | e]; [| reflexivity].
  destruct (raise_for_status search_response) as [[] | e]; [| reflexivity].
  cbn [rbind].
  destruct (json search_response) as [data | e]; [| reflexivity]. cbn [rbind].
  destruct (rbind (get data "hits" (VDict [])) _) as [hits | e]; [| reflexivity].
  cbn [rbind].
  destruct (if ok mapping_response then json mapping_response else Ok (VDict []))
    as [mapping | e]; [| reflexivity].
  cbn [rbind].
  destruct (len hits) as [n | e]; [| reflexivity]. cbn [rbind].
  destruct (rbind (get data "hits" (VDict [])) _) as [total | e]; [| reflexivity].
  cbn [rbind].
  destruct (get data "took" (VInt 0)) as [took | e]; reflexivity.
Qed.

(** A summary that returns has the success shape. *)
Lemma summary_shape (mapping_response search_response : Response) (v : value) :
  summary mapping_response search_response = Ok v ->
  exists d, v = VDict d /\ success_shape d.
Proof.
  unfold summary.
  destruct (raise_for_status search_response) as [[] | e]; [| discriminate].
  cbn [rbind].
  destruct (json search_response) as [data | e]; [| discriminate]. cbn [rbind].
  destruct (rbind (get data "hits" (VDict [])) _) as [hits | e]; [| discriminate].
  cbn [rbind].
  destruct (if ok mapping_response then json mapping_response else Ok (VDict []))
    as [mapping | e]; [| discriminate].
  cbn [rbind].
  destruct (len hits) as [n | e]; [| discriminate]. cbn [rbind].
  destruct (rbind (get data "hits" (VDict [])) _) as [total | e]; [| discriminate].
  cbn [rbind].
  destruct (get data "took" (VInt 0)) as [took | e]; [| discriminate].
  cbn [rbind]. intros [= <-]. eexists. split; [reflexivity |].
  unfold success_shape. eauto 10.
Qed.

End IndexReader.

Lemma append_nonempty (a b t : string) (c : ascii) :
  (a ++ (String c b ++ t) =? EmptyString) = false.
Proof. destruct a; reflexivity. Qed.

(** [raise_for_status] raises for the statuses 400..599. *)
Lemma raise_for_status_error (r : Response) :
  (400 <= status_code r < 600)%Z ->
  raise_for_status r = Raise (PyError "HTTPError" (http_error_msg r)).
Proof.
  intros H. unfold raise_for_status, http_error_msg.
  destruct (Z.leb_spec 400 (status_code r)); [| lia].
  destruct (Z.ltb_spec (status_code r) 500); cbn [andb].
  - rewrite append_nonempty. reflexivity.
  - destruct (Z.leb_spec 500 (status_code r)); [| lia].
    destruct (Z.ltb_spec (status_code r) 600); [| lia]. cbn [andb].
    rewrite append_nonempty. reflexivity.
Qed.

(** C7, as stated, fails: a search response with status 300 and a JSON body is
    not a 2xx response, yet [raise_for_status] lets it through and the fetch
    reports success. *)
Lemma search_status_300_reported_as_success :
  let reply := Fixture.response 300 "Multiple Choices" (Ok (VDict [])) in
  ((status_code reply < 200)%Z \/ (299 < status_code reply)%Z) /\
  fst (OpenSearch.get_index_data
         (Fixture.backend (Fixture.response 200 "OK" (Ok (VDict []))) reply)
         Fixture.client "app-logs-2024" initial) =
  Ok (VDict [("mapping", VDict []);
             ("documents", VDict []);
             ("sample_size", VInt 0);
             ("total_hits", VInt 0);
             ("took_ms", VInt 0);
             ("success", VBool true)]).
Proof. split; [right; reflexivity | reflexivity]. Qed.

(** C7, amended.  [get_index_data] of the backend never raises: from any
    state and against any search backend it returns a mapping, which either
    has exactly the success fields (mapping, documents, sample_size,
    total_hits, took_ms, success = True) and no error, or has exactly
    success = False and an error text.  When the mapping call or the search
    call raises, and when the search response has a status from 400 to 599,
    the result is the failure carrying the text of the exception. *)
Theorem get_index_data_never_raises
  (env : Env) (self : OpenSearch.OpenSearchClient) (index_name : string)
  (st : State) :
  match OpenSearch.get_index_data env self index_name st with
  | (r, _) =>
      exists d,
        r = Ok (VDict d) /\
        (success_shape d \/ failure_shape d) /\
        (success_shape d ->
         lookup d "error" = None /\ lookup d "success" = Some (VBool true)) /\
        (failure_shape d ->
         lookup d "success" = Some (VBool false) /\
         lookup d "mapping" = None /\ lookup d "documents" = None /\
         lookup d "sample_size" = None /\ lookup d "total_hits" = None /\
         lookup d "took_ms" = None) /\
        (forall e,
            session_get env (history st) (mapping_url self index_name) = Raise e ->
            VDict d = OpenSearch.failure e) /\
        (forall mapping_response e,
            session_get env (history st) (mapping_url self index_name)
              = Ok mapping_response ->
            session_post env (history st ++ [EGet (mapping_url self index_name)])
              (search_url self index_name) OpenSearch.search_body = Raise e ->
            VDict d = OpenSearch.failure e) /\
        (forall mapping_response search_response,
            session_get env (history st) (mapping_url self index_name)
              = Ok mapping_response ->
            session_post env (history st ++ [EGet (mapping_url self index_name)])
              (search_url self index_name) OpenSearch.search_body
              = Ok search_response ->
            (400 <= status_code search_response < 600)%Z ->
            VDict d = OpenSearch.failure
                        (PyError "HTTPError" (http_error_msg search_response)))
  end.
Proof.
  unfold OpenSearch.get_index_data, try_except.
  rewrite get_index_data_try_run. cbv zeta. cbn [record history].
  assert (Hfail : forall e,
             exists d, VDict d = OpenSearch.failure e /\ failure_shape d /\
                       ~ success_shape d).
  { intros e. eexists. split; [reflexivity |]. split.
    - exists (exn_str e). reflexivity.
    - intros (? & ? & ? & ? & ? & H). discriminate. }
  assert (Hshapes : forall d,
             (success_shape d ->
              lookup d "error" = None /\ lookup d "success" = Some (VBool true)) /\
             (failure_shape d ->
              lookup d "success" = Some (VBool false) /\
              lookup d "mapping" = None /\ lookup d "documents" = None /\
              lookup d "sample_size" = None /\ lookup d "total_hits" = None /\
              lookup d "took_ms" = None)).
  { intros d. split.
    - intros (? & ? & ? & ? & ? & ->). split; reflexivity.
    - intros (? & ->). repeat split. }
  destruct (session_get env (history st) (mapping_url self index_name))
    as [mapping_response | e0].
  2:{ destruct (Hfail e0) as (d & Hd & Fd & _). exists d.
      split; [unfold ret; rewrite Hd; reflexivity |].
      split; [right; exact Fd |].
      split; [apply Hshapes |]. split; [apply Hshapes |].
      split; [intros e [= <-]; exact Hd |].
      split; intros; discriminate. }
  destruct (session_post env _ (search_url self index_name) OpenSearch.search_body)
    as [search_response | e1].
  2:{ destruct (Hfail e1) as (d & Hd & Fd & _). exists d.
      split; [unfold ret; rewrite Hd; reflexivity |].
      split; [right; exact Fd |].
      split; [apply Hshapes |]. split; [apply Hshapes |].
      split; [intros; discriminate |].
      split; [intros m e _ [= <-]; exact Hd | intros; discriminate]. }
  destruct (summary mapping_response search_response) as [v | e2] eqn:S.
  - destruct (summary_shape _ _ _ S) as (d & -> & Sd). exists d.
    split; [reflexivity |]. split; [left; exact Sd |].
    split; [apply Hshapes |]. split; [apply Hshapes |].
    split; [intros; discriminate |]. split; [intros; discriminate |].
    intros m sr [= <-] [= <-] Hstatus.
    unfold summary in S. rewrite (raise_for_status_error _ Hstatus) in S.
    discriminate.
  - destruct (Hfail e2) as (d & Hd & Fd & _). exists d.
    split; [unfold ret; rewrite Hd; reflexivity |].
    split; [right; exact Fd |].
    split; [apply Hshapes |]. split; [apply Hshapes |].
    split; [intros; discriminate |]. split; [intros; discriminate |].
    intros m sr [= <-] [= <-] Hstatus.
    unfold summary in S. rewrite (raise_for_status_error _ Hstatus) in S.
    cbn [rbind] in S. injection S as <-. exact Hd.
Qed.

(** A well-formed search reply is summarized without an exception when the
    search response is accepted and the mapping response is not. *)
Lemma summary_without_mapping (mapping_response search_response : Response)
  (data : value) :
  ok mapping_response = false ->
  ok search_response = true ->
  json search_response = Ok data ->
  well_formed_search data = true ->
  exists sample_size total_hits took_ms,
    summary mapping_response search_response =
    Ok (VDict [("mapping", VDict []);
               ("documents", data);
               ("sample_size", VInt sample_size);
               ("total_hits", total_hits);
               ("took_ms", took_ms);
               ("success", VBool true)]).
Proof.
  intros Hm Hs Hj Hw. unfold summary. rewrite Hm, Hj.
  unfold ok in Hs. destruct (raise_for_status search_response) as [[] |];
    [| discriminate].
  cbn [rbind].
  destruct data as [| | | | | | d]; try discriminate.
  cbn [well_formed_search] in Hw. cbn [get].
  destruct (lookup d "hits") as [h |]; cbn [rbind get lookup len].
  - destruct h as [| | | | | | h]; try discriminate.
    apply andb_prop in Hw as [Hhits Htotal]. cbn [get rbind].
    destruct (lookup h "hits") as [x |].
    + destruct x; try discriminate; cbn [len rbind];
        (destruct (lookup h "total") as [t |];
         [destruct t; try discriminate |]; cbn [get rbind]; eauto).
    + cbn [len rbind].
      destruct (lookup h "total") as [t |];
        [destruct t; try discriminate |]; cbn [get rbind]; eauto.
  - eauto.
Qed.

(** C6.  In both sources: when the mapping call returns a response that is
    not [ok] and the search call returns an accepted response whose body is a
    well-formed search reply, [get_index_data] returns success = True with an
    empty mapping and the search reply as its documents. *)
Theorem mapping_failure_is_tolerated
  (env : Env) (self : OpenSearch.OpenSearchClient) (index_name : string)
  (st : State) (mapping_response search_response : Response) (data : value) :
  session_get env (history st) (mapping_url self index_name)
    = Ok mapping_response ->
  ok mapping_response = false ->
  session_post env (history st ++ [EGet (mapping_url self index_name)])
    (search_url self index_name) OpenSearch.search_body = Ok search_response ->
  ok search_response = true ->
  json search_response = Ok data ->
  well_formed_search data = true ->
  exists index_data,
    fst (OpenSearch.get_index_data env self index_name st) = Ok index_data /\
    fst (OpenSearch.get_index_data_dashboard env self index_name st)
      = Ok index_data /\
    subscript index_data "success" = Ok (VBool true) /\
    subscript index_data "mapping" = Ok (VDict []) /\
    subscript index_data "documents" = Ok data.
Proof.
  intros Hget Hm Hpost Hs Hj Hw.
  destruct (summary_without_mapping _ _ _ Hm Hs Hj Hw) as (n & total & took & S).
  eexists. split; [| split].
  - unfold OpenSearch.get_index_data, try_except.
    rewrite get_index_data_try_run. cbv zeta. cbn [record history].
    rewrite Hget, Hpost, S. reflexivity.
  - unfold OpenSearch.get_index_data_dashboard, try_except.
    rewrite get_index_data_try_run. cbv zeta. cbn [record history].
    rewrite Hget, Hpost, S. reflexivity.
  - repeat split.
Qed.

Lemma mapping_failure_is_tolerated_witness :
  exists index_data,
    fst (OpenSearch.get_index_data
           (Fixture.backend (Fixture.response 404 "Not Found" (Raise Fixture.unreachable))
              (Fixture.response 200 "OK" (Ok (Fixture.search_reply [Fixture.full_hit]))))
           Fixture.client "app-logs-2024" initial) = Ok index_data /\
    fst (OpenSearch.get_index_data_dashboard
           (Fixture.backend (Fixture.response 404 "Not Found" (Raise Fixture.unreachable))
              (Fixture.response 200 "OK" (Ok (Fixture.search_reply [Fixture.full_hit]))))
           Fixture.client "app-logs-2024" initial) = Ok index_data /\
    subscript index_data "success" = Ok (VBool true) /\
    subscript index_data "mapping" = Ok (VDict []) /\
    subscript index_data "documents" = Ok (Fixture.search_reply [Fixture.full_hit]).
Proof.
  apply (mapping_failure_is_tolerated
           (Fixture.backend (Fixture.response 404 "Not Found" (Raise Fixture.unreachable))
              (Fixture.response 200 "OK" (Ok (Fixture.search_reply [Fixture.full_hit]))))
           Fixture.client "app-logs-2024" initial
           (Fixture.response 404 "Not Found" (Raise Fixture.unreachable))
           (Fixture.response 200 "OK" (Ok (Fixture.search_reply [Fixture.full_hit])))
           (Fixture.search_reply [Fixture.full_hit]));
    reflexivity.
Defined.

(** ** Model invoker, incremental contract *)

Lemma usable_truthy (candidate : option value) (v : value) :
  usable candidate = Some v -> truthy v = true.
Proof.
  destruct candidate as [x |]; [| discriminate]. cbn [usable].
  destruct (truthy x) eqn:T; [| discriminate]. intros [= <-]. exact T.
Qed.

Lemma delta_text_truthy (chunk text : value) :
  delta_text chunk = Some text -> truthy text = true.
Proof.
  destruct chunk as [| | | | | | c]; try discriminate. cbn [delta_text].
  destruct (lookup c "type") as [ty |]; [| discriminate].
  destruct (eq_str ty "content_block_delta"); [| discriminate].
  destruct (lookup c "delta") as [[| | | | | | d] |]; try discriminate.
  apply usable_truthy.
Qed.

(** What the loop body yields for an event it can read. *)
Lemma chunk_text_fragment (chunk : value) (ys : list value) :
  LLM.chunk_text chunk = Ok ys -> ys = fragment_of (Ok chunk).
Proof.
  unfold LLM.chunk_text, fragment_of.
  destruct chunk as [| | | | | | c]; try discriminate.
  cbn [subscript delta_text].
  destruct (lookup c "type") as [ty |]; [| discriminate]. cbn [rbind].
  destruct (eq_str ty "content_block_delta"); [| intros [= <-]; reflexivity].
  destruct (lookup c "delta") as [delta |]; [| discriminate]. cbn [rbind].
  destruct delta as [| | | | | | d]; try discriminate. cbn [get rbind usable].
  destruct (lookup d "text") as [text |].
  - cbn [usable]. destruct (truthy text); intros [= <-]; reflexivity.
  - cbn [truthy String.eqb negb]. intros [= <-]. reflexivity.
Qed.

(** The loop yields the fragments of the events it consumed, in order, and
    it consumed them all when it ends without an exception. *)
Lemma stream_loop_fragments (events : list (result value)) :
  match LLM.stream_loop events with
  | (ys, stop) =>
      exists consumed,
        ys = flat_map fragment_of (firstn consumed events) /\
        (stop = None -> consumed = List.length events)
  end.
Proof.
  induction events as [| ev rest IH]; cbn [LLM.stream_loop].
  - exists 0%nat. split; reflexivity.
  - destruct ev as [chunk | e].
    + destruct (LLM.chunk_text chunk) as [ys |] eqn:C.
      * destruct (LLM.stream_loop rest) as [ys' stop].
        destruct IH as (consumed & -> & Hall).
        exists (S consumed). cbn [firstn flat_map List.length].
        rewrite (chunk_text_fragment _ _ C). split; [reflexivity |].
        intros H. rewrite (Hall H). reflexivity.
      * exists 0%nat. split; [reflexivity | discriminate].
    + exists 0%nat. split; [reflexivity | discriminate].
Qed.

Lemma fragments_truthy (events : list (result value)) (f : value) :
  In f (flat_map fragment_of events) ->
  truthy f = true /\
  exists chunk, In (Ok chunk) events /\ delta_text chunk = Some f.
Proof.
  intros H. apply in_flat_map in H as (ev & Hev & Hf).
  destruct ev as [chunk | e]; [| destruct Hf]. cbn [fragment_of] in Hf.
  destruct (delta_text chunk) as [text |] eqn:D; [| destruct Hf].
  destruct Hf as [<- | []]. split; [exact (delta_text_truthy _ _ D) |].
  exists chunk. split; assumption.
Qed.

Lemma chunk_text_well_formed (chunk : value) :
  well_formed_event (Ok chunk) = true ->
  LLM.chunk_text chunk = Ok (fragment_of (Ok chunk)).
Proof.
  unfold LLM.chunk_text, fragment_of.
  destruct chunk as [| | | | | | c]; try discriminate.
  cbn [well_formed_event subscript delta_text].
  destruct (lookup c "type") as [ty |]; [| discriminate]. cbn [rbind].
  destruct (eq_str ty "content_block_delta"); [| reflexivity].
  destruct (lookup c "delta") as [delta |]; [| discriminate]. cbn [rbind].
  destruct delta as [| | | | | | d]; try discriminate. intros _.
  cbn [get rbind usable].
  destruct (lookup d "text") as [text |].
  - cbn [usable]. destruct (truthy text); reflexivity.
  - reflexivity.
Qed.

Lemma chunk_text_ill_formed (chunk : value) :
  well_formed_event (Ok chunk) = false ->
  exists e, LLM.chunk_text chunk = Raise e.
Proof.
  unfold LLM.chunk_text.
  destruct chunk as [| | | | | | c]; try (intros _; eexists; reflexivity).
  cbn [well_formed_event subscript].
  destruct (lookup c "type") as [ty |]; [| intros _; eexists; reflexivity].
  cbn [rbind].
  destruct (eq_str ty "content_block_delta"); [| discriminate].
  destruct (lookup c "delta") as [delta |]; [| intros _; eexists; reflexivity].
  cbn [rbind].
  destruct delta; try (intros _; eexists; reflexivity). discriminate.
Qed.

(** The loop reads the events up to the first it cannot read, yields their
    fragments in order and stops there with the exception; it ends without
    one when it could read them all. *)
Lemma stream_loop_good_prefix (events : list (result value)) :
  match LLM.stream_loop events with
  | (ys, stop) =>
      ys = flat_map fragment_of (good_prefix events) /\
      (stop = None <-> forallb well_formed_event events = true) /\
      (forall e, nth_error events (List.length (good_prefix events))
                   = Some (Raise e) -> stop = Some e)
  end.
Proof.
  induction events as [| ev rest IH]; cbn [LLM.stream_loop].
  - split; [reflexivity |]. split; [split; reflexivity |].
    intros e [=].
  - destruct ev as [chunk | e].
    + destruct (well_formed_event (Ok chunk)) eqn:W.
      * rewrite (chunk_text_well_formed chunk W).
        destruct (LLM.stream_loop rest) as [ys' stop].
        destruct IH as (-> & Hnone & Hraise).
        cbn [good_prefix forallb]. rewrite W. cbn [flat_map List.length nth_error andb].
        split; [reflexivity |]. split; [exact Hnone | exact Hraise].
      * destruct (chunk_text_ill_formed chunk W) as (e & ->).
        cbn [good_prefix forallb]. rewrite W. cbn [flat_map List.length nth_error andb].
        split; [reflexivity |]. split; [split; discriminate |].
        intros e' [=].
    + cbn [good_prefix forallb well_formed_event flat_map List.length nth_error andb].
      split; [reflexivity |]. split; [split; discriminate |].
      intros e' [= <-]. reflexivity.
Qed.

Lemma good_prefix_incl (events : list (result value)) (ev : result value) :
  In ev (good_prefix events) -> In ev events.
Proof.
  induction events as [| first rest IH]; [intros [] |].
  cbn [good_prefix]. destruct (well_formed_event first); [| intros []].
  intros [<- | H]; [left; reflexivity | right; exact (IH H)].
Qed.

Lemma good_prefix_all (events : list (result value)) :
  forallb well_formed_event events = true -> good_prefix events = events.
Proof.
  induction events as [| first rest IH]; [reflexivity |].
  cbn [forallb good_prefix]. intros H. apply andb_prop in H as [Hf Hr].
  rewrite Hf, (IH Hr). reflexivity.
Qed.

(** C8.  [analyze_with_bedrock_streaming] from any state, against any
    provider.  When the client cannot be built or the streaming call raises,
    nothing is yielded and the exception reaches the consumer.  Otherwise the
    generator reads the events of the stream in order, up to the first that
    fails in transit or is not a well-formed event, where it stops with the
    exception (that of the transit failure, for one).  For each event it
    reads it yields the text of the event when this is a content-delta event
    whose delta has a non-empty text, and it yields nothing and goes on
    otherwise: events of another type and deltas without text or with an
    empty text are skipped.  So on a stream of well-formed events the
    fragments are exactly the non-empty delta texts, in order, and the
    generator ends without an exception.  Every fragment is truthy (a text
    fragment is not the empty string) and is the text of a content-delta event
    of the stream. *)
Theorem streaming_yields_nonempty_text_deltas
  (env : Env) (self : LLM.LLMClient) (prompt : Prompt) (st : State) :
  match LLM.analyze_with_bedrock_streaming env self prompt st with
  | (ys, stop, _) =>
      (forall f, In f ys -> truthy f = true /\ f <> VStr EmptyString) /\
      match (if client st then Ok tt
             else boto3_client env (history st) (LLM.region self)) with
      | Raise e => ys = [] /\ stop = Some e
      | Ok _ =>
          let h := if client st then history st
                   else (history st ++ [ECreateClient (LLM.region self)])%list in
          match invoke_model_with_response_stream env h (LLM.model self) prompt with
          | Raise e => ys = [] /\ stop = Some e
          | Ok events =>
              ys = flat_map fragment_of (good_prefix events) /\
              (stop = None <-> forallb well_formed_event events = true) /\
              (forallb well_formed_event events = true ->
               ys = flat_map fragment_of events) /\
              (forall e, nth_error events (List.length (good_prefix events))
                           = Some (Raise e) -> stop = Some e) /\
              (forall f, In f ys ->
                         exists chunk, In (Ok chunk) events /\
                                       delta_text chunk = Some f)
          end
      end
  end.
Proof.
  unfold LLM.analyze_with_bedrock_streaming, bind, LLM.ensure_client,
    LLM.invoke_stream_.
  assert (Hnone : forall f : value, In f [] -> truthy f = true /\ f <> VStr EmptyString)
    by (intros f []).
  assert (Hrun : forall events,
             match LLM.stream_loop events with
             | (ys, stop) =>
                 (forall f, In f ys -> truthy f = true /\ f <> VStr EmptyString) /\
                 ys = flat_map fragment_of (good_prefix events) /\
                 (stop = None <-> forallb well_formed_event events = true) /\
                 (forallb well_formed_event events = true ->
                  ys = flat_map fragment_of events) /\
                 (forall e, nth_error events (List.length (good_prefix events))
                              = Some (Raise e) -> stop = Some e) /\
                 (forall f, In f ys ->
                            exists chunk, In (Ok chunk) events /\
                                          delta_text chunk = Some f)
             end).
  { intros events. pose proof (stream_loop_good_prefix events) as L.
    destruct (LLM.stream_loop events) as [ys stop].
    destruct L as (-> & Hstop & Hraise).
    assert (Hin : forall f, In f (flat_map fragment_of (good_prefix events)) ->
                            truthy f = true /\
                            exists chunk, In (Ok chunk) events /\
                                          delta_text chunk = Some f).
    { intros f Hf. destruct (fragments_truthy _ _ Hf) as (T & chunk & Hc & D).
      split; [exact T |]. exists chunk. split; [| exact D].
      apply good_prefix_incl. exact Hc. }
    split; [| split; [| split; [| split; [| split]]]].
    - intros f Hf. destruct (Hin f Hf) as (T & _). split; [exact T |].
      intros ->. discriminate.
    - reflexivity.
    - exact Hstop.
    - intros W. rewrite (good_prefix_all _ W). reflexivity.
    - exact Hraise.
    - intros f Hf. apply (Hin f Hf). }
  destruct (client st) eqn:C.
  - cbn [record history].
    destruct (invoke_model_with_response_stream env (history st) (LLM.model self) prompt)
      as [events | e].
    + specialize (Hrun events). destruct (LLM.stream_loop events) as [ys stop].
      destruct Hrun as (H1 & H2). auto.
    + auto.
  - destruct (boto3_client env (history st) (LLM.region self)) as [[] | e].
    + cbn [record history].
      destruct (invoke_model_with_response_stream env _ (LLM.model self) prompt)
        as [events | e].
      * specialize (Hrun events). destruct (LLM.stream_loop events) as [ys stop].
        destruct Hrun as (H1 & H2). auto.
      * auto.
    + auto.
Qed.

(** The three fragments of the specification's example, with an empty delta
    and a non-delta event in between, come out as they are. *)
Example streaming_three_fragments :
  fst (fst (LLM.analyze_with_bedrock_streaming
              (Fixture.streaming
                 [Ok (VDict [("type", VStr "message_start")]);
                  Fixture.delta (VStr "Root");
                  Fixture.delta (VStr EmptyString);
                  Fixture.delta (VStr " cause");
                  Ok (VDict [("type", VStr "content_block_delta");
                             ("delta", VDict [("partial_json", VStr "{")])]);
                  Fixture.delta (VStr ": pod")])
              Fixture.llm
              {| p_index_name := "app-logs-2024"; p_total_documents := "0";
                 p_query_time := "0"; p_fetched := "0"; p_sample_docs := [];
                 p_focus := "All"; p_security := "True";
                 p_include_external := "True" |}
              initial))
  = [VStr "Root"; VStr " cause"; VStr ": pod"].
Proof. reflexivity. Qed.

(** ** The streaming route *)

(** A fetch reaches the search backend only. *)
Lemma get_index_data_effects
  (env : Env) (self : OpenSearch.OpenSearchClient) (index_name : string)
  (st : State) :
  exists new,
    history (snd (OpenSearch.get_index_data env self index_name st))
      = (history st ++ new)%list /\
    client (snd (OpenSearch.get_index_data env self index_name st)) = client st /\
    existsb touches_model new = false /\
    attempted new = 0%nat.
Proof.
  unfold OpenSearch.get_index_data, try_except.
  rewrite get_index_data_try_run. cbv zeta.
  destruct (session_get env (history st) (mapping_url self index_name)) as [m | e].
  - destruct (session_post env _ (search_url self index_name) OpenSearch.search_body)
      as [sr | e].
    + destruct (summary m sr); cbn [snd ret record history client];
        rewrite <- app_assoc; eexists; repeat split.
    + cbn [snd ret record history client]. rewrite <- app_assoc.
      eexists; repeat split.
  - cbn [snd ret record history client]. eexists; repeat split.
Qed.

(** C9.  [plan_generator_stream] when the fetch step fails, i.e.
    [get_index_data] returns success = False with the error text [msg]: the
    generator yields exactly one event, the text
    [data: {"error": "Failed to fetch index data: <msg>"}] followed by two
    newlines, and then ends without raising; nothing reached the model
    provider (no client was built, no model call of either kind was made). *)
Theorem stream_stops_after_fetch_failure
  (env : Env) (request : Api.GeneratePlanRequest) (st : State) (msg : string) :
  let os_client :=
    OpenSearch.init (Api.cfg_endpoint (Api.opensearch_config request))
                    (Api.cfg_username (Api.opensearch_config request))
                    (Api.cfg_password (Api.opensearch_config request)) in
  let quote := String "034" EmptyString in
  let newline := String "010" EmptyString in
  fst (OpenSearch.get_index_data env os_client (Api.index_name request)
         {| history := history st; client := false |})
    = Ok (VDict [("success", VBool false); ("error", VStr msg)]) ->
  match Api.plan_generator_stream env request st with
  | (fragments, stop, st') =>
      fragments = ["data: {" ++ quote ++ "error" ++ quote ++ ": " ++ quote
                     ++ "Failed to fetch index data: " ++ msg
                     ++ quote ++ "}" ++ newline ++ newline] /\
      stop = None /\
      exists new,
        history st' = (history st ++ new)%list /\
        existsb touches_model new = false /\
        attempted new = 0%nat
  end.
Proof.
  intros os_client quote newline Hfetch.
  unfold Api.plan_generator_stream. fold os_client.
  pose proof (get_index_data_effects env os_client (Api.index_name request)
                {| history := history st; client := false |}) as Heff.
  destruct (OpenSearch.get_index_data env os_client (Api.index_name request)
              {| history := history st; client := false |}) as [r st1].
  cbn [fst] in Hfetch. subst r. cbn [snd history] in Heff.
  destruct Heff as (new & Hh & _ & Hm & Ha).
  cbn -[String.append].
  split; [reflexivity |]. split; [reflexivity |].
  exists new. auto.
Qed.

Lemma stream_stops_after_fetch_failure_witness :
  match Api.plan_generator_stream Fixture.down Fixture.request initial with
  | (fragments, stop, st') =>
      fragments = ["data: {" ++ String "034" EmptyString ++ "error"
                     ++ String "034" EmptyString ++ ": " ++ String "034" EmptyString
                     ++ "Failed to fetch index data: " ++ "Connection refused"
                     ++ String "034" EmptyString ++ "}"
                     ++ String "010" EmptyString ++ String "010" EmptyString] /\
      stop = None /\
      exists new,
        history st' = (history initial ++ new)%list /\
        existsb touches_model new = false /\
        attempted new = 0%nat
  end.
Proof.
  apply (stream_stops_after_fetch_failure Fixture.down Fixture.request initial
           "Connection refused").
  reflexivity.
Defined.

(** ** Plan orchestrator *)

Section Orchestrator.
Variable env : Env.
Variable self : LLM.LLMClient.
Variable prompt : Prompt.

(** For any retry bound: a returned text is the outcome of a model call, and
    the only exception of the loop is the exhaustion. *)
Lemma attempts_result (todo : list Z) (st : State) :
  match LLM.attempts env self prompt todo st with
  | (r, st') =>
      (exists new, history st' = (history st ++ new)%list) /\
      match r with
      | Ok text => exists h, outcome env self prompt h = Ok text
      | Raise e => e = exhausted self
      end
  end.
Proof.
  revert st. induction todo as [| attempt rest IH]; intros st.
  - cbn [LLM.attempts]. unfold raise. split; [| reflexivity].
    exists []. symmetry. apply app_nil_r.
  - cbn [LLM.attempts]. unfold bind at 1. rewrite attempt_body_run.
    destruct (outcome env self prompt (history st)) as [text | e] eqn:O.
    + unfold ret. split; [eexists; reflexivity | exists (history st); exact O].
    + match goal with
      | |- context [LLM.attempts env self prompt rest ?s] =>
          specialize (IH s);
          assert (Hs : exists pre, history s = (history st ++ pre)%list)
      end.
      { destruct (attempt <? LLM.max_retries self - 1)%Z; cbn [record history];
          rewrite <- ?app_assoc; eexists; reflexivity. }
      destruct (LLM.attempts env self prompt rest _) as [r st'].
      destruct IH as ((new & Hnew) & Hr). destruct Hs as (pre & Hpre).
      split; [| exact Hr].
      exists (pre ++ new)%list. rewrite Hnew, Hpre, app_assoc. reflexivity.
Qed.

Lemma analyze_with_bedrock_result (st : State) :
  match LLM.analyze_with_bedrock env self prompt st with
  | (r, st') =>
      (exists new, history st' = (history st ++ new)%list) /\
      match r with
      | Ok text => exists h, outcome env self prompt h = Ok text
      | Raise e =>
          boto3_client env (history st) (LLM.region self) = Raise e \/
          e = exhausted self
      end
  end.
Proof.
  unfold LLM.analyze_with_bedrock, bind, LLM.ensure_client.
  destruct (client st).
  - pose proof (attempts_result (LLM.range (LLM.max_retries self)) st) as A.
    destruct (LLM.attempts env self prompt _ st) as [r st'].
    destruct A as (Hh & Hr). split; [exact Hh |].
    destruct r; [exact Hr | right; exact Hr].
  - destruct (boto3_client env (history st) (LLM.region self)) as [[] | e].
    + match goal with
      | |- context [LLM.attempts env self prompt _ ?s] =>
          pose proof (attempts_result (LLM.range (LLM.max_retries self)) s) as A
      end.
      destruct (LLM.attempts env self prompt _ _) as [r st'].
      destruct A as ((new & Hnew) & Hr). split.
      * exists (ECreateClient (LLM.region self) :: new).
        rewrite Hnew. cbn [history record]. rewrite <- app_assoc. reflexivity.
      * destruct r; [exact Hr | right; exact Hr].
    + split; [eexists; reflexivity | left; reflexivity].
Qed.

End Orchestrator.

(** [generate_plan], path by path. *)
Lemma generate_plan_run
  (env : Env) (self : Generator.ChaosPlanGenerator) (index_name : string)
  (index_data analysis_options : value) (st : State) :
  Generator.generate_plan env self index_name index_data analysis_options st =
  let start_time := time_time env (history st) in
  let st1 := record ETime st in
  match Generator._create_prompt index_name index_data analysis_options with
  | Raise e =>
      (Ok (VStr EmptyString, failed_metrics start_time (exn_str e)), st1)
  | Ok prompt =>
      match LLM.analyze_with_bedrock env (Generator.llm_client self) prompt st1 with
      | (Raise e, st2) =>
          (Ok (VStr EmptyString, failed_metrics start_time (exn_str e)), st2)
      | (Ok plan, st2) =>
          if truthy plan
          then
            let st3 := record ETime st2 in
            let st4 := record ETime st3 in
            match len plan with
            | Ok plan_length =>
                (Ok (plan, succeeded_metrics start_time
                             (time_time env (history st2))
                             (time_time env (history st3)) plan_length), st4)
            | Raise e =>
                (Ok (VStr EmptyString, failed_metrics start_time (exn_str e)), st4)
            end
          else
            (Ok (VStr EmptyString,
                 failed_metrics start_time "Empty response from LLM"), st2)
      end
  end.
Proof.
  unfold Generator.generate_plan, bind at 1, time_. cbv zeta.
  unfold try_except, bind at 1, lift.
  destruct (Generator._create_prompt index_name index_data analysis_options)
    as [prompt | e]; [| reflexivity].
  unfold bind at 1.
  destruct (LLM.analyze_with_bedrock env (Generator.llm_client self) prompt
              (record ETime st)) as [[plan | e] st2]; [| reflexivity].
  destruct (truthy plan); [| reflexivity].
  unfold bind, time_, lift, ret. cbn [Generator.since_start lookup String.eqb
                                       Ascii.eqb Bool.eqb].
  destruct (len plan) as [n | e]; reflexivity.
Qed.

(** C4.  [generate_plan] once the prompt has been built, against a provider
    whose reply texts are strings and whose client-construction errors carry
    a message.  Let [invoked] be the result of the blocking invocation that
    [generate_plan] makes.  The call returns an empty plan with
    success = False and a non-empty error exactly when the invocation raised
    or returned the empty string.  A raised exception is reported by its
    text; an empty text is reported as "Empty response from LLM" and nothing
    happens after the invocation returned it (it is not retried).  A
    non-empty text is returned as the plan, with success = True and
    plan_length equal to its length. *)
Theorem generate_plan_fails_exactly_on_model_failure
  (env : Env) (self : Generator.ChaosPlanGenerator) (index_name : string)
  (index_data analysis_options : value) (prompt : Prompt) (st : State) :
  let llm := Generator.llm_client self in
  Generator._create_prompt index_name index_data analysis_options = Ok prompt ->
  (forall h e, boto3_client env h (LLM.region llm) = Raise e ->
               exn_str e <> EmptyString) ->
  (forall h text, outcome env llm prompt h = Ok text -> exists s, text = VStr s) ->
  match LLM.analyze_with_bedrock env llm prompt (record ETime st),
        Generator.generate_plan env self index_name index_data analysis_options st
  with
  | (invoked, st2), (returned, st') =>
      exists plan metrics,
        returned = Ok (plan, metrics) /\
        ((plan = VStr EmptyString /\
          lookup metrics "success" = Some (Generator.MBool false) /\
          exists msg, lookup metrics "error" = Some (Generator.MStr msg) /\
                      msg <> EmptyString)
         <-> ((exists e, invoked = Raise e) \/ invoked = Ok (VStr EmptyString))) /\
        (forall e, invoked = Raise e ->
                   lookup metrics "error" = Some (Generator.MStr (exn_str e))) /\
        (invoked = Ok (VStr EmptyString) ->
         lookup metrics "error" = Some (Generator.MStr "Empty response from LLM") /\
         st' = st2) /\
        (forall s, invoked = Ok (VStr s) -> s <> EmptyString ->
                   plan = VStr s /\
                   lookup metrics "success" = Some (Generator.MBool true) /\
                   lookup metrics "plan_length"
                     = Some (Generator.MInt (Z.of_nat (String.length s))))
  end.
Proof.
  intros llm Hprompt Hclient Htext.
  rewrite generate_plan_run. cbv zeta. rewrite Hprompt. fold llm.
  pose proof (analyze_with_bedrock_result env llm prompt (record ETime st)) as A.
  destruct (LLM.analyze_with_bedrock env llm prompt (record ETime st))
    as [[text | e] st2].
  - destruct A as (_ & h & O). destruct (Htext h text O) as (s & ->).
    destruct s as [| c s].
    + cbn [truthy String.eqb negb].
      eexists _, _. split; [reflexivity |]. split; [| split; [| split]].
      * split; [intros _; right; reflexivity |].
        intros _. split; [reflexivity |]. split; [reflexivity |].
        eexists. split; [reflexivity | discriminate].
      * intros e [=].
      * intros _. split; reflexivity.
      * intros s [= <-] H. contradiction.
    + cbn [truthy String.eqb negb len].
      eexists _, _. split; [reflexivity |]. split; [| split; [| split]].
      * split.
        -- intros (H & _). discriminate.
        -- intros [(e & H) | H]; discriminate.
      * intros e [=].
      * intros [=].
      * intros s' [= <-] _. repeat split.
  - assert (Hmsg : exn_str e <> EmptyString).
    { destruct A as (_ & [B | ->]).
      - exact (Hclient _ _ B).
      - discriminate. }
    eexists _, _. split; [reflexivity |]. split; [| split; [| split]].
    + split.
      * intros _. left. eexists. reflexivity.
      * intros _. split; [reflexivity |]. split; [reflexivity |].
        eexists. split; [reflexivity | exact Hmsg].
    + intros e' [= <-]. reflexivity.
    + intros [=].
    + intros s [=].
Qed.

Lemma flaky_replies_are_text (failures : nat) (s : string) (h : list event)
  (text : value) :
  outcome (Fixture.flaky failures (VStr s)) Fixture.llm Fixture.prompt h = Ok text ->
  exists s', text = VStr s'.
Proof.
  unfold outcome. cbn [invoke_model Fixture.flaky].
  destruct (Fixture.calls h <? failures)%nat; [discriminate |].
  intros [= <-]. eexists. reflexivity.
Qed.

Lemma generate_plan_fails_exactly_on_model_failure_witness :
  match LLM.analyze_with_bedrock (Fixture.flaky 2 (VStr "plan")) Fixture.llm
          Fixture.prompt (record ETime initial),
        Generator.generate_plan (Fixture.flaky 2 (VStr "plan")) Fixture.generator
          "app-logs-2024" (Fixture.index_data_of [Fixture.full_hit])
          Fixture.options initial
  with
  | (invoked, st2), (returned, st') =>
      exists plan metrics,
        returned = Ok (plan, metrics) /\
        ((plan = VStr EmptyString /\
          lookup metrics "success" = Some (Generator.MBool false) /\
          exists msg, lookup metrics "error" = Some (Generator.MStr msg) /\
                      msg <> EmptyString)
         <-> ((exists e, invoked = Raise e) \/ invoked = Ok (VStr EmptyString))) /\
        (forall e, invoked = Raise e ->
                   lookup metrics "error" = Some (Generator.MStr (exn_str e))) /\
        (invoked = Ok (VStr EmptyString) ->
         lookup metrics "error" = Some (Generator.MStr "Empty response from LLM") /\
         st' = st2) /\
        (forall s, invoked = Ok (VStr s) -> s <> EmptyString ->
                   plan = VStr s /\
                   lookup metrics "success" = Some (Generator.MBool true) /\
                   lookup metrics "plan_length"
                     = Some (Generator.MInt (Z.of_nat (String.length s))))
  end.
Proof.
  apply (generate_plan_fails_exactly_on_model_failure
           (Fixture.flaky 2 (VStr "plan")) Fixture.generator "app-logs-2024"
           (Fixture.index_data_of [Fixture.full_hit]) Fixture.options
           Fixture.prompt initial).
  - reflexivity.
  - intros h e. simpl. discriminate.
  - intros h text. apply flaky_replies_are_text.
Defined.

(** The three outcomes on simulated providers: two failures then a plan, an
    empty reply, and three failures. *)
Example generate_plan_after_two_failures :
  fst (Generator.generate_plan (Fixture.flaky 2 (VStr "plan")) Fixture.generator
         "app-logs-2024" (Fixture.index_data_of [Fixture.full_hit])
         Fixture.options initial)
  = Ok (VStr "plan", succeeded_metrics 0 9 10 4).
Proof. reflexivity. Qed.

Example generate_plan_empty_reply :
  Generator.generate_plan (Fixture.flaky 0 (VStr EmptyString)) Fixture.generator
    "app-logs-2024" (Fixture.index_data_of [Fixture.full_hit])
    Fixture.options initial
  = (Ok (VStr EmptyString, failed_metrics 0 "Empty response from LLM"),
     {| history := [ETime; ECreateClient "us-east-1";
                    EInvokeModel (LLM.model Fixture.llm) Fixture.prompt];
        client := true |}).
Proof. reflexivity. Qed.

(** C5, as stated, fails: the metrics of a failed generation have neither
    [end_time] nor [duration_seconds]. *)
Lemma failed_generation_has_no_end_time :
  fst (Generator.generate_plan Fixture.down Fixture.generator
         "app-logs-2024" (Fixture.index_data_of [Fixture.full_hit])
         Fixture.options initial)
  = Ok (VStr EmptyString,
        [("start_time", Generator.MTime 0);
         ("success", Generator.MBool false);
         ("error", Generator.MStr "All 3 attempts failed")]) /\
  lookup [("start_time", Generator.MTime 0);
          ("success", Generator.MBool false);
          ("error", Generator.MStr "All 3 attempts failed")] "end_time" = None /\
  lookup [("start_time", Generator.MTime 0);
          ("success", Generator.MBool false);
          ("error", Generator.MStr "All 3 attempts failed")] "duration_seconds"
    = None.
Proof. repeat split. Qed.

Lemma len_nonnegative (v : value) (n : Z) : len v = Ok n -> (0 <= n)%Z.
Proof. destruct v; try discriminate; intros [= <-]; lia. Qed.

(** C5, amended.  With a clock that does not run backwards, every metrics
    record [generate_plan] returns carries [start_time] and is of one of two
    kinds.  After a success: success = True, error is None, and [end_time],
    [duration_seconds] >= 0 and [plan_length] = len(plan) >= 0 are present.
    After a failure: success = False, error is a text, the plan is empty, and
    [end_time], [duration_seconds] and [plan_length] are absent. *)
Theorem metrics_fields_by_outcome
  (env : Env) (self : Generator.ChaosPlanGenerator) (index_name : string)
  (index_data analysis_options : value) (st : State) :
  monotone_clock env ->
  exists plan m,
    fst (Generator.generate_plan env self index_name index_data analysis_options st)
      = Ok (plan, m) /\
    lookup m "start_time" = Some (Generator.MTime (time_time env (history st))) /\
    ((lookup m "success" = Some (Generator.MBool true) /\
      lookup m "error" = Some Generator.MNone /\
      exists end_time duration n,
        lookup m "end_time" = Some (Generator.MTime end_time) /\
        lookup m "duration_seconds" = Some (Generator.MTime duration) /\
        (0 <= duration)%Q /\
        lookup m "plan_length" = Some (Generator.MInt n) /\
        len plan = Ok n /\ (0 <= n)%Z)
     \/
     (lookup m "success" = Some (Generator.MBool false) /\
      (exists msg, lookup m "error" = Some (Generator.MStr msg)) /\
      lookup m "end_time" = None /\
      lookup m "duration_seconds" = None /\
      lookup m "plan_length" = None /\
      plan = VStr EmptyString)).
Proof.
  intros Hclock. rewrite generate_plan_run. cbv zeta.
  assert (Hfailed : forall t msg (s : State),
             exists plan m,
               fst (Ok (VStr EmptyString, failed_metrics t msg), s) = Ok (plan, m) /\
               lookup m "start_time" = Some (Generator.MTime t) /\
               ((lookup m "success" = Some (Generator.MBool true) /\
                 lookup m "error" = Some Generator.MNone /\
                 exists end_time duration n,
                   lookup m "end_time" = Some (Generator.MTime end_time) /\
                   lookup m "duration_seconds" = Some (Generator.MTime duration) /\
                   (0 <= duration)%Q /\
                   lookup m "plan_length" = Some (Generator.MInt n) /\
                   len plan = Ok n /\ (0 <= n)%Z)
                \/
                (lookup m "success" = Some (Generator.MBool false) /\
                 (exists msg, lookup m "error" = Some (Generator.MStr msg)) /\
                 lookup m "end_time" = None /\
                 lookup m "duration_seconds" = None /\
                 lookup m "plan_length" = None /\
                 plan = VStr EmptyString))).
  { intros t msg s. eexists _, _. split; [reflexivity |]. split; [reflexivity |].
    right. split; [reflexivity |]. split; [eexists; reflexivity |].
    repeat split. }
  destruct (Generator._create_prompt index_name index_data analysis_options)
    as [prompt | e]; [| apply Hfailed].
  pose proof (analyze_with_bedrock_result env (Generator.llm_client self) prompt
                (record ETime st)) as A.
  destruct (LLM.analyze_with_bedrock env (Generator.llm_client self) prompt
              (record ETime st)) as [[plan | e] st2]; [| apply Hfailed].
  destruct A as ((new & Hnew) & _).
  destruct (truthy plan); [| apply Hfailed].
  destruct (len plan) as [n |] eqn:L; [| apply Hfailed].
  eexists _, _. split; [reflexivity |]. split; [reflexivity |].
  left. split; [reflexivity |]. split; [reflexivity |].
  eexists _, _, _. split; [reflexivity |]. split; [reflexivity |].
  split; [| split; [reflexivity | split; [exact L | exact (len_nonnegative _ _ L)]]].
  cbn [record history]. rewrite Hnew. cbn [record history].
  rewrite <- !app_assoc.
  apply (proj1 (Qle_minus_iff _ _)). apply Hclock.
Qed.

Lemma ticking_monotone (env : Env) :
  time_time env = Fixture.ticking -> monotone_clock env.
Proof.
  intros E h h'. rewrite E. unfold Fixture.ticking.
  rewrite length_app. unfold Qle. cbn [Qnum Qden inject_Z]. lia.
Qed.

Lemma metrics_fields_by_outcome_witness :
  exists plan m,
    fst (Generator.generate_plan (Fixture.flaky 2 (VStr "plan")) Fixture.generator "app-logs-2024"
           (Fixture.index_data_of [Fixture.full_hit]) Fixture.options initial)
      = Ok (plan, m) /\
    lookup m "start_time"
      = Some (Generator.MTime (time_time (Fixture.flaky 2 (VStr "plan")) (history initial))) /\
    ((lookup m "success" = Some (Generator.MBool true) /\
      lookup m "error" = Some Generator.MNone /\
      exists end_time duration n,
        lookup m "end_time" = Some (Generator.MTime end_time) /\
        lookup m "duration_seconds" = Some (Generator.MTime duration) /\
        (0 <= duration)%Q /\
        lookup m "plan_length" = Some (Generator.MInt n) /\
        len plan = Ok n /\ (0 <= n)%Z)
     \/
     (lookup m "success" = Some (Generator.MBool false) /\
      (exists msg, lookup m "error" = Some (Generator.MStr msg)) /\
      lookup m "end_time" = None /\
      lookup m "duration_seconds" = None /\
      lookup m "plan_length" = None /\
      plan = VStr EmptyString)).
Proof.
  apply (metrics_fields_by_outcome (Fixture.flaky 2 (VStr "plan")) Fixture.generator "app-logs-2024"
           (Fixture.index_data_of [Fixture.full_hit]) Fixture.options initial).
  apply ticking_monotone. reflexivity.
Defined.

(** The run behind the witness: two throttled attempts, then the plan. *)
Example metrics_after_two_failures :
  fst (Generator.generate_plan (Fixture.flaky 2 (VStr "plan")) Fixture.generator
         "app-logs-2024" (Fixture.index_data_of [Fixture.full_hit])
         Fixture.options initial)
  = Ok (VStr "plan",
        [("start_time", Generator.MTime 0);
         ("success", Generator.MBool true);
         ("error", Generator.MNone);
         ("end_time", Generator.MTime 9);
         ("duration_seconds", Generator.MTime (10 - 0));
         ("plan_length", Generator.MInt 4)]).
Proof. reflexivity. Qed.

(* ===================================================================== *)
(** * Further properties                                                   *)
(* ===================================================================== *)

Import Notice.

(** ** Index reader: construction, requests, counts *)

Lemma rstrip_slash_spec (s : string) :
  exists k,
    s = OpenSearch.rstrip_slash s ++ slashes k /\
    ends_with_slash (OpenSearch.rstrip_slash s) = false.
Proof.
  induction s as [| c s' IH].
  - exists 0%nat. split; reflexivity.
  - destruct IH as (k & Hs & He). cbn [OpenSearch.rstrip_slash]. cbv zeta.
    destruct (Ascii.eqb_spec c "/") as [-> | Hc]; cbn [andb].
    + destruct (OpenSearch.rstrip_slash s') as [| c' r] eqn:R.
      * cbn [String.eqb]. exists (S k). split; [| reflexivity].
        cbn [slashes append]. f_equal. exact Hs.
      * cbn [String.eqb]. exists k. split.
        -- cbn [append]. f_equal. exact Hs.
        -- exact He.
    + exists k. split.
      * cbn [append]. f_equal. exact Hs.
      * cbn [ends_with_slash].
        destruct (OpenSearch.rstrip_slash s') as [| c' r] eqn:R.
        -- apply Ascii.eqb_neq. exact Hc.
        -- exact He.
Qed.

(** X1.  [OpenSearchClient.__init__] keeps the endpoint without its trailing
    slashes and nothing else changed: the stored endpoint does not end in a
    slash and the given one is the stored one followed by slashes only.  The
    credentials are kept as given and the timeout is 30 seconds. *)
Theorem init_strips_trailing_slashes (given username password : string) :
  let self := OpenSearch.init given username password in
  (exists k, given = OpenSearch.endpoint self ++ slashes k) /\
  ends_with_slash (OpenSearch.endpoint self) = false /\
  OpenSearch.auth self = (username, password) /\
  OpenSearch.timeout self = 30%Z.
Proof.
  cbn [OpenSearch.init OpenSearch.endpoint OpenSearch.auth OpenSearch.timeout].
  destruct (rstrip_slash_spec given) as (k & Hs & He).
  split; [exists k; exact Hs |]. split; [exact He |]. split; reflexivity.
Qed.

(** X2.  A fetch sends the mapping request first and the search request
    second, each once, and nothing else: when the mapping call raises, the
    search request is never sent.  The client attribute of the model client is
    left alone. *)
Theorem get_index_data_requests
  (env : Env) (self : OpenSearch.OpenSearchClient) (index_name : string)
  (st : State) :
  match OpenSearch.get_index_data env self index_name st with
  | (_, st') =>
      client st' = client st /\
      match session_get env (history st) (mapping_url self index_name) with
      | Raise _ =>
          history st' = (history st ++ [EGet (mapping_url self index_name)])%list
      | Ok _ =>
          history st' =
          (history st ++ [EGet (mapping_url self index_name);
                          EPost (search_url self index_name)
                            (VDict [("size", VInt 10000);
                                    ("query", VDict [("match_all", VDict [])])])])%list
      end
  end.
Proof.
  unfold OpenSearch.get_index_data, try_except.
  rewrite get_index_data_try_run. cbv zeta.
  destruct (session_get env (history st) (mapping_url self index_name)) as [m | e].
  - destruct (session_post env _ (search_url self index_name) OpenSearch.search_body)
      as [sr | e].
    + destruct (summary m sr); cbn [ret record history client];
        rewrite <- app_assoc; split; reflexivity.
    + cbn [ret record history client]. rewrite <- app_assoc. split; reflexivity.
  - cbn [ret record history client]. split; reflexivity.
Qed.

Section Counts.
Variable env : Env.
Variable self : OpenSearch.OpenSearchClient.
Variable index_name : string.
Variable st : State.
Variables mapping_response search_response : Response.

Hypothesis mapping_returned :
  session_get env (history st) (mapping_url self index_name) = Ok mapping_response.
Hypothesis search_returned :
  session_post env (history st ++ [EGet (mapping_url self index_name)])
    (search_url self index_name) OpenSearch.search_body = Ok search_response.

Lemma get_index_data_summary :
  fst (OpenSearch.get_index_data env self index_name st) =
  match summary mapping_response search_response with
  | Ok v => Ok v
  | Raise e => Ok (OpenSearch.failure e)
  end.
Proof.
  unfold OpenSearch.get_index_data, try_except.
  rewrite get_index_data_try_run. cbv zeta. cbn [record history].
  rewrite mapping_returned, search_returned.
  destruct (summary mapping_response search_response); reflexivity.
Qed.

End Counts.

(** X3.  On a search reply with a hit list and a total, the fetch reports as
    [sample_size] the number of hits actually returned and as [total_hits]
    the value the server reported, whatever their relation; [took_ms] is the
    reply's [took], 0 when it has none; [documents] is the whole reply. *)
Theorem sample_size_counts_returned_hits
  (env : Env) (self : OpenSearch.OpenSearchClient) (index_name : string)
  (st : State) (mapping_response search_response : Response)
  (mapping : value) (d h t : list (string * value)) (hs : list value) :
  session_get env (history st) (mapping_url self index_name) = Ok mapping_response ->
  (if ok mapping_response then json mapping_response else Ok (VDict []))
    = Ok mapping ->
  session_post env (history st ++ [EGet (mapping_url self index_name)])
    (search_url self index_name) OpenSearch.search_body = Ok search_response ->
  ok search_response = true ->
  json search_response = Ok (VDict d) ->
  lookup d "hits" = Some (VDict h) ->
  lookup h "hits" = Some (VList hs) ->
  lookup h "total" = Some (VDict t) ->
  fst (OpenSearch.get_index_data env self index_name st) =
  Ok (VDict [("mapping", mapping);
             ("documents", VDict d);
             ("sample_size", VInt (Z.of_nat (List.length hs)));
             ("total_hits", shown t "value" (VInt 0));
             ("took_ms", shown d "took" (VInt 0));
             ("success", VBool true)]).
Proof.
  intros Hget Hm Hpost Hs Hj Hh Hhs Ht.
  rewrite (get_index_data_summary _ _ _ _ _ _ Hget Hpost).
  unfold summary. rewrite Hj, Hm. unfold ok in Hs.
  destruct (raise_for_status search_response) as [[] |]; [| discriminate].
  cbn [rbind get]. rewrite Hh. cbn [rbind get]. rewrite Hhs, Ht.
  cbn [rbind get len]. reflexivity.
Qed.

Lemma sample_size_counts_returned_hits_witness :
  fst (OpenSearch.get_index_data
         (Fixture.backend (Fixture.response 404 "Not Found" (Raise Fixture.unreachable))
            (Fixture.response 200 "OK"
               (Ok (Fixture.search_reply [Fixture.full_hit; Fixture.null_level_hit]))))
         Fixture.client "app-logs-2024" initial) =
  Ok (VDict [("mapping", VDict []);
             ("documents", Fixture.search_reply [Fixture.full_hit; Fixture.null_level_hit]);
             ("sample_size", VInt (Z.of_nat (List.length [Fixture.full_hit; Fixture.null_level_hit])));
             ("total_hits", shown [("value", VInt 50000)] "value" (VInt 0));
             ("took_ms", shown [("took", VInt 7);
                                ("hits", VDict [("total", VDict [("value", VInt 50000)]);
                                                ("hits", VList [Fixture.full_hit; Fixture.null_level_hit])])]
                           "took" (VInt 0));
             ("success", VBool true)]).
Proof.
  apply (sample_size_counts_returned_hits
           (Fixture.backend (Fixture.response 404 "Not Found" (Raise Fixture.unreachable))
              (Fixture.response 200 "OK"
                 (Ok (Fixture.search_reply [Fixture.full_hit; Fixture.null_level_hit]))))
           Fixture.client "app-logs-2024" initial
           (Fixture.response 404 "Not Found" (Raise Fixture.unreachable))
           (Fixture.response 200 "OK"
              (Ok (Fixture.search_reply [Fixture.full_hit; Fixture.null_level_hit])))
           (VDict [])
           [("took", VInt 7);
            ("hits", VDict [("total", VDict [("value", VInt 50000)]);
                            ("hits", VList [Fixture.full_hit; Fixture.null_level_hit])])]
           [("total", VDict [("value", VInt 50000)]);
              ("hits", VList [Fixture.full_hit; Fixture.null_level_hit])]
           [("value", VInt 50000)]
           [Fixture.full_hit; Fixture.null_level_hit]);
    reflexivity.
Defined.

(** X4.  A reply that reports its total as a bare number (not a mapping with
    a [value]) makes the fetch fail: the result is the failure value carrying
    the [AttributeError] of the missing [get], though the search itself was
    accepted. *)
Theorem bare_total_fails_the_fetch
  (env : Env) (self : OpenSearch.OpenSearchClient) (index_name : string)
  (st : State) (mapping_response search_response : Response)
  (mapping : value) (d h : list (string * value)) (hs : list value) (n : Z) :
  session_get env (history st) (mapping_url self index_name) = Ok mapping_response ->
  (if ok mapping_response then json mapping_response else Ok (VDict []))
    = Ok mapping ->
  session_post env (history st ++ [EGet (mapping_url self index_name)])
    (search_url self index_name) OpenSearch.search_body = Ok search_response ->
  ok search_response = true ->
  json search_response = Ok (VDict d) ->
  lookup d "hits" = Some (VDict h) ->
  lookup h "hits" = Some (VList hs) ->
  lookup h "total" = Some (VInt n) ->
  fst (OpenSearch.get_index_data env self index_name st) =
  Ok (VDict [("success", VBool false);
             ("error", VStr "'int' object has no attribute 'get'")]).
Proof.
  intros Hget Hm Hpost Hs Hj Hh Hhs Ht.
  rewrite (get_index_data_summary _ _ _ _ _ _ Hget Hpost).
  unfold summary. rewrite Hj, Hm. unfold ok in Hs.
  destruct (raise_for_status search_response) as [[] |]; [| discriminate].
  cbn [rbind get]. rewrite Hh. cbn [rbind get]. rewrite Hhs, Ht.
  cbn [rbind get len]. reflexivity.
Qed.

Lemma bare_total_fails_the_fetch_witness :
  fst (OpenSearch.get_index_data
         (Fixture.backend (Fixture.response 200 "OK" (Ok (VDict [])))
            (Fixture.response 200 "OK"
               (Ok (VDict [("took", VInt 3);
                           ("hits", VDict [("total", VInt 12);
                                           ("hits", VList [Fixture.full_hit])])]))))
         Fixture.client "app-logs-2024" initial) =
  Ok (VDict [("success", VBool false);
             ("error", VStr "'int' object has no attribute 'get'")]).
Proof.
  apply (bare_total_fails_the_fetch
           (Fixture.backend (Fixture.response 200 "OK" (Ok (VDict [])))
              (Fixture.response 200 "OK"
                 (Ok (VDict [("took", VInt 3);
                             ("hits", VDict [("total", VInt 12);
                                             ("hits", VList [Fixture.full_hit])])]))))
           Fixture.client "app-logs-2024" initial
           (Fixture.response 200 "OK" (Ok (VDict [])))
           (Fixture.response 200 "OK"
              (Ok (VDict [("took", VInt 3);
                          ("hits", VDict [("total", VInt 12);
                                          ("hits", VList [Fixture.full_hit])])])))
           (VDict [])
           [("took", VInt 3);
            ("hits", VDict [("total", VInt 12); ("hits", VList [Fixture.full_hit])])]
           [("total", VInt 12); ("hits", VList [Fixture.full_hit])]
           [Fixture.full_hit] 12);
    reflexivity.
Defined.

(** X5.  The tolerance for the mapping call covers refused responses only.
    A mapping response that is accepted but whose body cannot be read fails
    the whole fetch with that error, even when the search call returned a
    well-formed reply. *)
Theorem unreadable_mapping_fails_the_fetch
  (env : Env) (self : OpenSearch.OpenSearchClient) (index_name : string)
  (st : State) (mapping_response search_response : Response)
  (data : value) (e : exn) :
  session_get env (history st) (mapping_url self index_name) = Ok mapping_response ->
  ok mapping_response = true ->
  json mapping_response = Raise e ->
  session_post env (history st ++ [EGet (mapping_url self index_name)])
    (search_url self index_name) OpenSearch.search_body = Ok search_response ->
  ok search_response = true ->
  json search_response = Ok data ->
  well_formed_search data = true ->
  fst (OpenSearch.get_index_data env self index_name st)
    = Ok (OpenSearch.failure e) /\
  fst (OpenSearch.get_index_data_dashboard env self index_name st)
    = Ok (OpenSearch.failure e).
Proof.
  intros Hget Hm Hmj Hpost Hs Hj Hw.
  assert (S : summary mapping_response search_response = Raise e).
  { unfold summary. rewrite Hj, Hm, Hmj. unfold ok in Hs.
    destruct (raise_for_status search_response) as [[] |]; [| discriminate].
    cbn [rbind].
    destruct data as [| | | | | | d]; try discriminate.
    cbn [well_formed_search] in Hw. cbn [get].
    destruct (lookup d "hits") as [h |]; cbn [rbind get lookup]; [| reflexivity].
    destruct h as [| | | | | | h]; try discriminate. cbn [get rbind]. reflexivity. }
  split.
  - rewrite (get_index_data_summary _ _ _ _ _ _ Hget Hpost), S. reflexivity.
  - unfold OpenSearch.get_index_data_dashboard, try_except.
    rewrite get_index_data_try_run. cbv zeta. cbn [record history].
    rewrite Hget, Hpost, S. reflexivity.
Qed.

Lemma unreadable_mapping_fails_the_fetch_witness :
  fst (OpenSearch.get_index_data
         (Fixture.backend
            (Fixture.response 200 "OK"
               (Raise (PyError "JSONDecodeError" "Expecting value: line 1 column 1 (char 0)")))
            (Fixture.response 200 "OK" (Ok (Fixture.search_reply [Fixture.full_hit]))))
         Fixture.client "app-logs-2024" initial)
    = Ok (OpenSearch.failure
            (PyError "JSONDecodeError" "Expecting value: line 1 column 1 (char 0)")) /\
  fst (OpenSearch.get_index_data_dashboard
         (Fixture.backend
            (Fixture.response 200 "OK"
               (Raise (PyError "JSONDecodeError" "Expecting value: line 1 column 1 (char 0)")))
            (Fixture.response 200 "OK" (Ok (Fixture.search_reply [Fixture.full_hit]))))
         Fixture.client "app-logs-2024" initial)
    = Ok (OpenSearch.failure
            (PyError "JSONDecodeError" "Expecting value: line 1 column 1 (char 0)")).
Proof.
  apply (unreadable_mapping_fails_the_fetch
           (Fixture.backend
              (Fixture.response 200 "OK"
                 (Raise (PyError "JSONDecodeError" "Expecting value: line 1 column 1 (char 0)")))
              (Fixture.response 200 "OK" (Ok (Fixture.search_reply [Fixture.full_hit]))))
           Fixture.client "app-logs-2024" initial
           (Fixture.response 200 "OK"
              (Raise (PyError "JSONDecodeError" "Expecting value: line 1 column 1 (char 0)")))
           (Fixture.response 200 "OK" (Ok (Fixture.search_reply [Fixture.full_hit])))
           (Fixture.search_reply [Fixture.full_hit]));
    reflexivity.
Defined.

(** X6.  The dashboard's fetch returns what the backend's fetch returns, for
    every backend and state.  It differs in one effect: after a failure it
    has also put the message "Failed to get index data: ..." on the page;
    after a success its history is the backend's. *)
Theorem dashboard_fetch_agrees_with_backend_fetch
  (env : Env) (self : OpenSearch.OpenSearchClient) (index_name : string)
  (st : State) :
  match OpenSearch.get_index_data env self index_name st,
        OpenSearch.get_index_data_dashboard env self index_name st with
  | (r, st1), (r', st2) =>
      r' = r /\
      client st2 = client st1 /\
      match fst (OpenSearch.get_index_data_try env self index_name st) with
      | Ok _ => history st2 = history st1
      | Raise e =>
          history st2 =
          (history st1 ++ [EStError ("Failed to get index data: " ++ exn_str e)])%list
      end
  end.
Proof.
  unfold OpenSearch.get_index_data, OpenSearch.get_index_data_dashboard, try_except.
  destruct (OpenSearch.get_index_data_try env self index_name st) as [[v | e] st'];
    cbn [fst].
  - repeat split.
  - unfold bind, st_error, effect, ret. cbn [record history client]. repeat split.
Qed.

(** ** Index reader: listing and probe *)

Section Listing.
Variable env : Env.
Variable self : OpenSearch.OpenSearchClient.
Variable st : State.

Lemma get_indices_try_run :
  Catalog.get_indices_try env self st =
  (match session_get env (history st) (Catalog.indices_url self) with
   | Raise e => Raise e
   | Ok response =>
       match raise_for_status response with
       | Raise e => Raise e
       | Ok _ => json response
       end
   end,
   record (EGet (Catalog.indices_url self)) st).
Proof.
  unfold Catalog.get_indices_try, bind, get_, lift.
  destruct (session_get env (history st) (Catalog.indices_url self)) as [r | e];
    [| reflexivity].
  destruct (raise_for_status r) as [[] | e]; [| reflexivity].
  destruct (json r); reflexivity.
Qed.

End Listing.

(** X7.  The backend's [get_indices] sends one request.  It returns a value
    exactly when the response is accepted and its body can be read, and that
    value is the body.  Every failure is raised, never returned, as an
    [Exception] whose text is "Failed to get indices: " followed by the text
    of the original exception: that of the call when the call raises, that of
    [raise_for_status] when the response is refused, that of the decoding
    when the body of an accepted response cannot be read. *)
Theorem get_indices_raises_on_failure
  (env : Env) (self : OpenSearch.OpenSearchClient) (st : State) :
  match Catalog.get_indices env self st with
  | (r, st') =>
      history st' = (history st ++ [EGet (Catalog.indices_url self)])%list /\
      (forall v, r = Ok v <->
                 exists response,
                   session_get env (history st) (Catalog.indices_url self)
                     = Ok response /\
                   ok response = true /\ json response = Ok v) /\
      (forall e,
          session_get env (history st) (Catalog.indices_url self) = Raise e ->
          r = Raise (PyError "Exception" ("Failed to get indices: " ++ exn_str e))) /\
      (forall response e,
          session_get env (history st) (Catalog.indices_url self) = Ok response ->
          raise_for_status response = Raise e ->
          r = Raise (PyError "Exception" ("Failed to get indices: " ++ exn_str e))) /\
      (forall response,
          session_get env (history st) (Catalog.indices_url self) = Ok response ->
          (400 <= status_code response < 600)%Z ->
          r = Raise (PyError "Exception"
                       ("Failed to get indices: " ++ http_error_msg response))) /\
      (forall response e,
          session_get env (history st) (Catalog.indices_url self) = Ok response ->
          ok response = true ->
          json response = Raise e ->
          r = Raise (PyError "Exception" ("Failed to get indices: " ++ exn_str e)))
  end.
Proof.
  unfold Catalog.get_indices, try_except. rewrite get_indices_try_run.
  unfold ok.
  destruct (session_get env (history st) (Catalog.indices_url self)) as [resp | e].
  - destruct (raise_for_status resp) as [[] | e] eqn:R.
    + destruct (json resp) as [v | e] eqn:J.
      * split; [reflexivity |]. split.
        { intros v'. split.
          - intros [= <-]. exists resp. rewrite R. auto.
          - intros (resp' & [= <-] & _ & J'). congruence. }
        split; [intros e [=] |].
        split; [intros resp' e [= <-] R'; congruence |].
        split.
        { intros resp' [= <-] Hs. rewrite (raise_for_status_error _ Hs) in R.
          discriminate. }
        intros resp' e [= <-] _ J'. congruence.
      * unfold raise. split; [reflexivity |]. split.
        { intros v'. split; [intros [=] |].
          intros (resp' & [= <-] & _ & J'). congruence. }
        split; [intros e' [=] |].
        split; [intros resp' e' [= <-] R'; congruence |].
        split.
        { intros resp' [= <-] Hs. rewrite (raise_for_status_error _ Hs) in R.
          discriminate. }
        intros resp' e' [= <-] _ J'. rewrite J in J'. injection J' as <-.
        reflexivity.
    + unfold raise. split; [reflexivity |]. split.
      { intros v'. split; [intros [=] |].
        intros (resp' & [= <-] & O & _). rewrite R in O. discriminate. }
      split; [intros e' [=] |].
      split.
      { intros resp' e' [= <-] R'. rewrite R in R'. injection R' as <-.
        reflexivity. }
      split.
      { intros resp' [= <-] Hs. rewrite (raise_for_status_error _ Hs) in R.
        injection R as <-. reflexivity. }
      intros resp' e' [= <-] O _. rewrite R in O. discriminate.
  - unfold raise. split; [reflexivity |]. split.
    { intros v'. split; [intros [=] |]. intros (resp' & [=] & _). }
    split; [intros e' [= <-]; reflexivity |].
    split; [intros resp' e' [=] |].
    split; [intros resp' [=] | intros resp' e' [=]].
Qed.

(** X8.  The dashboard's [get_indices] never raises.  Where the backend's
    returns a value it returns the same value with the same effects; where
    the backend's raises it returns the empty list and puts the text of that
    exception on the page.  Its result alone does not tell a failed listing
    from a cluster without indices. *)
Theorem dashboard_listing_returns_empty_on_failure
  (env : Env) (self : OpenSearch.OpenSearchClient) (st : State) :
  match Catalog.get_indices env self st,
        Catalog.get_indices_dashboard env self st with
  | (r, st1), (r', st2) =>
      match r with
      | Ok v => r' = Ok v /\ history st2 = history st1
      | Raise e =>
          r' = Ok (VList []) /\
          history st2 = (history st1 ++ [EStError (exn_str e)])%list
      end
  end.
Proof.
  unfold Catalog.get_indices, Catalog.get_indices_dashboard, try_except.
  destruct (Catalog.get_indices_try env self st) as [[v | e] st'].
  - split; reflexivity.
  - unfold raise, bind, st_error, effect, ret. split; reflexivity.
Qed.

(** X9.  The probe [test_connection] sends one request to the root of the
    endpoint and never raises.  It answers [True] exactly when the response
    has status 200 and a body from which the version can be read; a response
    with any other status, accepted ones such as 201 or 204 included, is
    answered [False] with its status and text. *)
Theorem test_connection_accepts_status_200_only
  (env : Env) (text : Response -> string) (self : OpenSearch.OpenSearchClient)
  (st : State) :
  match Catalog.test_connection env text self st with
  | (r, st') =>
      history st' = (history st ++ [EGet (OpenSearch.endpoint self ++ "/")])%list /\
      exists connected msg,
        r = Ok (connected, msg) /\
        (connected = true <->
         exists response body,
           session_get env (history st) (OpenSearch.endpoint self ++ "/")
             = Ok response /\
           status_code response = 200%Z /\
           json response = Ok body /\ version_readable body = true) /\
        (forall response,
            session_get env (history st) (OpenSearch.endpoint self ++ "/")
              = Ok response ->
            status_code response <> 200%Z ->
            connected = false /\
            msg = Catalog.cross_mark ++ " HTTP " ++ str_of_Z (status_code response)
                    ++ ": " ++ text response)
  end.
Proof.
  unfold Catalog.test_connection, try_except, bind at 1, get_.
  destruct (session_get env (history st) (OpenSearch.endpoint self ++ "/"))
    as [resp | e].
  2:{ split; [reflexivity |]. eexists _, _. split; [reflexivity |]. split.
      - split; [discriminate |]. intros (resp' & body' & [=] & _).
      - intros resp' [=]. }
  destruct (Z.eqb_spec (status_code resp) 200) as [E | N].
  2:{ split; [reflexivity |]. eexists _, _. split; [reflexivity |]. split.
      - split; [discriminate |]. intros (resp' & body' & [= <-] & S & _). contradiction.
      - intros resp' [= <-] _. split; reflexivity. }
  unfold bind, lift, ret.
  destruct (json resp) as [body | e] eqn:J; cbn [rbind].
  2:{ split; [reflexivity |]. eexists _, _. split; [reflexivity |]. split.
      - split; [discriminate |]. intros (resp' & body' & [= <-] & _ & J' & _). congruence.
      - intros resp' [= <-] S. contradiction. }
  destruct body as [| | | | | | b];
    try (split; [reflexivity |]; eexists _, _; split; [reflexivity |]; split;
         [ split; [discriminate |];
           intros (resp' & body' & [= <-] & _ & J' & V); rewrite J in J';
           injection J' as <-; discriminate V
         | intros resp' [= <-] S; contradiction ]).
  cbn [get rbind].
  destruct (lookup b "version") as [v |] eqn:L.
  - destruct v as [| | | | | | vd];
      try (split; [reflexivity |]; eexists _, _; split; [reflexivity |]; split;
           [ split; [discriminate |];
             intros (resp' & body' & [= <-] & _ & J' & V); rewrite J in J';
             injection J' as <-; cbn [version_readable] in V; rewrite L in V;
             discriminate V
           | intros resp' [= <-] S; contradiction ]).
    split; [reflexivity |]. eexists _, _. split; [reflexivity |]. split.
    + split; [| reflexivity]. intros _. exists resp, (VDict b).
      cbn [version_readable]. rewrite L. auto.
    + intros resp' [= <-] S. contradiction.
  - split; [reflexivity |]. eexists _, _. split; [reflexivity |]. split.
    + split; [| reflexivity]. intros _. exists resp, (VDict b).
      cbn [version_readable]. rewrite L. auto.
    + intros resp' [= <-] S. contradiction.
Qed.

(** ** Model invoker: bounds, reports, client reuse, streaming effects *)

Section Loop.
Variable env : Env.
Variable self : LLM.LLMClient.
Variable prompt : Prompt.

(** The loop over any list of attempt numbers: one model call at most per
    number, no client construction, and the client attribute is kept. *)
Lemma attempts_bound (todo : list Z) (st : State) :
  match LLM.attempts env self prompt todo st with
  | (_, st') =>
      exists new,
        history st' = (history st ++ new)%list /\
        (attempted new <= List.length todo)%nat /\
        forallb is_retry_event new = true /\
        client st' = client st
  end.
Proof.
  revert st. induction todo as [| attempt rest IH]; intros st.
  - cbn [LLM.attempts]. unfold raise. exists [].
    rewrite app_nil_r. repeat split. apply Nat.le_refl.
  - cbn [LLM.attempts]. unfold bind at 1. rewrite attempt_body_run.
    destruct (outcome env self prompt (history st)) as [text | e].
    + unfold ret. eexists. split; [reflexivity |].
      split; [unfold attempted; cbn; lia |]. split; reflexivity.
    + match goal with
      | |- context [LLM.attempts env self prompt rest ?s] =>
          specialize (IH s);
          assert (Hs : exists pre,
                     history s = (history st ++ pre)%list /\
                     attempted pre = 1%nat /\
                     forallb is_retry_event pre = true /\
                     client s = client st)
      end.
      { destruct (attempt <? LLM.max_retries self - 1)%Z; cbn [record history client];
          rewrite <- ?app_assoc; eexists; repeat split. }
      destruct (LLM.attempts env self prompt rest _) as [r st'].
      destruct IH as (new & Hnew & Hn & Hr & Hc).
      destruct Hs as (pre & Hpre & Hp & Hpr & Hpc).
      exists (pre ++ new)%list. split; [rewrite Hnew, Hpre, app_assoc; reflexivity |].
      split; [rewrite attempted_app, Hp; cbn [List.length]; lia |].
      split; [rewrite forallb_app, Hpr, Hr; reflexivity | congruence].
Qed.

End Loop.

Lemma length_range (n : Z) : List.length (LLM.range n) = Z.to_nat n.
Proof. unfold LLM.range. rewrite length_map, length_seq. reflexivity. Qed.

(** X10.  For a client with any retry bound, [analyze_with_bedrock] makes at
    most that many model calls (none when the bound is zero or negative, in
    which case it cannot return a text), whatever the provider does. *)
Theorem attempts_never_exceed_max_retries
  (env : Env) (self : LLM.LLMClient) (prompt : Prompt) (st : State) :
  match LLM.analyze_with_bedrock env self prompt st with
  | (r, st') =>
      exists new,
        history st' = (history st ++ new)%list /\
        (attempted new <= Z.to_nat (LLM.max_retries self))%nat /\
        ((LLM.max_retries self <= 0)%Z ->
         attempted new = 0%nat /\ forall text, r <> Ok text)
  end.
Proof.
  unfold LLM.analyze_with_bedrock, bind, LLM.ensure_client.
  assert (Hzero : (LLM.max_retries self <= 0)%Z ->
                  LLM.range (LLM.max_retries self) = []).
  { intros H. unfold LLM.range. replace (Z.to_nat (LLM.max_retries self)) with 0%nat by lia.
    reflexivity. }
  assert (Hrun : forall c s,
             history s = (history st ++ c)%list -> attempted c = 0%nat ->
             match LLM.attempts env self prompt (LLM.range (LLM.max_retries self)) s with
             | (r, st') =>
                 exists new,
                   history st' = (history st ++ new)%list /\
                   (attempted new <= Z.to_nat (LLM.max_retries self))%nat /\
                   ((LLM.max_retries self <= 0)%Z ->
                    attempted new = 0%nat /\ forall text, r <> Ok text)
             end).
  { intros c s Hc Ac.
    pose proof (attempts_bound env self prompt (LLM.range (LLM.max_retries self)) s) as B.
    pose proof (attempts_result env self prompt (LLM.range (LLM.max_retries self)) s) as R.
    destruct (LLM.attempts env self prompt _ s) as [r st'] eqn:A.
    destruct B as (new & Hnew & Hn & _ & _). rewrite length_range in Hn.
    exists (c ++ new)%list. split; [rewrite Hnew, Hc, app_assoc; reflexivity |].
    split; [rewrite attempted_app, Ac; exact Hn |].
    intros Z0. split; [rewrite attempted_app, Ac; lia |].
    rewrite (Hzero Z0) in A. cbn [LLM.attempts] in A. unfold raise in A.
    injection A as <- _. intros text [=]. }
  destruct (client st).
  - apply (Hrun []); [symmetry; apply app_nil_r | reflexivity].
  - destruct (boto3_client env (history st) (LLM.region self)) as [[] | e].
    + apply (Hrun [ECreateClient (LLM.region self)]); reflexivity.
    + exists [ECreateClient (LLM.region self)]. split; [reflexivity |].
      split; [unfold attempted; cbn; lia |].
      intros _. split; [reflexivity |]. intros text [=].
Qed.

(** X11.  Against a provider no attempt of which yields a text (the call
    raises, or the reply has no [content][0][text]), a client built by
    [__init__] that has or can build its runtime client ends with
    [Exception("All 3 attempts failed")] after exactly this sequence: call,
    report 1, sleep 1, call, report 2, sleep 2, call, report 3.  Each failure
    is reported once on the standard output with its attempt number, a
    malformed reply like any other failure. *)
Theorem persistent_failure_is_reported_three_times
  (env : Env) (model region : string) (prompt : Prompt) (st : State) :
  let self := LLM.init model region in
  let call := EInvokeModel model prompt in
  (forall h, exists e, outcome env self prompt h = Raise e) ->
  (if client st then Ok tt else boto3_client env (history st) region) = Ok tt ->
  exists e0 e1 e2,
    let h0 := if client st then history st
              else (history st ++ [ECreateClient region])%list in
    let h1 := (h0 ++ [call; EPrint (report 0 e0); ESleep 1])%list in
    let h2 := (h1 ++ [call; EPrint (report 1 e1); ESleep 2])%list in
    outcome env self prompt h0 = Raise e0 /\
    outcome env self prompt h1 = Raise e1 /\
    outcome env self prompt h2 = Raise e2 /\
    LLM.analyze_with_bedrock env self prompt st =
    (Raise (PyError "Exception" "All 3 attempts failed"),
     {| history := (h2 ++ [call; EPrint (report 2 e2)])%list; client := true |}).
Proof.
  intros self call Hfail Hclient.
  set (h0 := if client st then history st
             else (history st ++ [ECreateClient region])%list).
  destruct (Hfail h0) as (e0 & O0).
  set (h1 := (h0 ++ [call; EPrint (report 0 e0); ESleep 1])%list).
  destruct (Hfail h1) as (e1 & O1).
  set (h2 := (h1 ++ [call; EPrint (report 1 e1); ESleep 2])%list).
  destruct (Hfail h2) as (e2 & O2).
  exists e0, e1, e2. cbv zeta. fold h0 h1 h2.
  split; [exact O0 |]. split; [exact O1 |]. split; [exact O2 |].
  assert (Hloop : LLM.attempts env self prompt (LLM.range 3)
                    {| history := h0; client := true |} =
                  (Raise (PyError "Exception" "All 3 attempts failed"),
                   {| history := (h2 ++ [call; EPrint (report 2 e2)])%list;
                      client := true |})).
  { change (LLM.range 3) with [0%Z; 1%Z; 2%Z]. cbn [LLM.attempts].
    unfold bind at 1. rewrite attempt_body_run. cbn [history]. rewrite O0.
    change (0 <? LLM.max_retries self - 1)%Z with true. cbv iota.
    unfold bind at 1. rewrite attempt_body_run. cbn [record history].
    change (LLM.model self) with model. fold call.
    change (1 * (0 + 1))%Z with 1%Z.
    replace (((h0 ++ [call]) ++ [EPrint (report 0 e0)]) ++ [ESleep 1])%list
      with h1 by (unfold h1; rewrite <- !app_assoc; reflexivity).
    rewrite O1.
    change (1 <? LLM.max_retries self - 1)%Z with true. cbv iota.
    unfold bind at 1. rewrite attempt_body_run. cbn [record history].
    change (LLM.model self) with model. fold call.
    change (1 * (1 + 1))%Z with 2%Z.
    replace ((((((h0 ++ [call]) ++ [EPrint (report 0 e0)]) ++ [ESleep 1])
                 ++ [call]) ++ [EPrint (report 1 e1)]) ++ [ESleep 2])%list
      with h2 by (unfold h2, h1; rewrite <- !app_assoc; reflexivity).
    rewrite O2.
    change (2 <? LLM.max_retries self - 1)%Z with false. cbv iota.
    unfold raise. cbn [record history client].
    change (LLM.model self) with model. fold call.
    f_equal. unfold h2, h1, record. cbn [history client].
    rewrite <- !app_assoc. reflexivity. }
  unfold LLM.analyze_with_bedrock, bind, LLM.ensure_client.
  change (LLM.max_retries self) with 3%Z. change (LLM.region self) with region.
  subst h0. destruct (client st) eqn:C.
  - destruct st as [h c]. cbn [client history] in *. subst c. exact Hloop.
  - rewrite Hclient. cbn [record history]. exact Hloop.
Qed.

Lemma persistent_failure_is_reported_three_times_witness :
  let self := LLM.init "anthropic.claude-3-haiku-20240307-v1:0" "us-east-1" in
  let call := EInvokeModel "anthropic.claude-3-haiku-20240307-v1:0" Fixture.prompt in
  exists e0 e1 e2,
    let h0 := if client initial then history initial
              else (history initial ++ [ECreateClient "us-east-1"])%list in
    let h1 := (h0 ++ [call; EPrint (report 0 e0); ESleep 1])%list in
    let h2 := (h1 ++ [call; EPrint (report 1 e1); ESleep 2])%list in
    outcome Fixture.down self Fixture.prompt h0 = Raise e0 /\
    outcome Fixture.down self Fixture.prompt h1 = Raise e1 /\
    outcome Fixture.down self Fixture.prompt h2 = Raise e2 /\
    LLM.analyze_with_bedrock Fixture.down self Fixture.prompt initial =
    (Raise (PyError "Exception" "All 3 attempts failed"),
     {| history := (h2 ++ [call; EPrint (report 2 e2)])%list; client := true |}).
Proof.
  apply (persistent_failure_is_reported_three_times Fixture.down
           "anthropic.claude-3-haiku-20240307-v1:0" "us-east-1"
           Fixture.prompt initial).
  - intros h. exists Fixture.throttled. reflexivity.
  - reflexivity.
Defined.

(** X12.  The runtime client is built at most once.  A run that starts with
    the client set builds none and leaves it set; a run that starts without
    it first tries to build it, and leaves it set exactly when that
    succeeded (a failed construction is raised at once, before any model
    call).  So of two runs in a row the second builds no client unless the
    first failed to. *)
Theorem runtime_client_is_built_once
  (env : Env) (self : LLM.LLMClient) (prompt : Prompt) (st : State) :
  match LLM.analyze_with_bedrock env self prompt st with
  | (r, st') =>
      exists new,
        history st' = (history st ++ new)%list /\
        match client st, boto3_client env (history st) (LLM.region self) with
        | true, _ => existsb is_create new = false /\ client st' = true
        | false, Ok _ =>
            exists rest, new = ECreateClient (LLM.region self) :: rest /\
                         existsb is_create rest = false /\ client st' = true
        | false, Raise e =>
            new = [ECreateClient (LLM.region self)] /\ r = Raise e /\
            client st' = false
        end
  end.
Proof.
  assert (Hno : forall l, forallb is_retry_event l = true ->
                          existsb is_create l = false).
  { induction l as [| ev l IH]; [reflexivity |].
    cbn [forallb existsb]. intros H. apply andb_prop in H as [He Hl].
    rewrite (IH Hl). destruct ev; try discriminate; reflexivity. }
  unfold LLM.analyze_with_bedrock, bind, LLM.ensure_client.
  destruct (client st) eqn:C.
  - pose proof (attempts_bound env self prompt (LLM.range (LLM.max_retries self)) st) as B.
    destruct (LLM.attempts env self prompt _ st) as [r st'].
    destruct B as (new & Hnew & _ & Hr & Hc). exists new.
    split; [exact Hnew |]. split; [exact (Hno _ Hr) | congruence].
  - destruct (boto3_client env (history st) (LLM.region self)) as [[] | e].
    + match goal with
      | |- context [LLM.attempts env self prompt _ ?s] =>
          pose proof (attempts_bound env self prompt
                        (LLM.range (LLM.max_retries self)) s) as B
      end.
      destruct (LLM.attempts env self prompt _ _) as [r st'].
      destruct B as (new & Hnew & _ & Hr & Hc). cbn [record history client] in *.
      exists (ECreateClient (LLM.region self) :: new). split.
      * rewrite Hnew, <- app_assoc. reflexivity.
      * exists new. split; [reflexivity |]. split; [exact (Hno _ Hr) | exact Hc].
    + exists [ECreateClient (LLM.region self)]. split; [reflexivity |].
      cbn [record client]. auto.
Qed.

(** X13.  The incremental invocation is not retried and never waits: for
    every provider its effects are at most one client construction followed
    by at most one streaming call, the call being made exactly when the
    client is there.  It makes no blocking model call, prints nothing and
    never sleeps. *)
Theorem streaming_makes_one_call_and_never_sleeps
  (env : Env) (self : LLM.LLMClient) (prompt : Prompt) (st : State) :
  match LLM.analyze_with_bedrock_streaming env self prompt st with
  | (_, _, st') =>
      let built := if client st then []
                   else [ECreateClient (LLM.region self)] in
      let called :=
        match (if client st then Ok tt
               else boto3_client env (history st) (LLM.region self)) with
        | Ok _ => [EInvokeModelStream (LLM.model self) prompt]
        | Raise _ => []
        end in
      history st' = (history st ++ built ++ called)%list /\
      forallb (fun ev => negb (is_retry_event ev)) (built ++ called) = true
  end.
Proof.
  unfold LLM.analyze_with_bedrock_streaming, bind, LLM.ensure_client,
    LLM.invoke_stream_.
  destruct (client st).
  - destruct (invoke_model_with_response_stream env (history st) (LLM.model self) prompt)
      as [events | e].
    + destruct (LLM.stream_loop events). cbn [record history].
      split; reflexivity.
    + cbn [record history]. split; reflexivity.
  - destruct (boto3_client env (history st) (LLM.region self)) as [[] | e].
    + cbn [record history].
      destruct (invoke_model_with_response_stream env _ (LLM.model self) prompt)
        as [events | e'].
      * destruct (LLM.stream_loop events). cbn [record history].
        rewrite <- app_assoc. split; reflexivity.
      * cbn [record history]. rewrite <- app_assoc. split; reflexivity.
    + cbn [record history]. split; reflexivity.
Qed.

(** ** Prompt assembler: what is inspected, and how it fails *)

Lemma sample_loop_culprit (items : list value) (start : nat) (i : nat) (hit : value) :
  nth_error items i = Some hit ->
  is_document hit = false ->
  forallb is_document (firstn i items) = true ->
  Generator.sample_loop (Z.of_nat start) items
    = Raise (no_attribute (culprit hit) "get").
Proof.
  revert start i. induction items as [| first rest IH]; intros start i Hn Hbad Hgood.
  - destruct i; discriminate.
  - destruct i as [| i].
    + cbn [nth_error] in Hn. injection Hn as ->. cbn [Generator.sample_loop].
      unfold Generator.entry.
      destruct hit as [| | | | | | d]; try reflexivity.
      cbn [is_document culprit get] in *.
      destruct (lookup d "_source") as [source |]; [| discriminate].
      cbn [rbind]. destruct source; try discriminate; reflexivity.
    + cbn [nth_error firstn forallb] in *.
      apply andb_prop in Hgood as [Hf Hr].
      cbn [Generator.sample_loop].
      rewrite (entry_document start first Hf). cbn [rbind].
      replace (Z.of_nat start + 1)%Z with (Z.of_nat (S start)) by lia.
      rewrite (IH (S start) i Hn Hbad Hr). reflexivity.
Qed.

(** The prompt built from a hit list whose first 1000 items are documents. *)
Lemma prompt_from_first_1000
  (index_name : string) (index_data analysis_options : value) (hits : list value) :
  Generator.hits_of index_data = Ok (VList hits) ->
  forallb is_document (firstn 1000 hits) = true ->
  total_is_number index_data = true ->
  is_dict analysis_options = true ->
  exists p,
    Generator._create_prompt index_name index_data analysis_options = Ok p /\
    List.length (p_sample_docs p) = Nat.min 1000 (List.length hits) /\
    (forall i hit, nth_error (firstn 1000 hits) i = Some hit ->
                   nth_error (p_sample_docs p) i = Some (spec_entry i hit)) /\
    p_fetched p = str_of_Z (Z.of_nat (List.length hits)).
Proof.
  intros Hhits Hdocs Htotal Hopts.
  pose proof (hits_of_dict _ _ Hhits) as Hdict.
  destruct (sample_loop_documents (firstn 1000 hits) 0 Hdocs)
    as (docs & Hloop & Hlen & Hnth).
  unfold total_is_number in Htotal.
  destruct (get index_data "total_hits" (VInt 0)) as [total |] eqn:Gtotal;
    [| discriminate].
  destruct (format_comma_number total Htotal) as (total_text & Ftotal).
  destruct (get_dict index_data "took_ms" (VInt 0) Hdict) as (took & Gtook).
  destruct (get_dict analysis_options "focus" (VStr "All") Hopts) as (fo & Gfo).
  destruct (get_dict analysis_options "security" (VBool true) Hopts) as (se & Gse).
  destruct (get_dict analysis_options "include_external" (VBool true) Hopts)
    as (ie & Gie).
  eexists. split.
  { unfold Generator._create_prompt. rewrite Hhits. cbn [rbind slice_items].
    change (Z.of_nat 0) with 0%Z in Hloop. rewrite Hloop. cbn [rbind].
    rewrite Gtotal. cbn [rbind]. rewrite Ftotal. cbn [rbind].
    rewrite Gtook. cbn [rbind len]. rewrite Gfo. cbn [rbind].
    rewrite Gse. cbn [rbind]. rewrite Gie. cbn [rbind]. reflexivity. }
  cbn [p_sample_docs p_fetched]. split; [rewrite Hlen; apply length_firstn |].
  split; [exact Hnth | reflexivity].
Qed.

(** X14.  Only the first 1000 hits are inspected.  When these are documents
    (and the total is numeric, the options a mapping), [_create_prompt]
    succeeds whatever comes after them: the sample holds their entries in
    order and the prompt states the number of hits fetched, not the size of
    the sample. *)
Theorem hits_beyond_the_cap_are_not_inspected
  (index_name : string) (index_data analysis_options : value) (hits : list value) :
  Generator.hits_of index_data = Ok (VList hits) ->
  forallb is_document (firstn 1000 hits) = true ->
  total_is_number index_data = true ->
  is_dict analysis_options = true ->
  exists p,
    Generator._create_prompt index_name index_data analysis_options = Ok p /\
    List.length (p_sample_docs p) = Nat.min 1000 (List.length hits) /\
    (forall i hit, nth_error (firstn 1000 hits) i = Some hit ->
                   nth_error (p_sample_docs p) i = Some (spec_entry i hit)) /\
    p_fetched p = str_of_Z (Z.of_nat (List.length hits)).
Proof. exact (prompt_from_first_1000 index_name index_data analysis_options hits). Qed.

Lemma hits_beyond_the_cap_are_not_inspected_witness :
  exists p,
    Generator._create_prompt "app-logs-2024"
      (Fixture.index_data_of (repeat Fixture.full_hit 1000 ++ [VInt 5]))
      Fixture.options = Ok p /\
    List.length (p_sample_docs p)
      = Nat.min 1000 (List.length (repeat Fixture.full_hit 1000 ++ [VInt 5])) /\
    (forall i hit,
        nth_error (firstn 1000 (repeat Fixture.full_hit 1000 ++ [VInt 5])) i = Some hit ->
        nth_error (p_sample_docs p) i = Some (spec_entry i hit)) /\
    p_fetched p
      = str_of_Z (Z.of_nat (List.length (repeat Fixture.full_hit 1000 ++ [VInt 5]))).
Proof.
  apply (hits_beyond_the_cap_are_not_inspected "app-logs-2024"
           (Fixture.index_data_of (repeat Fixture.full_hit 1000 ++ [VInt 5]))
           Fixture.options (repeat Fixture.full_hit 1000 ++ [VInt 5]));
    vm_compute; reflexivity.
Defined.

(** X15.  A hit among the first 1000 that is not a document, the ones before
    it being documents, makes [_create_prompt] raise: the [AttributeError]
    of the value that has no [get], which is the hit itself or its
    [_source].  No prompt is produced, whatever the other hits are. *)
Theorem malformed_hit_aborts_the_prompt
  (index_name : string) (index_data analysis_options : value)
  (hits : list value) (i : nat) (hit : value) :
  Generator.hits_of index_data = Ok (VList hits) ->
  (i < 1000)%nat ->
  nth_error hits i = Some hit ->
  is_document hit = false ->
  forallb is_document (firstn i hits) = true ->
  Generator._create_prompt index_name index_data analysis_options
    = Raise (PyError "AttributeError"
               ("'" ++ type_name (culprit hit) ++ "' object has no attribute 'get'")).
Proof.
  intros Hhits Hi Hn Hbad Hgood.
  unfold Generator._create_prompt. rewrite Hhits. cbn [rbind slice_items].
  change 0%Z with (Z.of_nat 0).
  rewrite (sample_loop_culprit (firstn 1000 hits) 0 i hit).
  - reflexivity.
  - rewrite nth_error_firstn. destruct (Nat.ltb_spec i 1000); [exact Hn | lia].
  - exact Hbad.
  - rewrite firstn_firstn. replace (Nat.min i 1000) with i by lia. exact Hgood.
Qed.

Lemma malformed_hit_aborts_the_prompt_witness :
  Generator._create_prompt "app-logs-2024"
    (Fixture.index_data_of
       [Fixture.full_hit; VDict [("_source", VStr "raw line")]; Fixture.full_hit])
    Fixture.options
  = Raise (PyError "AttributeError"
             ("'" ++ type_name (culprit (VDict [("_source", VStr "raw line")]))
                  ++ "' object has no attribute 'get'")).
Proof.
  apply (malformed_hit_aborts_the_prompt "app-logs-2024"
           (Fixture.index_data_of
              [Fixture.full_hit; VDict [("_source", VStr "raw line")]; Fixture.full_hit])
           Fixture.options
           [Fixture.full_hit; VDict [("_source", VStr "raw line")]; Fixture.full_hit]
           1 (VDict [("_source", VStr "raw line")]));
    first [reflexivity | lia].
Defined.

(** ** Plan orchestrator: what it never does, and its edges *)

(** X16.  [generate_plan] never raises, for any index data, options, provider
    and state, and its two results are tied together: the metrics say
    success = True exactly when the returned plan is truthy, and a plan that
    is not is the empty string. *)
Theorem generate_plan_never_raises
  (env : Env) (self : Generator.ChaosPlanGenerator) (index_name : string)
  (index_data analysis_options : value) (st : State) :
  exists plan m,
    fst (Generator.generate_plan env self index_name index_data analysis_options st)
      = Ok (plan, m) /\
    (lookup m "success" = Some (Generator.MBool true) <-> truthy plan = true) /\
    (lookup m "success" = Some (Generator.MBool false) <-> plan = VStr EmptyString).
Proof.
  rewrite generate_plan_run. cbv zeta.
  assert (Hfailed : forall t msg (s : State),
             exists plan m,
               fst (Ok (VStr EmptyString, failed_metrics t msg), s) = Ok (plan, m) /\
               (lookup m "success" = Some (Generator.MBool true) <-> truthy plan = true) /\
               (lookup m "success" = Some (Generator.MBool false)
                <-> plan = VStr EmptyString)).
  { intros t msg s. eexists _, _. split; [reflexivity |]. split.
    - split; discriminate.
    - split; reflexivity. }
  destruct (Generator._create_prompt index_name index_data analysis_options)
    as [prompt | e]; [| apply Hfailed].
  destruct (LLM.analyze_with_bedrock env (Generator.llm_client self) prompt
              (record ETime st)) as [[plan | e] st2]; [| apply Hfailed].
  destruct (truthy plan) eqn:T; [| apply Hfailed].
  destruct (len plan) as [n |] eqn:L; [| apply Hfailed].
  eexists _, _. split; [reflexivity |]. split.
  - split; [intros _; exact T | reflexivity].
  - split; [discriminate |]. intros ->. discriminate.
Qed.

(** X17.  When the prompt cannot be built, [generate_plan] gives up before
    reaching the provider: it has read the clock once and done nothing else,
    and it returns the empty plan with success = False and the text of the
    exception as the error. *)
Theorem prompt_failure_stops_before_the_provider
  (env : Env) (self : Generator.ChaosPlanGenerator) (index_name : string)
  (index_data analysis_options : value) (st : State) (e : exn) :
  Generator._create_prompt index_name index_data analysis_options = Raise e ->
  Generator.generate_plan env self index_name index_data analysis_options st =
  (Ok (VStr EmptyString,
       [("start_time", Generator.MTime (time_time env (history st)));
        ("success", Generator.MBool false);
        ("error", Generator.MStr (exn_str e))]),
   {| history := (history st ++ [ETime])%list; client := client st |}).
Proof.
  intros H. rewrite generate_plan_run. cbv zeta. rewrite H. reflexivity.
Qed.

Lemma prompt_failure_stops_before_the_provider_witness :
  Generator.generate_plan (Fixture.flaky 0 (VStr "plan")) Fixture.generator
    "app-logs-2024"
    (Fixture.index_data_of [VDict [("_source", VStr "raw line")]])
    Fixture.options initial =
  (Ok (VStr EmptyString,
       [("start_time",
         Generator.MTime (time_time (Fixture.flaky 0 (VStr "plan")) (history initial)));
        ("success", Generator.MBool false);
        ("error", Generator.MStr
                    (exn_str (PyError "AttributeError"
                                "'str' object has no attribute 'get'")))]),
   {| history := (history initial ++ [ETime])%list; client := client initial |}).
Proof.
  apply (prompt_failure_stops_before_the_provider (Fixture.flaky 0 (VStr "plan"))
           Fixture.generator "app-logs-2024"
           (Fixture.index_data_of [VDict [("_source", VStr "raw line")]])
           Fixture.options initial
           (PyError "AttributeError" "'str' object has no attribute 'get'")).
  reflexivity.
Defined.

(** X18.  A reply text that is truthy but has no length (a number, [True])
    is reported as a failure although the provider answered: the error is
    the [TypeError] of [len], and the clock has been read twice more by then.
    Nothing of the reply is returned. *)
Theorem reply_without_length_is_reported_as_failure
  (env : Env) (self : Generator.ChaosPlanGenerator) (index_name : string)
  (index_data analysis_options : value) (prompt : Prompt) (st st2 : State)
  (plan : value) :
  Generator._create_prompt index_name index_data analysis_options = Ok prompt ->
  LLM.analyze_with_bedrock env (Generator.llm_client self) prompt (record ETime st)
    = (Ok plan, st2) ->
  truthy plan = true ->
  has_len plan = false ->
  Generator.generate_plan env self index_name index_data analysis_options st =
  (Ok (VStr EmptyString,
       [("start_time", Generator.MTime (time_time env (history st)));
        ("success", Generator.MBool false);
        ("error", Generator.MStr ("object of type '" ++ type_name plan
                                    ++ "' has no len()"))]),
   {| history := (history st2 ++ [ETime; ETime])%list; client := client st2 |}).
Proof.
  intros Hp Ha Ht Hl. rewrite generate_plan_run. cbv zeta. rewrite Hp, Ha, Ht.
  unfold record. cbn [history client]. rewrite <- app_assoc.
  destruct plan; try discriminate; reflexivity.
Qed.

Lemma reply_without_length_is_reported_as_failure_witness :
  Generator.generate_plan (Fixture.flaky 0 (VInt 5)) Fixture.generator
    "app-logs-2024" (Fixture.index_data_of [Fixture.full_hit])
    Fixture.options initial =
  (Ok (VStr EmptyString,
       [("start_time",
         Generator.MTime (time_time (Fixture.flaky 0 (VInt 5)) (history initial)));
        ("success", Generator.MBool false);
        ("error", Generator.MStr ("object of type '" ++ type_name (VInt 5)
                                    ++ "' has no len()"))]),
   {| history :=
        (history {| history := [ETime; ECreateClient "us-east-1";
                                EInvokeModel (LLM.model Fixture.llm) Fixture.prompt];
                    client := true |} ++ [ETime; ETime])%list;
      client := client {| history := [ETime; ECreateClient "us-east-1";
                                      EInvokeModel (LLM.model Fixture.llm) Fixture.prompt];
                          client := true |} |}).
Proof.
  apply (reply_without_length_is_reported_as_failure (Fixture.flaky 0 (VInt 5))
           Fixture.generator "app-logs-2024"
           (Fixture.index_data_of [Fixture.full_hit]) Fixture.options
           Fixture.prompt initial
           {| history := [ETime; ECreateClient "us-east-1";
                          EInvokeModel (LLM.model Fixture.llm) Fixture.prompt];
              client := true |} (VInt 5));
    reflexivity.
Defined.

(** ** The two routes *)

Lemma streamed_fragments_truthy
  (env : Env) (self : LLM.LLMClient) (prompt : Prompt) (st : State) (f : value) :
  In f (fst (fst (LLM.analyze_with_bedrock_streaming env self prompt st))) ->
  truthy f = true.
Proof.
  unfold LLM.analyze_with_bedrock_streaming.
  destruct (bind (LLM.ensure_client env self) _ st) as [[events | e] st'];
    [| intros []].
  pose proof (stream_loop_fragments events) as L.
  destruct (LLM.stream_loop events) as [ys stop].
  destruct L as (consumed & -> & _). cbn [fst].
  intros H. exact (proj1 (fragments_truthy _ _ H)).
Qed.

Lemma planned_chunks_truthy
  (env : Env) (self : Generator.ChaosPlanGenerator) (index_name : string)
  (index_data analysis_options : value) (st : State) (c : value) :
  In c (fst (fst (Generator.generate_plan_streaming env self index_name
                    index_data analysis_options st))) ->
  truthy c = true.
Proof.
  unfold Generator.generate_plan_streaming.
  destruct (Generator._create_prompt index_name index_data analysis_options)
    as [prompt | e]; [| intros []].
  apply streamed_fragments_truthy.
Qed.

(** X19.  [plan_generator_stream] never raises to its consumer, whatever the
    request, the backends and the state.  What it yields is a run of data
    events followed by at most one error event, which is then the last event
    of the stream; a data event is the text "data: ", the fragment and two
    newlines, an error event the text [data: {"error": "<text>"}] and two
    newlines.  Once the fetch has succeeded and the options are there, the
    data events are those of the fragments of [generate_plan_streaming], one
    for each and in their order, every one of them non-empty, and the error
    event is there exactly when that generator raised, with the text of its
    exception. *)
Theorem stream_ends_with_at_most_one_error_event
  (env : Env) (request : Api.GeneratePlanRequest) (st : State) :
  let os_client :=
    OpenSearch.init (Api.cfg_endpoint (Api.opensearch_config request))
                    (Api.cfg_username (Api.opensearch_config request))
                    (Api.cfg_password (Api.opensearch_config request)) in
  let generator :=
    {| Generator.os_client := os_client;
       Generator.llm_client :=
         LLM.init (Api.cfg_model (Api.aws_config request))
                  (Api.cfg_region (Api.aws_config request)) |} in
  let quote := String "034" EmptyString in
  let newline := String "010" EmptyString in
  let data_event := fun chunk : value =>
    "data: " ++ py_str chunk ++ newline ++ newline in
  let error_event := fun text : string =>
    "data: {" ++ quote ++ "error" ++ quote ++ ": " ++ quote ++ text
      ++ quote ++ "}" ++ newline ++ newline in
  match Api.plan_generator_stream env request st with
  | (frames, stop, _) =>
      stop = None /\
      exists chunks tail,
        frames = (map data_event chunks ++ tail)%list /\
        (tail = [] \/ exists text, tail = [error_event text]) /\
        (forall c, In c chunks -> truthy c = true) /\
        (forall index_data st1 success options,
            OpenSearch.get_index_data env os_client (Api.index_name request)
              {| history := history st; client := false |}
              = (Ok index_data, st1) ->
            get1 index_data "success" = Ok success ->
            truthy success = true ->
            Api.model_dump (Api.analysis_options request) = Ok options ->
            match Generator.generate_plan_streaming env generator
                    (Api.index_name request) index_data options st1 with
            | (produced, halted, _) =>
                chunks = produced /\
                tail = match halted with
                       | None => []
                       | Some e => [error_event (exn_str e)]
                       end
            end)
  end.
Proof.
  intros os_client generator quote newline data_event error_event.
  assert (Herr : forall text,
             @None exn = None /\
             exists chunks tail,
               [error_event text] = (map data_event chunks ++ tail)%list /\
               (tail = [] \/ exists text, tail = [error_event text]) /\
               (forall c, In c chunks -> truthy c = true)).
  { intros text. split; [reflexivity |]. exists [], [error_event text].
    split; [reflexivity |]. split; [right; eexists; reflexivity | intros c []]. }
  unfold Api.plan_generator_stream, Api.on_exception.
  fold os_client. fold generator.
  destruct (OpenSearch.get_index_data env os_client (Api.index_name request) _)
    as [[index_data | e] st1].
  2:{ destruct (Herr (exn_str e)) as (H1 & chunks & tail & H2 & H3 & H4).
      split; [exact H1 |]. exists chunks, tail.
      split; [exact H2 |]. split; [exact H3 |]. split; [exact H4 |].
      intros ? ? ? ? [=]. }
  destruct (get1 index_data "success") as [success | e] eqn:Gs.
  2:{ destruct (Herr (exn_str e)) as (H1 & chunks & tail & H2 & H3 & H4).
      split; [exact H1 |]. exists chunks, tail.
      split; [exact H2 |]. split; [exact H3 |]. split; [exact H4 |].
      intros ? ? ? ? [= <- <-] G. rewrite Gs in G. discriminate. }
  destruct (truthy success) eqn:Ts; cbn [negb].
  2:{ assert (Hno : forall (frames : list string) (s : State),
                 (exists text, frames = [error_event text]) ->
                 @None exn = None /\
                 exists chunks tail,
                   frames = (map data_event chunks ++ tail)%list /\
                   (tail = [] \/ exists text, tail = [error_event text]) /\
                   (forall c, In c chunks -> truthy c = true) /\
                   (forall index_data0 st0 success0 options,
                       (Ok index_data, st1) = (Ok index_data0, st0) ->
                       get1 index_data0 "success" = Ok success0 ->
                       truthy success0 = true ->
                       Api.model_dump (Api.analysis_options request) = Ok options ->
                       match Generator.generate_plan_streaming env generator
                               (Api.index_name request) index_data0 options st0 with
                       | (produced, halted, _) =>
                           chunks = produced /\
                           tail = match halted with
                                  | None => []
                                  | Some e => [error_event (exn_str e)]
                                  end
                       end)).
      { intros frames s (text & ->).
        destruct (Herr text) as (H1 & chunks & tail & H2 & H3 & H4).
        split; [exact H1 |]. exists chunks, tail.
        split; [exact H2 |]. split; [exact H3 |]. split; [exact H4 |].
        intros ? ? ? ? [= <- <-] G T. rewrite Gs in G. injection G as <-.
        rewrite Ts in T. discriminate. }
      destruct (get1 index_data "error") as [err | e].
      - exact (Hno _ st1 (ex_intro _ _ eq_refl)).
      - exact (Hno _ st1 (ex_intro _ _ eq_refl)). }
  destruct (Api.model_dump (Api.analysis_options request)) as [options | e] eqn:Md.
  2:{ destruct (Herr (exn_str e)) as (H1 & chunks & tail & H2 & H3 & H4).
      split; [exact H1 |]. exists chunks, tail.
      split; [exact H2 |]. split; [exact H3 |]. split; [exact H4 |].
      intros ? ? ? ? _ _ _ [=]. }
  pose proof (planned_chunks_truthy env generator
                (Api.index_name request) index_data options st1) as T.
  destruct (Generator.generate_plan_streaming env generator (Api.index_name request)
              index_data options st1) as [[chunks halted] st2] eqn:G.
  cbn [fst] in T.
  destruct halted as [e |].
  - split; [reflexivity |]. exists chunks, [error_event (exn_str e)].
    split; [reflexivity |]. split; [right; eexists; reflexivity |].
    split; [exact T |].
    intros ? ? ? ? [= <- <-] _ _ [= <-]. rewrite G. split; reflexivity.
  - split; [reflexivity |]. exists chunks, [].
    split; [rewrite app_nil_r; reflexivity |]. split; [left; reflexivity |].
    split; [exact T |].
    intros ? ? ? ? [= <- <-] _ _ [= <-]. rewrite G. split; reflexivity.
Qed.

(** X20.  A request whose [analysis_options] is null gets, after a successful
    fetch, a single error event: the text
    [data: {"error": "'NoneType' object has no attribute 'model_dump'"}] and
    two newlines.  The failure is logged and the model provider is not
    reached. *)
Theorem null_options_end_the_stream_after_the_fetch
  (env : Env) (request : Api.GeneratePlanRequest) (st st1 : State)
  (index_data success : value) :
  let os_client :=
    OpenSearch.init (Api.cfg_endpoint (Api.opensearch_config request))
                    (Api.cfg_username (Api.opensearch_config request))
                    (Api.cfg_password (Api.opensearch_config request)) in
  let quote := String "034" EmptyString in
  let newline := String "010" EmptyString in
  OpenSearch.get_index_data env os_client (Api.index_name request)
    {| history := history st; client := false |} = (Ok index_data, st1) ->
  get1 index_data "success" = Ok success ->
  truthy success = true ->
  Api.analysis_options request = None ->
  Api.plan_generator_stream env request st =
  (["data: {" ++ quote ++ "error" ++ quote ++ ": " ++ quote
      ++ "'NoneType' object has no attribute 'model_dump'"
      ++ quote ++ "}" ++ newline ++ newline],
   None,
   {| history :=
        (history st1 ++
         [ELoggerError ("Error in streaming chaos plan: "
                          ++ "'NoneType' object has no attribute 'model_dump'")])%list;
      client := client st1 |}) /\
  exists new,
    history st1 = (history st ++ new)%list /\ existsb touches_model new = false.
Proof.
  intros os_client quote newline Hfetch Hs Ht Hn.
  pose proof (get_index_data_effects env os_client (Api.index_name request)
                {| history := history st; client := false |}) as Heff.
  rewrite Hfetch in Heff. cbn [snd history] in Heff.
  destruct Heff as (new & Hh & _ & Hm & _).
  split; [| exists new; auto].
  unfold Api.plan_generator_stream. fold os_client. rewrite Hfetch, Hs, Ht, Hn.
  reflexivity.
Qed.

Lemma null_options_end_the_stream_after_the_fetch_witness :
  let request :=
    {| Api.index_name := "app-logs-2024";
       Api.opensearch_config := Api.opensearch_config Fixture.request;
       Api.aws_config := Api.aws_config Fixture.request;
       Api.analysis_options := None |} in
  let env :=
    Fixture.backend (Fixture.response 200 "OK" (Ok (VDict [])))
      (Fixture.response 200 "OK" (Ok (Fixture.search_reply [Fixture.full_hit]))) in
  let st1 :=
    snd (OpenSearch.get_index_data env Fixture.client "app-logs-2024" initial) in
  Api.plan_generator_stream env request initial =
  (["data: {" ++ String "034" EmptyString ++ "error" ++ String "034" EmptyString
      ++ ": " ++ String "034" EmptyString
      ++ "'NoneType' object has no attribute 'model_dump'"
      ++ String "034" EmptyString ++ "}"
      ++ String "010" EmptyString ++ String "010" EmptyString],
   None,
   {| history :=
        (history st1 ++
         [ELoggerError ("Error in streaming chaos plan: "
                          ++ "'NoneType' object has no attribute 'model_dump'")])%list;
      client := client st1 |}) /\
  exists new,
    history st1 = (history initial ++ new)%list /\ existsb touches_model new = false.
Proof.
  intros request env st1.
  apply (null_options_end_the_stream_after_the_fetch env request initial st1
           (Fixture.index_data_of [Fixture.full_hit]) (VBool true));
    reflexivity.
Defined.

(** The two kinds of result of [generate_plan]. *)
Lemma generate_plan_cases
  (env : Env) (self : Generator.ChaosPlanGenerator) (index_name : string)
  (index_data analysis_options : value) (st : State) :
  exists plan m st',
    Generator.generate_plan env self index_name index_data analysis_options st
      = (Ok (plan, m), st') /\
    ((exists t msg, m = failed_metrics t msg /\ plan = VStr EmptyString) \/
     (exists t a b n, m = succeeded_metrics t a b n /\
                      truthy plan = true /\ len plan = Ok n)).
Proof.
  rewrite generate_plan_run. cbv zeta.
  destruct (Generator._create_prompt index_name index_data analysis_options)
    as [prompt | e]; [| eexists _, _, _; split; [reflexivity | left; eauto]].
  destruct (LLM.analyze_with_bedrock env (Generator.llm_client self) prompt
              (record ETime st)) as [[plan | e] st2];
    [| eexists _, _, _; split; [reflexivity | left; eauto]].
  destruct (truthy plan) eqn:T;
    [| eexists _, _, _; split; [reflexivity | left; eauto]].
  destruct (len plan) as [n |] eqn:L;
    [| eexists _, _, _; split; [reflexivity | left; eauto]].
  eexists _, _, _. split; [reflexivity |]. right. eauto 10.
Qed.

(** X21.  The blocking route [generate_chaos_plan] never raises: every
    failure below it, a rejected response object included, comes back as a
    response.  A response with success = True carries a non-empty plan text
    and the metrics of a successful generation, whose [plan_length] is the
    length of that text, and no error; a response with success = False
    carries an error text and neither plan nor metrics. *)
Theorem generate_chaos_plan_always_responds
  (env : Env) (plan_rejected : value -> string)
  (error_rejected : Generator.mval -> string)
  (request : Api.GeneratePlanRequest) (st : State) :
  exists response,
    fst (Routes.generate_chaos_plan env plan_rejected error_rejected request st)
      = Ok response /\
    (Routes.r_success response = true ->
     exists s m,
       Routes.r_plan response = Some s /\ s <> EmptyString /\
       Routes.r_metrics response = Some m /\
       lookup m "success" = Some (Generator.MBool true) /\
       lookup m "plan_length" = Some (Generator.MInt (Z.of_nat (String.length s))) /\
       Routes.r_error response = None) /\
    (Routes.r_success response = false ->
     Routes.r_plan response = None /\ Routes.r_metrics response = None /\
     exists msg, Routes.r_error response = Some msg).
Proof.
  assert (Hfailed : forall msg,
             exists response,
               Ok (Routes.failed msg) = Ok response /\
               (Routes.r_success response = true ->
                exists s m,
                  Routes.r_plan response = Some s /\ s <> EmptyString /\
                  Routes.r_metrics response = Some m /\
                  lookup m "success" = Some (Generator.MBool true) /\
                  lookup m "plan_length"
                    = Some (Generator.MInt (Z.of_nat (String.length s))) /\
                  Routes.r_error response = None) /\
               (Routes.r_success response = false ->
                Routes.r_plan response = None /\ Routes.r_metrics response = None /\
                exists msg, Routes.r_error response = Some msg)).
  { intros msg. eexists. split; [reflexivity |]. split; [discriminate |].
    intros _. cbn. eauto. }
  unfold Routes.generate_chaos_plan, try_except, bind at 1, Routes.new_llm_client.
  unfold bind at 1.
  destruct (OpenSearch.get_index_data env _ (Api.index_name request) _)
    as [[index_data | e] st1];
    [| exact (Hfailed _)].
  unfold bind at 1, lift at 1.
  destruct (get1 index_data "success") as [success | e];
    [| exact (Hfailed _)].
  destruct (negb (truthy success)).
  { unfold bind, lift, ret.
    destruct (get1 index_data "error"); exact (Hfailed _). }
  unfold bind at 1, lift at 1.
  destruct (Api.model_dump (Api.analysis_options request)) as [options | e];
    [| exact (Hfailed _)].
  unfold bind at 1.
  match goal with
  | |- context [Generator.generate_plan env ?g ?i ?d ?o ?s] =>
      destruct (generate_plan_cases env g i d o s) as (plan & m & st2 & -> & Hcase)
  end.
  cbn [fst snd]. unfold lift.
  destruct Hcase as [(t & msg & -> & ->) | (t & a & b & n & -> & Ht & Hl)].
  - exact (Hfailed _).
  - cbn [Routes.metrics_success succeeded_metrics lookup String.eqb Ascii.eqb Bool.eqb].
    destruct plan as [| | | | s | |]; try discriminate;
      try exact (Hfailed _).
    cbn [Routes.accepted]. eexists. split; [reflexivity |]. split; [| discriminate].
    intros _. cbn [len] in Hl. injection Hl as <-.
    exists s, (succeeded_metrics t a b (Z.of_nat (String.length s))).
    split; [reflexivity |]. split.
    { intros ->. discriminate. }
    repeat split.
Qed.

(** X22.  When the fetch fails, the blocking route answers with
    success = False and the error "Failed to fetch index data: " followed by
    the fetch error, the same text the streaming route sends.  It stops
    there: no clock is read, no prompt is built and nothing reaches the model
    provider. *)
Theorem blocking_route_stops_after_fetch_failure
  (env : Env) (plan_rejected : value -> string)
  (error_rejected : Generator.mval -> string)
  (request : Api.GeneratePlanRequest) (st : State) (e : exn) :
  let os_client :=
    OpenSearch.init (Api.cfg_endpoint (Api.opensearch_config request))
                    (Api.cfg_username (Api.opensearch_config request))
                    (Api.cfg_password (Api.opensearch_config request)) in
  fst (OpenSearch.get_index_data env os_client (Api.index_name request)
         {| history := history st; client := false |})
    = Ok (OpenSearch.failure e) ->
  match Routes.generate_chaos_plan env plan_rejected error_rejected request st with
  | (r, st') =>
      r = Ok {| Routes.r_success := false;
                Routes.r_plan := None;
                Routes.r_metrics := None;
                Routes.r_error :=
                  Some ("Failed to fetch index data: " ++ exn_str e) |} /\
      exists new,
        history st' = (history st ++ new)%list /\
        existsb touches_model new = false /\
        existsb is_time new = false
  end.
Proof.
  intros os_client Hfetch.
  unfold Routes.generate_chaos_plan, try_except, bind at 1, Routes.new_llm_client.
  unfold bind at 1. fold os_client.
  pose proof (get_index_data_requests env os_client (Api.index_name request)
                {| history := history st; client := false |}) as Hreq.
  destruct (OpenSearch.get_index_data env os_client (Api.index_name request)
              {| history := history st; client := false |}) as [r st1].
  cbn [fst] in Hfetch. subst r. cbn [history] in Hreq.
  destruct Hreq as (_ & Hh).
  split; [reflexivity |].
  cbn.
  destruct (session_get env (history st) (mapping_url os_client (Api.index_name request)));
    eexists; (split; [exact Hh | split; reflexivity]).
Qed.

Lemma blocking_route_stops_after_fetch_failure_witness :
  match Routes.generate_chaos_plan Fixture.down (fun _ => "plan: not a string")
          (fun _ => "error: not a string") Fixture.request initial with
  | (r, st') =>
      r = Ok {| Routes.r_success := false;
                Routes.r_plan := None;
                Routes.r_metrics := None;
                Routes.r_error :=
                  Some ("Failed to fetch index data: "
                          ++ exn_str Fixture.unreachable) |} /\
      exists new,
        history st' = (history initial ++ new)%list /\
        existsb touches_model new = false /\
        existsb is_time new = false
  end.
Proof.
  apply (blocking_route_stops_after_fetch_failure Fixture.down
           (fun _ => "plan: not a string") (fun _ => "error: not a string")
           Fixture.request initial Fixture.unreachable).
  reflexivity.
Defined.

(** ** From the fetch to the prompt *)

(** X23.  The fetch and the prompt assembler fit together.  For a search
    reply with a hit list whose first 1000 hits are documents and a numeric
    total, and an options mapping: the index data the fetch returns is
    accepted by [_create_prompt], the sample is made of the entries of those
    hits in the order of the reply, and the prompt states the number of hits
    of the reply. *)
Theorem fetched_documents_reach_the_prompt
  (env : Env) (self : OpenSearch.OpenSearchClient) (index_name : string)
  (st : State) (mapping_response search_response : Response)
  (mapping analysis_options : value) (d h t : list (string * value))
  (hs : list value) :
  session_get env (history st) (mapping_url self index_name) = Ok mapping_response ->
  (if ok mapping_response then json mapping_response else Ok (VDict []))
    = Ok mapping ->
  session_post env (history st ++ [EGet (mapping_url self index_name)])
    (search_url self index_name) OpenSearch.search_body = Ok search_response ->
  ok search_response = true ->
  json search_response = Ok (VDict d) ->
  lookup d "hits" = Some (VDict h) ->
  lookup h "hits" = Some (VList hs) ->
  lookup h "total" = Some (VDict t) ->
  is_number (shown t "value" (VInt 0)) = true ->
  forallb is_document (firstn 1000 hs) = true ->
  is_dict analysis_options = true ->
  exists index_data p,
    fst (OpenSearch.get_index_data env self index_name st) = Ok index_data /\
    Generator._create_prompt index_name index_data analysis_options = Ok p /\
    List.length (p_sample_docs p) = Nat.min 1000 (List.length hs) /\
    (forall i hit, nth_error (firstn 1000 hs) i = Some hit ->
                   nth_error (p_sample_docs p) i = Some (spec_entry i hit)) /\
    p_fetched p = str_of_Z (Z.of_nat (List.length hs)).
Proof.
  intros Hget Hm Hpost Hs Hj Hh Hhs Ht Hnum Hdocs Hopts.
  exists (VDict [("mapping", mapping);
                 ("documents", VDict d);
                 ("sample_size", VInt (Z.of_nat (List.length hs)));
                 ("total_hits", shown t "value" (VInt 0));
                 ("took_ms", shown d "took" (VInt 0));
                 ("success", VBool true)]).
  assert (Hfetch : fst (OpenSearch.get_index_data env self index_name st) =
                   Ok (VDict [("mapping", mapping);
                              ("documents", VDict d);
                              ("sample_size", VInt (Z.of_nat (List.length hs)));
                              ("total_hits", shown t "value" (VInt 0));
                              ("took_ms", shown d "took" (VInt 0));
                              ("success", VBool true)])).
  { rewrite (get_index_data_summary _ _ _ _ _ _ Hget Hpost).
    unfold summary. rewrite Hj, Hm. unfold ok in Hs.
    destruct (raise_for_status search_response) as [[] |]; [| discriminate].
    cbn [rbind get]. rewrite Hh. cbn [rbind get]. rewrite Hhs, Ht.
    cbn [rbind get len]. reflexivity. }
  destruct (prompt_from_first_1000 index_name
              (VDict [("mapping", mapping);
                      ("documents", VDict d);
                      ("sample_size", VInt (Z.of_nat (List.length hs)));
                      ("total_hits", shown t "value" (VInt 0));
                      ("took_ms", shown d "took" (VInt 0));
                      ("success", VBool true)])
              analysis_options hs) as (p & Hp).
  - unfold Generator.hits_of.
    cbn [get lookup String.eqb Ascii.eqb Bool.eqb rbind].
    rewrite Hh. cbn [get rbind]. rewrite Hhs. reflexivity.
  - exact Hdocs.
  - exact Hnum.
  - exact Hopts.
  - exists p. split; [exact Hfetch | exact Hp].
Qed.

Lemma fetched_documents_reach_the_prompt_witness :
  exists index_data p,
    fst (OpenSearch.get_index_data
           (Fixture.backend (Fixture.response 200 "OK" (Ok (VDict [])))
              (Fixture.response 200 "OK"
                 (Ok (Fixture.search_reply [Fixture.full_hit; Fixture.null_level_hit]))))
           Fixture.client "app-logs-2024" initial) = Ok index_data /\
    Generator._create_prompt "app-logs-2024" index_data Fixture.options = Ok p /\
    List.length (p_sample_docs p)
      = Nat.min 1000 (List.length [Fixture.full_hit; Fixture.null_level_hit]) /\
    (forall i hit,
        nth_error (firstn 1000 [Fixture.full_hit; Fixture.null_level_hit]) i = Some hit ->
        nth_error (p_sample_docs p) i = Some (spec_entry i hit)) /\
    p_fetched p
      = str_of_Z (Z.of_nat (List.length [Fixture.full_hit; Fixture.null_level_hit])).
Proof.
  apply (fetched_documents_reach_the_prompt
           (Fixture.backend (Fixture.response 200 "OK" (Ok (VDict [])))
              (Fixture.response 200 "OK"
                 (Ok (Fixture.search_reply [Fixture.full_hit; Fixture.null_level_hit]))))
           Fixture.client "app-logs-2024" initial
           (Fixture.response 200 "OK" (Ok (VDict [])))
           (Fixture.response 200 "OK"
              (Ok (Fixture.search_reply [Fixture.full_hit; Fixture.null_level_hit])))
           (VDict []) Fixture.options
           [("took", VInt 7);
            ("hits", VDict [("total", VDict [("value", VInt 50000)]);
                            ("hits", VList [Fixture.full_hit; Fixture.null_level_hit])])]
           [("total", VDict [("value", VInt 50000)]);
            ("hits", VList [Fixture.full_hit; Fixture.null_level_hit])]
           [("value", VInt 50000)]
           [Fixture.full_hit; Fixture.null_level_hit]);
    reflexivity.
Defined.
